(** * The RTMP transport-control loop of [rtmp_optimizer.py]

    A shallow embedding of the three controllers of
    [projects/流媒体传输/RTMP优化/rtmp_optimizer.py]
    ([RTMPAdaptiveBitrate], [RTMPBufferManager], [RTMPCongestionController])
    and the properties their specification states about them.

    Python's [int] is [Z].  Python's [float] is IEEE 754 binary64, taken
    from the Standard Library's executable specification [SpecFloat]
    instantiated at precision 53 and maximal exponent 1024; every float
    literal of the source is the binary64 value the literal denotes.
    Exceptions are the [Raise] results of a small error monad. *)

From Stdlib Require Import ZArith QArith Qpower Qround Qminmax Bool List Lia Lqa.
From Stdlib Require Import SpecFloat PrimFloat FloatOps.
Import ListNotations.

Local Open Scope Z_scope.
#[local] Set Warnings "-inexact-float".

(** ** Python values and exceptions *)

Module Py.

(** The exceptions the modelled statements can raise, together with the
    [InvalidSample] kind that the specification names for rejected
    telemetry (no statement of the source raises it). *)
Inductive exn : Type :=
  | OverflowError
  | ValueError
  | ZeroDivisionError
  | InvalidSample.

Inductive result (A : Type) : Type :=
  | Ok (a : A)
  | Raise (e : exn).

Arguments Ok {A} a.
Arguments Raise {A} e.

Definition bind {A B : Type} (r : result A) (k : A -> result B) : result B :=
  match r with
  | Ok a => k a
  | Raise e => Raise e
  end.

Definition raises {A : Type} (r : result A) : bool :=
  match r with
  | Ok _ => false
  | Raise _ => true
  end.

End Py.

Import Py.

Declare Scope py_scope.
Delimit Scope py_scope with py.
Notation "x <- c ;; k" := (bind c (fun x => k))
  (at level 61, c at next level, right associativity) : py_scope.
Local Open Scope py_scope.

(** ** Binary64 arithmetic *)

Module F64.

(** [prec = 53] and [emax = 1024] are the Standard Library's binary64
    parameters. *)
Definition float64 : Type := spec_float.

Definition add : float64 -> float64 -> float64 := SFadd prec emax.
Definition sub : float64 -> float64 -> float64 := SFsub prec emax.
Definition mul : float64 -> float64 -> float64 := SFmul prec emax.
Definition div : float64 -> float64 -> float64 := SFdiv prec emax.

(** [x > y] and [x < y] on floats: false as soon as one side is a NaN. *)
Definition gtb (x y : float64) : bool := SFltb y x.
Definition ltb (x y : float64) : bool := SFltb x y.

(** The value of a float literal of the source text. *)
Definition lit (x : PrimFloat.float) : float64 := Prim2SF x.

(** Conversion of an [int] that takes part in float arithmetic: correctly
    rounded, [OverflowError] when the integer is beyond the float range. *)
Definition of_int (z : Z) : result float64 :=
  match binary_normalize prec emax z 0 false with
  | S754_infinity _ => Raise OverflowError
  | f => Ok f
  end.

(** [int(x)]: truncation toward zero; [ValueError] on a NaN and
    [OverflowError] on an infinity. *)
Definition to_int (x : float64) : result Z :=
  match x with
  | S754_nan => Raise ValueError
  | S754_infinity _ => Raise OverflowError
  | S754_zero _ => Ok 0
  | S754_finite s m e => Ok (cond_Zopp s (Z.shiftl (Zpos m) e))
  end.

(** The exact rational value of a finite float ([0] for the others). *)
Definition pow2 (e : Z) : Q := (2 ^ e)%Q.

Definition to_Q (x : float64) : Q :=
  match x with
  | S754_finite s m e => inject_Z (cond_Zopp s (Zpos m)) * pow2 e
  | _ => 0
  end.

Definition is_finite (x : float64) : bool :=
  match x with
  | S754_finite _ _ _ | S754_zero _ => true
  | _ => false
  end.

End F64.

Import F64.

(** ** NumPy reductions used by the source *)

Module Np.

Definition zero : float64 := S754_zero false.

(** [DOUBLE_pairwise_sum] for at most 128 elements: fewer than eight are
    added left to right; otherwise eight running sums are kept, combined
    as a balanced tree, and the remainder is added left to right. *)
Fixpoint add_lanes (r xs : list float64) : list float64 :=
  match r, xs with
  | a :: r', x :: xs' => add a x :: add_lanes r' xs'
  | _, _ => r
  end.

Fixpoint blocks (fuel : nat) (r xs : list float64) : list float64 * list float64 :=
  match fuel with
  | O => (r, xs)
  | S fuel' =>
      if (8 <=? length xs)%nat
      then blocks fuel' (add_lanes r (firstn 8 xs)) (skipn 8 xs)
      else (r, xs)
  end.

Definition combine8 (r : list float64) : float64 :=
  match r with
  | [r0; r1; r2; r3; r4; r5; r6; r7] =>
      add (add (add r0 r1) (add r2 r3)) (add (add r4 r5) (add r6 r7))
  | _ => zero
  end.

Definition sum_block (xs : list float64) : float64 :=
  if (length xs <? 8)%nat then fold_left add xs zero
  else
    let '(r, rest) := blocks (length xs) (firstn 8 xs) (skipn 8 xs) in
    fold_left add rest (combine8 r).

(** Longer inputs are split in two, the left part a multiple of eight. *)
Fixpoint pairwise_sum (fuel : nat) (xs : list float64) : float64 :=
  match fuel with
  | O => sum_block xs
  | S fuel' =>
      if (length xs <=? 128)%nat then sum_block xs
      else
        let n2 := (length xs / 2)%nat in
        let n2 := (n2 - n2 mod 8)%nat in
        add (pairwise_sum fuel' (firstn n2 xs)) (pairwise_sum fuel' (skipn n2 xs))
  end.

Definition sum (xs : list float64) : float64 := pairwise_sum (length xs) xs.

Definition count (xs : list float64) : float64 :=
  binary_normalize prec emax (Z.of_nat (length xs)) 0 false.

(** [np.mean(xs)]: the sum divided by the number of elements. *)
Definition mean (xs : list float64) : float64 := div (sum xs) (count xs).

(** [np.var(xs)]: the mean of the squared deviations from the mean. *)
Definition var (xs : list float64) : float64 :=
  let m := mean xs in
  let d := map (fun x => sub x m) xs in
  div (sum (map (fun x => mul x x) d)) (count xs).

End Np.

(** ** Sequences *)

(** [collections.deque(maxlen=n).append]: the oldest element leaves when
    the deque is full. *)
Definition deque_append {A : Type} (maxlen : nat) (d : list A) (x : A) : list A :=
  let d' := d ++ [x] in
  skipn (length d' - maxlen) d'.

(** [xs[-n:]] *)
Definition last_n {A : Type} (n : nat) (xs : list A) : list A :=
  skipn (length xs - n) xs.

(** [xs[-hi:-lo]] for [lo <= hi] *)
Definition slice_back {A : Type} (hi lo : nat) (xs : list A) : list A :=
  firstn ((length xs - lo) - (length xs - hi)) (skipn (length xs - hi) xs).

(** ** class RTMPStats *)

Record RTMPStats : Type := mkRTMPStats {
  bytes_sent : Z;
  bytes_received : Z;
  packets_sent : Z;
  packets_received : Z;
  rtt_ms : float64;
  throughput_bps : float64;
  packet_loss_rate : float64;
  buffer_level : Z
}.

(** ** class RTMPAdaptiveBitrate *)

Module Bitrate.

Inductive network_state_t : Type := stable | congested | unstable | degraded.

Definition network_state_eqb (a b : network_state_t) : bool :=
  match a, b with
  | stable, stable | congested, congested
  | unstable, unstable | degraded, degraded => true
  | _, _ => false
  end.

Record RTMPAdaptiveBitrate : Type := mkRTMPAdaptiveBitrate {
  current_bitrate : Z;
  target_bitrate : Z;
  min_bitrate : Z;
  max_bitrate : Z;
  stats_window : list RTMPStats;
  throughput_history : list float64;
  alpha : float64;
  beta : float64;
  gamma : float64;
  network_state : network_state_t;
  congestion_detected : bool
}.

Definition init (initial_bitrate : Z) : RTMPAdaptiveBitrate :=
  {| current_bitrate := initial_bitrate;
     target_bitrate := initial_bitrate;
     min_bitrate := 500000;
     max_bitrate := 8000000;
     stats_window := [];
     throughput_history := [];
     alpha := lit 0.1;
     beta := lit 0.2;
     gamma := lit 0.8;
     network_state := stable;
     congestion_detected := false |}.

Definition set_detection (s : RTMPAdaptiveBitrate) (d : bool) (n : network_state_t)
  : RTMPAdaptiveBitrate :=
  {| current_bitrate := current_bitrate s;
     target_bitrate := target_bitrate s;
     min_bitrate := min_bitrate s;
     max_bitrate := max_bitrate s;
     stats_window := stats_window s;
     throughput_history := throughput_history s;
     alpha := alpha s;
     beta := beta s;
     gamma := gamma s;
     network_state := n;
     congestion_detected := d |}.

Definition set_bitrates (s : RTMPAdaptiveBitrate) (cur tgt : Z) : RTMPAdaptiveBitrate :=
  {| current_bitrate := cur;
     target_bitrate := tgt;
     min_bitrate := min_bitrate s;
     max_bitrate := max_bitrate s;
     stats_window := stats_window s;
     throughput_history := throughput_history s;
     alpha := alpha s;
     beta := beta s;
     gamma := gamma s;
     network_state := network_state s;
     congestion_detected := congestion_detected s |}.

Definition record_sample (s : RTMPAdaptiveBitrate) (stats : RTMPStats)
  : RTMPAdaptiveBitrate :=
  {| current_bitrate := current_bitrate s;
     target_bitrate := target_bitrate s;
     min_bitrate := min_bitrate s;
     max_bitrate := max_bitrate s;
     stats_window := deque_append 100 (stats_window s) stats;
     throughput_history :=
       deque_append 50 (throughput_history s) (throughput_bps stats);
     alpha := alpha s;
     beta := beta s;
     gamma := gamma s;
     network_state := network_state s;
     congestion_detected := congestion_detected s |}.

(** [_detect_congestion] *)
Definition detect_congestion (s : RTMPAdaptiveBitrate) : RTMPAdaptiveBitrate :=
  if (length (stats_window s) <? 10)%nat then s
  else
    let recent_stats := last_n 10 (stats_window s) in
    let avg_loss := Np.mean (map packet_loss_rate recent_stats) in
    if gtb avg_loss (lit 0.05) then set_detection s true congested
    else
      let rtt_values := map rtt_ms recent_stats in
      let rtt_variance := Np.var rtt_values in
      if gtb rtt_variance (lit 100) then set_detection s true unstable
      else
        let fall_through := set_detection s false stable in
        if (20 <=? length (throughput_history s))%nat then
          let recent_throughput := Np.mean (last_n 10 (throughput_history s)) in
          let historical_throughput :=
            Np.mean (slice_back 20 10 (throughput_history s)) in
          if ltb recent_throughput (mul historical_throughput (lit 0.8))
          then set_detection s true degraded
          else fall_through
        else fall_through.

(** [_adjust_bitrate] *)
Definition adjust_bitrate (s : RTMPAdaptiveBitrate) : result RTMPAdaptiveBitrate :=
  match throughput_history s with
  | [] => Ok s
  | _ =>
      let smoothed_throughput := Np.mean (last_n 5 (throughput_history s)) in
      target <-
        (if congestion_detected s then
           let reduction_factor :=
             if network_state_eqb (network_state s) congested then lit 0.5
             else if network_state_eqb (network_state s) unstable then lit 0.8
             else lit 0.7 in
           c <- of_int (current_bitrate s) ;;
           r <- to_int (mul c reduction_factor) ;;
           Ok (Z.max (min_bitrate s) r)
         else
           c <- of_int (current_bitrate s) ;;
           if gtb smoothed_throughput (mul c (lit 1.2)) then
             let increase_factor := lit 1.1 in
             c' <- of_int (current_bitrate s) ;;
             r <- to_int (mul c' increase_factor) ;;
             Ok (Z.min (max_bitrate s) r)
           else Ok (target_bitrate s)) ;;
      c <- of_int (current_bitrate s) ;;
      t <- of_int target ;;
      cur <- to_int (add (mul (gamma s) c) (mul (sub (lit 1) (gamma s)) t)) ;;
      Ok (set_bitrates s cur target)
  end.

(** [update_network_stats] *)
Definition update_network_stats (s : RTMPAdaptiveBitrate) (stats : RTMPStats)
  : result RTMPAdaptiveBitrate :=
  adjust_bitrate (detect_congestion (record_sample s stats)).

Definition get_optimal_bitrate (s : RTMPAdaptiveBitrate) : Z := current_bitrate s.
Definition get_network_state (s : RTMPAdaptiveBitrate) : network_state_t :=
  network_state s.

(** A run of [update_network_stats] calls. *)
Fixpoint feed (s : RTMPAdaptiveBitrate) (xs : list RTMPStats)
  : result RTMPAdaptiveBitrate :=
  match xs with
  | [] => Ok s
  | x :: xs' => s' <- update_network_stats s x ;; feed s' xs'
  end.

End Bitrate.

(** ** class RTMPBufferManager *)

Module Buffer.

Inductive buffer_state_t : Type := low | normal | high.

Record RTMPBufferManager : Type := mkRTMPBufferManager {
  max_buffer_size : Z;
  current_buffer_size : Z;
  buffer_threshold_low : Z;
  buffer_threshold_high : Z;
  buffer_state : buffer_state_t;
  drop_count : Z;
  buffer_utilization : list Z;
  dropped_packets : list float64
}.

(** [__init__]: the thresholds are [int(max_buffer_size * 0.2)] and
    [int(max_buffer_size * 0.8)]. *)
Definition init (max_buffer_size : Z) : result RTMPBufferManager :=
  m <- of_int max_buffer_size ;;
  lo <- to_int (mul m (lit 0.2)) ;;
  hi <- to_int (mul m (lit 0.8)) ;;
  Ok {| max_buffer_size := max_buffer_size;
        current_buffer_size := 0;
        buffer_threshold_low := lo;
        buffer_threshold_high := hi;
        buffer_state := normal;
        drop_count := 0;
        buffer_utilization := [];
        dropped_packets := [] |}.

(** [update_buffer_level] *)
Definition update_buffer_level (bm : RTMPBufferManager) (level : Z)
  : RTMPBufferManager :=
  {| max_buffer_size := max_buffer_size bm;
     current_buffer_size := level;
     buffer_threshold_low := buffer_threshold_low bm;
     buffer_threshold_high := buffer_threshold_high bm;
     buffer_state :=
       if level <=? buffer_threshold_low bm then low
       else if level >=? buffer_threshold_high bm then high
       else normal;
     drop_count := drop_count bm;
     buffer_utilization := buffer_utilization bm ++ [level];
     dropped_packets := dropped_packets bm |}.

(** [should_drop_packets]; [now] is the value [time.time()] returns. *)
Definition should_drop_packets (bm : RTMPBufferManager) (now : float64)
  : bool * RTMPBufferManager :=
  if current_buffer_size bm >=? max_buffer_size bm then
    (true,
     {| max_buffer_size := max_buffer_size bm;
        current_buffer_size := current_buffer_size bm;
        buffer_threshold_low := buffer_threshold_low bm;
        buffer_threshold_high := buffer_threshold_high bm;
        buffer_state := buffer_state bm;
        drop_count := drop_count bm + 1;
        buffer_utilization := buffer_utilization bm;
        dropped_packets := dropped_packets bm ++ [now] |})
  else (false, bm).

(** The method seen as a call that may raise: its body has no [raise]. *)
Definition update_buffer_level_call (bm : RTMPBufferManager) (level : Z)
  : result RTMPBufferManager :=
  Ok (update_buffer_level bm level).

(** A run of [update_buffer_level] calls. *)
Definition run (bm : RTMPBufferManager) (levels : list Z) : RTMPBufferManager :=
  fold_left update_buffer_level levels bm.

End Buffer.

(** ** Python numbers: [int] or [float] *)

Module Num.

Inductive num : Type :=
  | PyInt (z : Z)
  | PyFloat (f : float64).

(** The exact float holding an integer as mantissa (not normalised). *)
Definition exact_int (z : Z) : float64 :=
  match z with
  | Z0 => S754_zero false
  | Zpos p => S754_finite false p 0
  | Zneg p => S754_finite true p 0
  end.

(** Three-way comparison; [None] when a NaN takes part.  An [int] and a
    [float] are compared by value, without rounding the [int]. *)
Definition compare (a b : num) : option comparison :=
  match a, b with
  | PyInt x, PyInt y => Some (Z.compare x y)
  | PyFloat x, PyFloat y => SFcompare x y
  | PyInt x, PyFloat y =>
      match y with
      | S754_nan => None
      | S754_infinity s => Some (if s then Gt else Lt)
      | _ => Some (Qcompare (inject_Z x) (to_Q y))
      end
  | PyFloat x, PyInt y =>
      match x with
      | S754_nan => None
      | S754_infinity s => Some (if s then Lt else Gt)
      | _ => Some (Qcompare (to_Q x) (inject_Z y))
      end
  end.

Definition gtb (a b : num) : bool :=
  match compare a b with Some Gt => true | _ => false end.

Definition geb (a b : num) : bool :=
  match compare a b with Some Gt | Some Eq => true | _ => false end.

(** [max(a, b)]: the first argument unless the second is greater. *)
Definition max (a b : num) : num := if gtb b a then b else a.

(** [a + b] *)
Definition add (a b : num) : result num :=
  match a, b with
  | PyInt x, PyInt y => Ok (PyInt (x + y))
  | PyInt x, PyFloat y => x' <- of_int x ;; Ok (PyFloat (F64.add x' y))
  | PyFloat x, PyInt y => y' <- of_int y ;; Ok (PyFloat (F64.add x y'))
  | PyFloat x, PyFloat y => Ok (PyFloat (F64.add x y))
  end.

Definition is_zero (x : float64) : bool :=
  match x with S754_zero _ => true | _ => false end.

(** [a / b]: the quotient of two [int]s is the correctly rounded float of
    the exact quotient; division by zero raises. *)
Definition truediv (a b : num) : result num :=
  match a, b with
  | PyInt x, PyInt y =>
      if y =? 0 then Raise ZeroDivisionError
      else
        match F64.div (exact_int x) (exact_int y) with
        | S754_infinity _ => Raise OverflowError
        | q => Ok (PyFloat q)
        end
  | PyInt x, PyFloat y =>
      if is_zero y then Raise ZeroDivisionError
      else x' <- of_int x ;; Ok (PyFloat (F64.div x' y))
  | PyFloat x, PyInt y =>
      if y =? 0 then Raise ZeroDivisionError
      else y' <- of_int y ;; Ok (PyFloat (F64.div x y'))
  | PyFloat x, PyFloat y =>
      if is_zero y then Raise ZeroDivisionError
      else Ok (PyFloat (F64.div x y))
  end.

(** [a // 2].  On a finite float the floor of the exact half is itself a
    float, and it is what the float floor division returns; an infinity
    or a NaN gives a NaN. *)
Definition floordiv2 (a : num) : num :=
  match a with
  | PyInt x => PyInt (x / 2)
  | PyFloat (S754_finite s m e) =>
      PyFloat (binary_normalize prec emax
                 (Z.shiftl (cond_Zopp s (Zpos m)) (e - 1)) 0 s)
  | PyFloat (S754_zero s) => PyFloat (S754_zero s)
  | PyFloat _ => PyFloat S754_nan
  end.

(** [int(a)] *)
Definition to_int (a : num) : result Z :=
  match a with
  | PyInt x => Ok x
  | PyFloat x => F64.to_int x
  end.

(** The rational value of a number ([0] for an infinity or a NaN). *)
Definition value (a : num) : Q :=
  match a with
  | PyInt x => inject_Z x
  | PyFloat x => to_Q x
  end.

End Num.

(** ** class RTMPCongestionController *)

Module Congestion.

Import Num.

Inductive state_t : Type := slow_start | congestion_avoidance | fast_recovery.

Record RTMPCongestionController : Type := mkRTMPCongestionController {
  congestion_window : num;
  slow_start_threshold : num;
  duplicate_acks : Z;
  state : state_t;
  rtt_samples : list float64;
  retransmissions : Z
}.

Definition init : RTMPCongestionController :=
  {| congestion_window := PyInt 1000;
     slow_start_threshold := PyInt 10000;
     duplicate_acks := 0;
     state := slow_start;
     rtt_samples := [];
     retransmissions := 0 |}.

(** [on_packet_loss] *)
Definition on_packet_loss (c : RTMPCongestionController) (is_timeout : bool)
  : result RTMPCongestionController :=
  if is_timeout then
    let ssthresh := Num.max (floordiv2 (congestion_window c)) (PyInt 2) in
    Ok {| congestion_window := PyInt 1;
          slow_start_threshold := ssthresh;
          duplicate_acks := duplicate_acks c;
          state := slow_start;
          rtt_samples := rtt_samples c;
          retransmissions := retransmissions c + 1 |}
  else
    let ssthresh := Num.max (floordiv2 (congestion_window c)) (PyInt 2) in
    cwnd <- Num.add ssthresh (PyInt 3) ;;
    Ok {| congestion_window := cwnd;
          slow_start_threshold := ssthresh;
          duplicate_acks := duplicate_acks c;
          state := fast_recovery;
          rtt_samples := rtt_samples c;
          retransmissions := retransmissions c |}.

Definition set_window (c : RTMPCongestionController) (cwnd : num) (st : state_t)
  : RTMPCongestionController :=
  {| congestion_window := cwnd;
     slow_start_threshold := slow_start_threshold c;
     duplicate_acks := duplicate_acks c;
     state := st;
     rtt_samples := rtt_samples c;
     retransmissions := retransmissions c |}.

(** [on_ack_received] *)
Definition on_ack_received (c : RTMPCongestionController) (bytes_acked : Z)
  : result RTMPCongestionController :=
  match state c with
  | slow_start =>
      cwnd <- Num.add (congestion_window c) (PyInt 1) ;;
      if geb cwnd (slow_start_threshold c)
      then Ok (set_window c cwnd congestion_avoidance)
      else Ok (set_window c cwnd slow_start)
  | congestion_avoidance =>
      inc <- truediv (PyInt 1) (congestion_window c) ;;
      cwnd <- Num.add (congestion_window c) inc ;;
      Ok (set_window c cwnd congestion_avoidance)
  | fast_recovery =>
      Ok (set_window c (slow_start_threshold c) congestion_avoidance)
  end.

Definition get_congestion_window (c : RTMPCongestionController) : result Z :=
  Num.to_int (congestion_window c).

Definition get_state (c : RTMPCongestionController) : state_t := state c.

(** The events that drive the controller. *)
Inductive event : Type :=
  | PacketLoss (is_timeout : bool)
  | AckReceived (bytes_acked : Z).

Definition step (c : RTMPCongestionController) (ev : event)
  : result RTMPCongestionController :=
  match ev with
  | PacketLoss is_timeout => on_packet_loss c is_timeout
  | AckReceived bytes_acked => on_ack_received c bytes_acked
  end.

Fixpoint run (c : RTMPCongestionController) (evs : list event)
  : result RTMPCongestionController :=
  match evs with
  | [] => Ok c
  | ev :: evs' => c' <- step c ev ;; run c' evs'
  end.

End Congestion.

(** ** RTMPBufferManager: its snapshot and runs of calls *)

Module BufferStats.

(** The dictionary [get_buffer_stats] returns. *)
Record buffer_stats : Type := mkbuffer_stats {
  current_size : Z;
  max_size : Z;
  state : Buffer.buffer_state_t;
  utilization : Num.num;
  drop_count : Z
}.

(** [get_buffer_stats].  [np.mean] over a list of Python [int]s goes
    through the array type NumPy picks for them, which the source does not
    fix; the call is the parameter [mean_int], whose result or exception is
    passed on.  An empty history gives the [int] 0 without calling it. *)
Definition get_buffer_stats (mean_int : list Z -> result float64)
    (bm : Buffer.RTMPBufferManager) : result buffer_stats :=
  u <- match Buffer.buffer_utilization bm with
       | [] => Ok (Num.PyInt 0)
       | _ =>
           m <- mean_int (last_n 10 (Buffer.buffer_utilization bm)) ;;
           Ok (Num.PyFloat m)
       end ;;
  Ok {| current_size := Buffer.current_buffer_size bm;
        max_size := Buffer.max_buffer_size bm;
        state := Buffer.buffer_state bm;
        utilization := u;
        drop_count := Buffer.drop_count bm |}.

(** The calls a user makes on a buffer manager. *)
Inductive call : Type :=
  | UpdateLevel (level : Z)
  | ShouldDrop (now : float64).

(** A run of calls: the answers of the [should_drop_packets] calls, in
    order, and the manager they leave. *)
Fixpoint calls (bm : Buffer.RTMPBufferManager) (cs : list call)
  : list bool * Buffer.RTMPBufferManager :=
  match cs with
  | [] => ([], bm)
  | UpdateLevel level :: cs' => calls (Buffer.update_buffer_level bm level) cs'
  | ShouldDrop now :: cs' =>
      let '(b, bm') := Buffer.should_drop_packets bm now in
      let '(bs, bm'') := calls bm' cs' in
      (b :: bs, bm'')
  end.

End BufferStats.

(** ** class RTMPOptimizer *)

Module Optimizer.

(** The dictionary [optimize] logs and returns. *)
Record decision : Type := mkdecision {
  timestamp : float64;
  optimal_bitrate : Z;
  congestion_window : Z;
  buffer_stats : BufferStats.buffer_stats;
  network_state : Bitrate.network_state_t;
  congestion_state : Congestion.state_t
}.

Record RTMPOptimizer : Type := mkRTMPOptimizer {
  adaptive_bitrate : Bitrate.RTMPAdaptiveBitrate;
  buffer_manager : Buffer.RTMPBufferManager;
  congestion_controller : Congestion.RTMPCongestionController;
  start_time : float64;
  total_bytes_sent : Z;
  optimization_logs : list decision
}.

(** [__init__]; [now] is the value [time.time()] returns. *)
Definition init (initial_bitrate : Z) (now : float64) : result RTMPOptimizer :=
  bm <- Buffer.init 1000 ;;
  Ok {| adaptive_bitrate := Bitrate.init initial_bitrate;
        buffer_manager := bm;
        congestion_controller := Congestion.init;
        start_time := now;
        total_bytes_sent := 0;
        optimization_logs := [] |}.

(** [optimize]: the decision it returns and the optimizer it leaves. *)
Definition optimize (mean_int : list Z -> result float64) (o : RTMPOptimizer)
    (stats : RTMPStats) (now : float64) : result (decision * RTMPOptimizer) :=
  ab <- Bitrate.update_network_stats (adaptive_bitrate o) stats ;;
  let bm := Buffer.update_buffer_level (buffer_manager o) (buffer_level stats) in
  let bitrate := Bitrate.get_optimal_bitrate ab in
  window <- Congestion.get_congestion_window (congestion_controller o) ;;
  stats_of_buffer <- BufferStats.get_buffer_stats mean_int bm ;;
  let optimization_log :=
    {| timestamp := now;
       optimal_bitrate := bitrate;
       congestion_window := window;
       buffer_stats := stats_of_buffer;
       network_state := Bitrate.get_network_state ab;
       congestion_state := Congestion.get_state (congestion_controller o) |} in
  Ok (optimization_log,
      {| adaptive_bitrate := ab;
         buffer_manager := bm;
         congestion_controller := congestion_controller o;
         start_time := start_time o;
         total_bytes_sent := total_bytes_sent o;
         optimization_logs := optimization_logs o ++ [optimization_log] |}).

(** A run of [optimize] calls, each with its sample and its clock value. *)
Fixpoint run (mean_int : list Z -> result float64) (o : RTMPOptimizer)
    (ticks : list (RTMPStats * float64)) : result RTMPOptimizer :=
  match ticks with
  | [] => Ok o
  | (stats, now) :: ticks' =>
      r <- optimize mean_int o stats now ;;
      run mean_int (snd r) ticks'
  end.

(** The dictionary [get_optimization_report] returns. *)
Module Report.

Record report : Type := mkreport {
  runtime_seconds : float64;
  total_bytes_sent : Z;
  final_bitrate : Z;
  network_state : Bitrate.network_state_t;
  buffer_stats : BufferStats.buffer_stats;
  optimization_logs_count : Z;
  recent_logs : list decision
}.

End Report.

(** [get_optimization_report] *)
Definition get_optimization_report (mean_int : list Z -> result float64)
    (o : RTMPOptimizer) (now : float64) : result Report.report :=
  let runtime := sub now (start_time o) in
  stats_of_buffer <- BufferStats.get_buffer_stats mean_int (buffer_manager o) ;;
  Ok {| Report.runtime_seconds := runtime;
        Report.total_bytes_sent := total_bytes_sent o;
        Report.final_bitrate := Bitrate.get_optimal_bitrate (adaptive_bitrate o);
        Report.network_state := Bitrate.get_network_state (adaptive_bitrate o);
        Report.buffer_stats := stats_of_buffer;
        Report.optimization_logs_count := Z.of_nat (length (optimization_logs o));
        Report.recent_logs :=
          match optimization_logs o with
          | [] => []
          | _ => last_n 10 (optimization_logs o)
          end |}.

End Optimizer.

(** * Specification vocabulary *)

(** ** Rounding to binary64 *)

(** The exponent of the last mantissa bit of a value of magnitude [e]. *)
Definition fexp64 (e : Z) : Z := Z.max (e - 53) (-1074).

(** What is left of [m + a/b] once the [k] low bits of [m] are shifted
    out, scaled by [b]. *)
Definition remainder (m a b k : Z) : Z := (m mod 2 ^ k) * b + a.

(** The state of [shr] after [k] one-bit shifts of the mantissa [m] that
    stands for [m + a/b]: the round bit tells on which side of the middle
    the remainder lies, the sticky bit whether it is exactly there. *)
Definition shr_inv (m a b k : Z) (mrs : shr_record) : Prop :=
  shr_m mrs = m / 2 ^ k /\
  (shr_r mrs = false -> 2 * remainder m a b k < 2 ^ k * b) /\
  (shr_r mrs = true -> 2 ^ k * b <= 2 * remainder m a b k) /\
  (shr_r mrs = true -> shr_s mrs = false -> 2 * remainder m a b k = 2 ^ k * b) /\
  (shr_r mrs = false -> shr_s mrs = false -> remainder m a b k = 0).

(** A location describes the fraction [a/b] of the next unit. *)
Definition loc_ok (a b : Z) (l : location) : Prop :=
  match l with
  | loc_Exact => a = 0
  | loc_Inexact Lt => 2 * a < b
  | loc_Inexact Eq => 2 * a = b
  | loc_Inexact Gt => b < 2 * a
  end.

(** A valid float that is [+0.0] or positive. *)
Definition nonneg_float (r : float64) : Prop :=
  valid_binary prec emax r = true /\
  (r = S754_zero false \/ exists m e, r = S754_finite false m e).

(** A valid positive float. *)
Definition pos_float (r : float64) : Prop :=
  exists m e, r = S754_finite false m e /\ bounded prec emax m e = true.

(** [r] is a rounding to nearest of the positive rational [v]: a multiple
    [K] of the unit in the last place of [v]'s binade, at most half a unit
    away from [v], and a finite float unless it overflows. *)
Definition nearest (v : Q) (r : float64) : Prop :=
  exists M K,
    (pow2 (M - 1) <= v)%Q /\ (v < pow2 M)%Q /\ 0 <= K /\
    (inject_Z K * pow2 (fexp64 M) - pow2 (fexp64 M - 1) <= v)%Q /\
    (v <= inject_Z K * pow2 (fexp64 M) + pow2 (fexp64 M - 1))%Q /\
    ((inject_Z K * pow2 (fexp64 M) < pow2 1024)%Q ->
     nonneg_float r /\ (to_Q r == inject_Z K * pow2 (fexp64 M))%Q).

(** The rationals binary64 holds exactly (non-negative ones). *)
Definition repr (x : Q) : Prop :=
  exists M E, 0 <= M < 2 ^ 53 /\ -1074 <= E <= 971 /\ (x == inject_Z M * pow2 E)%Q.

(** [gamma] and [1 - gamma] as the source computes them. *)
Definition g08 : float64 := lit 0.8.
Definition g02 : float64 := sub (lit 1) (lit 0.8).

(** ** Bitrate controller *)

Module BitrateSpec.

Import Bitrate.

(** The bounds [__init__] stores in [min_bitrate] and [max_bitrate]. *)
Definition in_range (c : Z) : Prop := 500000 <= c <= 8000000.

(** A controller as [__init__] builds it from an initial bitrate within
    bounds, and as [update_network_stats] keeps it. *)
Definition wf (s : RTMPAdaptiveBitrate) : Prop :=
  min_bitrate s = 500000 /\ max_bitrate s = 8000000 /\ gamma s = lit 0.8 /\
  in_range (current_bitrate s) /\ in_range (target_bitrate s).

(** The [reduction_factor] of [_adjust_bitrate]. *)
Definition reduction_factor_of (n : network_state_t) : float64 :=
  if network_state_eqb n congested then lit 0.5
  else if network_state_eqb n unstable then lit 0.8
  else lit 0.7.

(** A sample whose [packet_loss_rate] is [0.1]. *)
Definition lossy (x : RTMPStats) : Prop := packet_loss_rate x = lit 0.1.

(** The last [k] samples of the window are lossy. *)
Definition lossy_tail (k : nat) (w : list RTMPStats) : Prop :=
  exists pre suf, w = pre ++ suf /\ length suf = k /\ Forall lossy suf.

Definition quiet : RTMPStats :=
  mkRTMPStats 0 0 0 0 (lit 0) (lit 0) (lit 0) 0.

Definition lossy_sample : RTMPStats :=
  mkRTMPStats 0 0 0 0 (lit 0) (lit 0) (lit 0.1) 0.

Definition fast_sample : RTMPStats :=
  mkRTMPStats 0 0 0 0 (lit 0) (lit 4000000) (lit 0) 0.

Definition bad_sample : RTMPStats :=
  mkRTMPStats 0 0 0 0 (lit 0) (lit 0) (lit 1.5) 0.

End BitrateSpec.

(** ** Congestion controller *)

Module CongestionSpec.

Import Num Congestion.

(** A number between two integers; a float is moreover valid. *)
Definition num_in (lo hi : Z) (a : num) : Prop :=
  match a with
  | PyInt z => lo <= z <= hi
  | PyFloat f =>
      pos_float f /\ (inject_Z lo <= to_Q f)%Q /\ (to_Q f <= inject_Z hi)%Q
  end.

(** The windows [on_packet_loss] is specified on: every [int], and the
    positive floats up to 2^53. *)
Definition window_ok (w : num) : Prop :=
  match w with
  | PyInt _ => True
  | PyFloat f => pos_float f /\ (to_Q f <= inject_Z (2 ^ 53))%Q
  end.

(** What the code stores in [slow_start_threshold]: [max(w // 2, 2)]. *)
Definition floor_threshold (w : Q) : Z := Z.max (Qfloor (w / 2)) 2.

(** What the specification's sentence computes: [max(w / 2, 2)]. *)
Definition spec_threshold (w : Q) : Q := Qmax (w / 2) 2.

(** The invariant of the controller: the window lies in [1, 2^53], the
    threshold in [2, 2^52], and in slow start the window is an [int] below
    the threshold. *)
Definition inv (c : RTMPCongestionController) : Prop :=
  num_in 1 (2 ^ 53) (congestion_window c) /\
  num_in 2 (2 ^ 52) (slow_start_threshold c) /\
  (state c = slow_start ->
   exists z, congestion_window c = PyInt z /\
             (inject_Z z < value (slow_start_threshold c))%Q).

End CongestionSpec.

(** ** Detection flag and state *)

Module DetectionSpec.

(** [congestion_detected] is set exactly when the state is not [stable]. *)
Definition consistent (s : Bitrate.RTMPAdaptiveBitrate) : Prop :=
  Bitrate.congestion_detected s =
    negb (Bitrate.network_state_eqb (Bitrate.network_state s) Bitrate.stable).

(** A sample whose loss rate is not a number. *)
Definition nan_loss (x : RTMPStats) : Prop := packet_loss_rate x = S754_nan.

(** A sample whose loss rate is a NaN. *)
Definition nan_sample : RTMPStats :=
  mkRTMPStats 0 0 0 0 (lit 0) (lit 0) S754_nan 0.

(** The controller nine samples with loss rate 0.1 leave when it was
    created at 3 000 000. *)
Definition primed : Bitrate.RTMPAdaptiveBitrate :=
  {| Bitrate.current_bitrate := 3000000;
     Bitrate.target_bitrate := 3000000;
     Bitrate.min_bitrate := 500000;
     Bitrate.max_bitrate := 8000000;
     Bitrate.stats_window := repeat BitrateSpec.lossy_sample 9;
     Bitrate.throughput_history := repeat (lit 0) 9;
     Bitrate.alpha := lit 0.1;
     Bitrate.beta := lit 0.2;
     Bitrate.gamma := lit 0.8;
     Bitrate.network_state := Bitrate.stable;
     Bitrate.congestion_detected := false |}.

End DetectionSpec.

(** ** Counting calls and events *)

Module RunSpec.

(** The levels a run of buffer calls passes to [update_buffer_level]. *)
Fixpoint levels_of (cs : list BufferStats.call) : list Z :=
  match cs with
  | [] => []
  | BufferStats.UpdateLevel level :: cs' => level :: levels_of cs'
  | BufferStats.ShouldDrop _ :: cs' => levels_of cs'
  end.

(** The state [update_buffer_level] gives a level. *)
Definition state_of_level (bm : Buffer.RTMPBufferManager) (level : Z)
  : Buffer.buffer_state_t :=
  if level <=? Buffer.buffer_threshold_low bm then Buffer.low
  else if level >=? Buffer.buffer_threshold_high bm then Buffer.high
  else Buffer.normal.

(** The number of timeouts among the events of a run. *)
Fixpoint timeouts (evs : list Congestion.event) : Z :=
  match evs with
  | [] => 0
  | Congestion.PacketLoss true :: evs' => 1 + timeouts evs'
  | _ :: evs' => timeouts evs'
  end.

(** [n] acknowledgements. *)
Definition acks (n : nat) (bytes_acked : Z) : list Congestion.event :=
  repeat (Congestion.AckReceived bytes_acked) n.

(** The buffer levels of the samples of a run of [optimize] calls. *)
Definition tick_levels (ticks : list (RTMPStats * float64)) : list Z :=
  map (fun t => buffer_level (fst t)) ticks.

(** A stand-in for [np.mean] that always returns. *)
Definition mean_zero (l : list Z) : result float64 := Ok (lit 0).

(** The controller a timeout at window 16 leaves. *)
Definition restarted : Congestion.RTMPCongestionController :=
  {| Congestion.congestion_window := Num.PyInt 1;
     Congestion.slow_start_threshold := Num.PyInt 8;
     Congestion.duplicate_acks := 0;
     Congestion.state := Congestion.slow_start;
     Congestion.rtt_samples := [];
     Congestion.retransmissions := 1 |}.

End RunSpec.

(** * Binary64 rounding

    [binary_round_aux], on which every operation of [SpecFloat] ends,
    rounds to nearest: this part proves it from the definitions, and
    derives the bounds the controllers need. *)

Lemma fexp_eq e : fexp prec emax e = Z.max (e - 53) (-1074).
Proof. reflexivity. Qed.

Lemma digits2_pos_bounds m :
  2 ^ (Zpos (digits2_pos m) - 1) <= Zpos m < 2 ^ Zpos (digits2_pos m).
Proof.
  induction m as [m IH | m IH |]; cbn [digits2_pos].
  - rewrite Pos2Z.inj_succ.
    replace (Z.succ (Zpos (digits2_pos m)) - 1) with (Z.succ (Zpos (digits2_pos m) - 1)) by lia.
    rewrite !Z.pow_succ_r by lia. lia.
  - rewrite Pos2Z.inj_succ.
    replace (Z.succ (Zpos (digits2_pos m)) - 1) with (Z.succ (Zpos (digits2_pos m) - 1)) by lia.
    rewrite !Z.pow_succ_r by lia. lia.
  - cbn. lia.
Qed.

Lemma Zdigits2_bounds m :
  0 < m -> 2 ^ (Zdigits2 m - 1) <= m < 2 ^ Zdigits2 m.
Proof.
  destruct m as [| p | p]; try lia. intros _. apply digits2_pos_bounds.
Qed.

Lemma Zdigits2_pos m : 0 < m -> 0 < Zdigits2 m.
Proof. destruct m; cbn; lia. Qed.

Lemma Zdigits2_unique m d :
  0 < d -> 2 ^ (d - 1) <= m < 2 ^ d -> Zdigits2 m = d.
Proof.
  intros Hd [Hlo Hhi].
  assert (Hm : 0 < m) by (pose proof (Z.pow_pos_nonneg 2 (d - 1)); lia).
  pose proof (Zdigits2_bounds m Hm) as [Hlo' Hhi'].
  pose proof (Zdigits2_pos m Hm) as Hp.
  destruct (Z.lt_trichotomy (Zdigits2 m) d) as [Hlt | [Heq | Hgt]]; auto.
  - assert (2 ^ Zdigits2 m <= 2 ^ (d - 1)) by (apply Z.pow_le_mono_r; lia). lia.
  - assert (2 ^ d <= 2 ^ (Zdigits2 m - 1)) by (apply Z.pow_le_mono_r; lia). lia.
Qed.

(** shr *)
Section Shr.
Variables m a b : Z.
Hypothesis Hm : 0 <= m.
Hypothesis Hab : 0 <= a < b.

Lemma shr_1_m mrs : 0 <= shr_m mrs ->
  shr_m (shr_1 mrs) = shr_m mrs / 2 /\ shr_r (shr_1 mrs) = Z.odd (shr_m mrs)
  /\ shr_s (shr_1 mrs) = orb (shr_r mrs) (shr_s mrs).
Proof.
  destruct mrs as [q r s]. cbn [shr_m shr_r shr_s]. intros Hq.
  destruct q as [| [p | p |] | p]; cbn [shr_1 shr_m shr_r shr_s]; try lia.
  - auto.
  - repeat split. rewrite Pos2Z.inj_xI. apply Z.div_unique with 1; lia.
  - repeat split. rewrite Pos2Z.inj_xO. apply Z.div_unique with 0; lia.
  - auto.
Qed.

Lemma mod_pow2_succ k : 0 <= k ->
  m mod 2 ^ (k + 1) = m mod 2 ^ k + 2 ^ k * ((m / 2 ^ k) mod 2).
Proof.
  intros Hk. rewrite Z.pow_add_r by lia. rewrite Z.pow_1_r.
  rewrite Z.rem_mul_r by (try lia; pose proof (Z.pow_pos_nonneg 2 k); lia). lia.
Qed.

Lemma shr_inv_step k mrs :
  0 <= k -> shr_inv m a b k mrs -> shr_inv m a b (k + 1) (shr_1 mrs).
Proof.
  intros Hk (Hq & H2 & H3 & H4 & H5).
  assert (Hp : 0 < 2 ^ k) by (apply Z.pow_pos_nonneg; lia).
  assert (Hq0 : 0 <= shr_m mrs) by (rewrite Hq; apply Z.div_pos; lia).
  destruct (shr_1_m mrs Hq0) as (Em & Er & Es).
  unfold shr_inv. rewrite Em, Er, Es. unfold remainder in *.
  rewrite mod_pow2_succ by lia.
  rewrite Hq. rewrite Z.div_div by lia.
  replace (2 ^ k * 2) with (2 ^ (k + 1)) by (rewrite Z.pow_add_r by lia; lia).
  assert (Hpk : 2 ^ (k + 1) = 2 * 2 ^ k) by (rewrite Z.pow_add_r by lia; lia).
  rewrite Hpk.
  pose proof (Z.mod_pos_bound m (2 ^ k) Hp) as Hmod.
  assert (Hodd : Z.odd (m / 2 ^ k) = true -> (m / 2 ^ k) mod 2 = 1).
  { intros Ho. rewrite Zmod_odd, Ho. reflexivity. }
  assert (Hev : Z.odd (m / 2 ^ k) = false -> (m / 2 ^ k) mod 2 = 0).
  { intros Ho. rewrite Zmod_odd, Ho. reflexivity. }
  assert (Hrho : (m mod 2 ^ k) * b + a < 2 ^ k * b) by nia.
  split; [reflexivity |].
  destruct (Z.odd (m / 2 ^ k)) eqn:Ho.
  - rewrite (Hodd eq_refl).
    split; [discriminate |]. split; [intros _; nia |]. split; [| discriminate].
    intros _ Hs. apply orb_false_elim in Hs. destruct Hs as [Hr Hs].
    specialize (H5 Hr Hs). nia.
  - rewrite (Hev eq_refl).
    split; [intros _; nia |]. split; [discriminate |]. split; [discriminate |].
    intros _ Hs. apply orb_false_elim in Hs. destruct Hs as [Hr Hs].
    specialize (H5 Hr Hs). nia.
Qed.

Lemma shr_inv_iter p : forall k mrs,
  0 <= k -> shr_inv m a b k mrs -> shr_inv m a b (k + Zpos p) (iter_pos shr_1 p mrs).
Proof.
  induction p as [p IH | p IH |]; intros k mrs Hk Hinv; cbn [iter_pos].
  - replace (k + Zpos p~1) with (((k + 1) + Zpos p) + Zpos p) by lia.
    apply IH; [lia |]. apply IH; [lia |]. apply shr_inv_step; assumption.
  - replace (k + Zpos p~0) with ((k + Zpos p) + Zpos p) by lia.
    apply IH; [lia |]. apply IH; assumption.
  - apply shr_inv_step; assumption.
Qed.

Lemma shr_inv_0 l : loc_ok a b l -> shr_inv m a b 0 (shr_record_of_loc m l).
Proof.
  intros Hl. unfold shr_inv, remainder. rewrite Z.pow_0_r, Z.mod_1_r, Z.div_1_r.
  destruct l as [| [| |]]; cbn [loc_ok shr_record_of_loc shr_m shr_r shr_s] in *;
    repeat split; intros; try discriminate; try lia.
Qed.

(** After a shift by [n >= 0] positions and rounding to nearest. *)
Lemma shr_round l e n :
  loc_ok a b l -> 0 <= n ->
  let mrs := fst (shr (shr_record_of_loc m l) e n) in
  let K := round_nearest_even (shr_m mrs) (loc_of_shr_record mrs) in
  snd (shr (shr_record_of_loc m l) e n) = e + n /\
  (K = m / 2 ^ n \/ K = m / 2 ^ n + 1) /\
  2 * Z.abs (K * 2 ^ n * b - (m * b + a)) <= 2 ^ n * b.
Proof.
  intros Hl Hn mrs K.
  assert (Hinv : shr_inv m a b n mrs).
  { subst mrs. destruct n as [| p | p]; cbn [shr fst]; try lia.
    - apply shr_inv_0; assumption.
    - apply (shr_inv_iter p 0); [lia | apply shr_inv_0; assumption]. }
  split.
  { destruct n; cbn; lia. }
  destruct Hinv as (Hq & H2 & H3 & H4 & H5).
  assert (Hp : 0 < 2 ^ n) by (apply Z.pow_pos_nonneg; lia).
  pose proof (Z.div_mod m (2 ^ n) ltac:(lia)) as Hdm.
  pose proof (Z.mod_pos_bound m (2 ^ n) Hp) as Hmod.
  unfold remainder in *.
  subst K. destruct mrs as [q r s]. cbn [shr_m shr_r shr_s] in *. subst q.
  destruct r, s; cbn [loc_of_shr_record round_nearest_even].
  - specialize (H3 eq_refl). split; [right; reflexivity | nia].
  - specialize (H4 eq_refl eq_refl).
    destruct (Z.even (m / 2 ^ n)); (split; [auto | nia]).
  - specialize (H2 eq_refl). split; [left; reflexivity | nia].
  - specialize (H5 eq_refl eq_refl). split; [left; reflexivity | nia].
Qed.

End Shr.

Lemma shr_nop mrs e n : n <= 0 -> shr mrs e n = (mrs, e).
Proof. destruct n; cbn [shr]; intros; try reflexivity; lia. Qed.

Lemma round_aux_spec sx m e l a b :
  0 < m -> 0 <= a < b -> loc_ok a b l ->
  let E := fexp prec emax (Zdigits2 m + e) in
  e <= E ->
  exists K,
    0 <= K /\
    2 * Z.abs (K * 2 ^ (E - e) * b - (m * b + a)) <= 2 ^ (E - e) * b /\
    ((K = 0 /\ binary_round_aux prec emax sx m e l = S754_zero sx) \/
     (exists mf ef, E <= ef /\ Zpos mf * 2 ^ (ef - E) = K /\
        canonical_mantissa prec emax mf ef = true /\
        binary_round_aux prec emax sx m e l =
          if ef <=? emax - prec then S754_finite sx mf ef else S754_infinity sx)).
Proof.
  intros Hm Hab Hl E HE.
  pose proof (Zdigits2_bounds m Hm) as [Hdlo Hdhi].
  pose proof (Zdigits2_pos m Hm) as Hdpos.
  set (d := Zdigits2 m) in *.
  set (n := E - e).
  assert (Hn : 0 <= n) by (unfold n; lia).
  destruct (shr_round m a b ltac:(lia) Hab l e n Hl Hn) as (He' & HK & Herr).
  unfold binary_round_aux, shr_fexp. fold d. fold E. fold n.
  destruct (shr (shr_record_of_loc m l) e n) as [mrs' e'] eqn:Hshr.
  cbn [fst snd] in He', HK, Herr.
  set (K := round_nearest_even (shr_m mrs') (loc_of_shr_record mrs')) in *.
  assert (He'E : e' = E) by (unfold n in He'; lia). clear He' Hshr. subst e'.
  assert (Hpn : 0 < 2 ^ n) by (apply Z.pow_pos_nonneg; lia).
  assert (Hq0 : 0 <= m / 2 ^ n) by (apply Z.div_pos; lia).
  assert (HEfexp : E = Z.max (d + e - 53) (-1074)) by reflexivity.
  (* the quotient has at most 53 digits *)
  assert (Hq53 : m / 2 ^ n < 2 ^ 53).
  { apply Z.div_lt_upper_bound; [lia |].
    assert (2 ^ d <= 2 ^ (n + 53)) by (apply Z.pow_le_mono_r; unfold n; lia).
    rewrite Z.pow_add_r in H by lia. lia. }
  assert (HK53 : 0 <= K <= 2 ^ 53) by lia.
  exists K. split; [lia |]. split; [exact Herr |].
  destruct (Z.eq_dec K 0) as [HK0 | HK0].
  - left. split; [assumption |].
    rewrite HK0. cbn [Zdigits2 shr_record_of_loc].
    rewrite shr_nop; [reflexivity |].
    rewrite fexp_eq. cbn [Z.add]. lia.
  - right.
    assert (HKpos : 0 < K) by lia.
    pose proof (Zdigits2_bounds K HKpos) as [HKlo HKhi].
    pose proof (Zdigits2_pos K HKpos) as HdKpos.
    set (dK := Zdigits2 K) in *.
    assert (HdK54 : dK <= 54).
    { destruct (Z_le_gt_dec dK 54); [assumption |].
      assert (2 ^ 54 <= 2 ^ (dK - 1)) by (apply Z.pow_le_mono_r; lia).
      assert (2 ^ 54 = 2 * 2 ^ 53) by reflexivity. lia. }
    (* a normal result has a full mantissa *)
    assert (Hfull : -1074 < E -> 53 <= dK).
    { intros Hnorm.
      assert (Hnd : n = d - 53) by (unfold n; lia).
      assert (2 ^ 52 <= m / 2 ^ n).
      { apply Z.div_le_lower_bound; [lia |].
        rewrite <- Z.pow_add_r by lia.
        replace (n + 52) with (d - 1) by lia. assumption. }
      destruct (Z_le_gt_dec 53 dK); [assumption |].
      assert (2 ^ dK <= 2 ^ 52) by (apply Z.pow_le_mono_r; lia). lia. }
    destruct (Z_le_gt_dec dK 53) as [Hno | Hcarry].
    + (* no carry *)
      assert (Hcan : fexp prec emax (dK + E) = E) by (rewrite fexp_eq; lia).
      destruct K as [| mf | mf] eqn:EK; try lia.
      exists mf, E. split; [lia |]. split; [rewrite Z.sub_diag; lia |].
      split.
      { unfold canonical_mantissa. apply Z.eqb_eq. exact Hcan. }
      cbn [shr_record_of_loc]. rewrite shr_nop; [reflexivity |].
      fold dK. lia.
    + (* carry: the rounded mantissa is 2^53 *)
      assert (HdK : dK = 54) by lia.
      assert (HKeq : K = 2 ^ 53).
      { rewrite HdK in HKlo. change (54 - 1) with 53 in HKlo. lia. }
      assert (Hfe : fexp prec emax (dK + E) - E = 1).
      { rewrite fexp_eq, HdK.
        assert (-1074 <= E) by lia.
        (* the quotient reached 2^53 - 1, so the shift was d - 53 *)
        assert (Hnd : d - 53 <= n) by (unfold n; lia).
        destruct (Z.eq_dec n (d - 53)) as [Hnd' | Hnd'].
        - assert (E = d + e - 53) by (unfold n in Hnd'; lia). lia.
        - exfalso.
          assert (2 ^ d <= 2 ^ (n + 52)) by (apply Z.pow_le_mono_r; lia).
          rewrite Z.pow_add_r in H0 by lia.
          assert (m / 2 ^ n < 2 ^ 52) by (apply Z.div_lt_upper_bound; lia).
          assert (2 ^ 53 = 2 * 2 ^ 52) by reflexivity. lia. }
      exists (2 ^ 52)%positive, (E + 1). split; [lia |].
      split.
      { replace (E + 1 - E) with 1 by lia. rewrite HKeq. reflexivity. }
      split.
      { unfold canonical_mantissa. apply Z.eqb_eq. rewrite fexp_eq.
        change (Zpos (digits2_pos (2 ^ 52))) with 53. rewrite fexp_eq, HdK in Hfe. lia. }
      fold dK. rewrite Hfe. rewrite HKeq. reflexivity.
Qed.

Lemma pow2_pos e : (0 < pow2 e)%Q.
Proof. apply Qpower_0_lt. reflexivity. Qed.

Lemma pow2_add a b : (pow2 (a + b) == pow2 a * pow2 b)%Q.
Proof. apply Qpower_plus. discriminate. Qed.

Lemma pow2_Z n : 0 <= n -> (pow2 n == inject_Z (2 ^ n))%Q.
Proof. intros Hn. unfold pow2. rewrite Zpower_Qpower by assumption. reflexivity. Qed.

Lemma pow2_split e1 e2 :
  e2 <= e1 -> (pow2 e1 == inject_Z (2 ^ (e1 - e2)) * pow2 e2)%Q.
Proof.
  intros H. replace e1 with ((e1 - e2) + e2) at 1 by lia.
  rewrite pow2_add, pow2_Z by lia. reflexivity.
Qed.

Lemma pow2_le a b : a <= b -> (pow2 a <= pow2 b)%Q.
Proof.
  intros H. rewrite (pow2_split b a H).
  assert (1 <= 2 ^ (b - a)) by (pose proof (Z.pow_pos_nonneg 2 (b - a)); lia).
  assert (1 <= inject_Z (2 ^ (b - a)))%Q by (rewrite Zle_Qle in H0; exact H0).
  pose proof (pow2_pos a). nra.
Qed.

Lemma pow2_lt a b : a < b -> (pow2 a < pow2 b)%Q.
Proof.
  intros H. rewrite (pow2_split b a ltac:(lia)).
  assert (2 <= 2 ^ (b - a)).
  { replace (b - a) with (1 + (b - a - 1)) by lia. rewrite Z.pow_add_r by lia.
    pose proof (Z.pow_pos_nonneg 2 (b - a - 1)). lia. }
  assert (2 <= inject_Z (2 ^ (b - a)))%Q by (rewrite Zle_Qle in H0; exact H0).
  pose proof (pow2_pos a). nra.
Qed.

Lemma pow2_half e : (pow2 e == 2 * pow2 (e - 1))%Q.
Proof. rewrite (pow2_split e (e - 1)) by lia. replace (e - (e - 1)) with 1 by lia. reflexivity. Qed.

(** integers on a grid of step [p] *)
Lemma grid_le (A K : Z) (p v : Q) :
  (0 < p)%Q -> (inject_Z A * p <= v)%Q -> (v <= inject_Z K * p + p / 2)%Q -> A <= K.
Proof.
  intros Hp H1 H2.
  destruct (Z_le_gt_dec A K) as [|Hgt]; [assumption | exfalso].
  assert (K + 1 <= A) by lia.
  rewrite Zle_Qle in H. rewrite inject_Z_plus in H.
  change (inject_Z 1) with 1%Q in H.
  assert (p / 2 == p * (1 # 2))%Q by (field).
  nra.
Qed.

Lemma grid_ge (A K : Z) (p v : Q) :
  (0 < p)%Q -> (v <= inject_Z A * p)%Q -> (inject_Z K * p - p / 2 <= v)%Q -> K <= A.
Proof.
  intros Hp H1 H2.
  destruct (Z_le_gt_dec K A) as [|Hgt]; [assumption | exfalso].
  assert (A + 1 <= K) by lia.
  rewrite Zle_Qle in H. rewrite inject_Z_plus in H.
  change (inject_Z 1) with 1%Q in H.
  assert (p / 2 == p * (1 # 2))%Q by (field).
  nra.
Qed.

Lemma inject_Z_sub x y : (inject_Z (x - y) == inject_Z x - inject_Z y)%Q.
Proof. unfold Z.sub. rewrite inject_Z_plus, inject_Z_opp. reflexivity. Qed.

Ltac zq H := rewrite ?Zle_Qle, ?Zlt_Qlt in H;
  repeat rewrite ?inject_Z_plus, ?inject_Z_sub, ?inject_Z_mult, ?inject_Z_opp in H.

Lemma Qle_scale (x y p : Q) : (0 < p)%Q -> (x * p <= y * p)%Q -> (x <= y)%Q.
Proof. intros. nra. Qed.

Lemma Qlt_scale (x y p : Q) : (0 < p)%Q -> (x * p < y * p)%Q -> (x < y)%Q.
Proof. intros. nra. Qed.

Lemma round_aux_nearest m e l a b v :
  0 < m -> 0 <= a < b -> loc_ok a b l ->
  e <= fexp prec emax (Zdigits2 m + e) ->
  (v * inject_Z b == inject_Z (m * b + a) * pow2 e)%Q ->
  nearest v (binary_round_aux prec emax false m e l).
Proof.
  intros Hm Hab Hl HE Hv.
  destruct (round_aux_spec false m e l a b Hm Hab Hl HE) as (K & HK0 & Herr & Hres).
  pose proof (Zdigits2_bounds m Hm) as [Hdlo Hdhi].
  pose proof (Zdigits2_pos m Hm) as Hdpos.
  set (d := Zdigits2 m) in *.
  change (fexp prec emax (d + e)) with (fexp64 (d + e)) in *.
  set (E := fexp64 (d + e)) in *.
  set (N := 2 ^ (E - e)) in *.
  assert (HN : 0 < N) by (apply Z.pow_pos_nonneg; lia).
  pose proof (pow2_pos e) as Hp.
  assert (HpE : (pow2 E == inject_Z N * pow2 e)%Q) by (apply pow2_split; lia).
  assert (HpE1 : (pow2 E == 2 * pow2 (E - 1))%Q) by apply pow2_half.
  assert (Hb : (0 < inject_Z b)%Q) by (change 0%Q with (inject_Z 0); rewrite <- Zlt_Qlt; lia).
  assert (Hpd : (pow2 (d + e) == inject_Z (2 ^ d) * pow2 e)%Q).
  { rewrite pow2_add, pow2_Z by lia. reflexivity. }
  assert (Hpd1 : (pow2 (d + e - 1) == inject_Z (2 ^ (d - 1)) * pow2 e)%Q).
  { replace (d + e - 1) with ((d - 1) + e) by lia. rewrite pow2_add, pow2_Z by lia. reflexivity. }
  rewrite inject_Z_plus, inject_Z_mult in Hv.
  assert (Ha0 : (0 <= inject_Z a)%Q) by (change 0%Q with (inject_Z 0); rewrite <- Zle_Qle; lia).
  assert (Hab' : (inject_Z a < inject_Z b)%Q) by (rewrite <- Zlt_Qlt; lia).
  assert (Hpb : (0 < pow2 e * inject_Z b)%Q) by nra.
  exists (d + e), K. fold E.
  split.
  { apply Qle_scale with (inject_Z b); [assumption |]. rewrite Hv, Hpd1.
    zq Hdlo. 
    assert (0 <= (inject_Z m - inject_Z (2 ^ (d - 1))) * (pow2 e * inject_Z b))%Q by nra.
    assert (0 <= inject_Z a * pow2 e)%Q by nra.
    lra. }
  split.
  { apply Qlt_scale with (inject_Z b); [assumption |]. rewrite Hv, Hpd.
    assert (Hd' : m + 1 <= 2 ^ d) by lia. zq Hd'. change (inject_Z 1) with 1%Q in Hd'.
    assert (0 <= (inject_Z (2 ^ d) - inject_Z m - 1) * (pow2 e * inject_Z b))%Q by nra.
    assert (0 < (inject_Z b - inject_Z a) * pow2 e)%Q by nra.
    lra. }
  split; [assumption |].
  assert (Herr1 : 2 * (K * N * b) - N * b <= 2 * (m * b + a)) by lia.
  assert (Herr2 : 2 * (m * b + a) <= 2 * (K * N * b) + N * b) by lia.
  zq Herr1. zq Herr2. change (inject_Z 2) with 2%Q in *.
  split.
  { apply Qle_scale with (inject_Z b); [assumption |]. rewrite Hv.
    assert (pow2 (E - 1) == inject_Z N * pow2 e / 2)%Q by (rewrite <- HpE, HpE1; field).
    rewrite H, HpE. 
    assert (inject_Z N * pow2 e / 2 == inject_Z N * pow2 e * (1#2))%Q by field.
    rewrite H0.
    assert (0 <= (2 * (inject_Z m * inject_Z b + inject_Z a)
                  - (2 * (inject_Z K * inject_Z N * inject_Z b) - inject_Z N * inject_Z b)) * pow2 e)%Q
      by (apply Qmult_le_0_compat; lra).
    lra. }
  split.
  { apply Qle_scale with (inject_Z b); [assumption |]. rewrite Hv.
    assert (pow2 (E - 1) == inject_Z N * pow2 e / 2)%Q by (rewrite <- HpE, HpE1; field).
    rewrite H, HpE.
    assert (inject_Z N * pow2 e / 2 == inject_Z N * pow2 e * (1#2))%Q by field.
    rewrite H0.
    assert (0 <= (2 * (inject_Z K * inject_Z N * inject_Z b) + inject_Z N * inject_Z b
                  - 2 * (inject_Z m * inject_Z b + inject_Z a)) * pow2 e)%Q
      by (apply Qmult_le_0_compat; lra).
    lra. }
  intros Hfin.
  destruct Hres as [[HKz Hr] | (mf & ef & HEf & HKf & Hcan & Hr)].
  - rewrite Hr. split; [split; [reflexivity | left; reflexivity] |].
    rewrite HKz. cbn [to_Q]. ring.
  - assert (Hef : ef <= 971).
    { destruct (Z_le_gt_dec ef 971) as [|Hbig]; [assumption | exfalso].
      unfold canonical_mantissa in Hcan. apply Z.eqb_eq in Hcan.
      rewrite fexp_eq in Hcan.
      pose proof (digits2_pos_bounds mf) as [Hlo _].
      assert (Hdf : Zpos (digits2_pos mf) = 53) by lia.
      rewrite Hdf in Hlo. change (53 - 1) with 52 in Hlo.
      assert (HK52 : 2 ^ 52 * 2 ^ (ef - E) <= K) by (rewrite <- HKf; nia).
      assert (Hp2 : (pow2 1024 <= inject_Z (2 ^ 52 * 2 ^ (ef - E)) * pow2 E)%Q).
      { rewrite inject_Z_mult, <- Qmult_assoc, <- (pow2_split ef E) by lia.
        rewrite (pow2_split 1024 52) by lia. 
        change (2 ^ (1024 - 52)) with (2 ^ 972).
        rewrite <- (pow2_Z 52) by lia. rewrite <- (pow2_Z 972) by lia.
        rewrite (Qmult_comm (pow2 972)).
        pose proof (pow2_le 972 ef ltac:(lia)). pose proof (pow2_pos 52). nra. }
      zq HK52. pose proof (pow2_pos E). 
      rewrite inject_Z_mult in Hp2. nra. }
    assert (Hle : (ef <=? emax - prec) = true) by (apply Z.leb_le; change (emax - prec) with 971; lia).
    rewrite Hle in Hr. rewrite Hr. split.
    + split; [| right; eauto].
      cbn [valid_binary]. unfold bounded. rewrite Hcan, Hle. reflexivity.
    + cbn [to_Q cond_Zopp]. rewrite <- HKf, inject_Z_mult, <- Qmult_assoc.
      rewrite <- (pow2_split ef E) by lia. reflexivity.
Qed.

Lemma repr_lt_pow2 x M E :
  0 <= M < 2 ^ 53 -> (x == inject_Z M * pow2 E)%Q -> (x < pow2 (53 + E))%Q.
Proof.
  intros HM Hx. rewrite Hx, pow2_add, (pow2_Z 53) by lia.
  assert (H : M < 2 ^ 53) by lia. rewrite Zlt_Qlt in H.
  pose proof (pow2_pos E). nra.
Qed.

Lemma nearest_between v r L U :
  nearest v r -> repr L -> repr U -> (L <= v)%Q -> (v <= U)%Q ->
  nonneg_float r /\ (L <= to_Q r)%Q /\ (to_Q r <= U)%Q.
Proof.
  intros (M & K & Hlo & Hhi & HK0 & He1 & He2 & Hfin)
         (ML & EL & HML & HEL & HL) (MU & EU & HMU & HEU & HU) HLv HvU.
  set (E := fexp64 M) in *.
  pose proof (pow2_pos E) as Hp.
  assert (Hhalf : (pow2 (E - 1) == pow2 E / 2)%Q) by (rewrite (pow2_half E); field).
  rewrite Hhalf in He1, He2.
  assert (HEM : E = Z.max (M - 53) (-1074)) by reflexivity.
  (* the upper bound lies on the grid of the result *)
  assert (HEU' : E <= EU).
  { destruct (Z_le_gt_dec E EU) as [|Hgt]; [assumption | exfalso].
    pose proof (repr_lt_pow2 U MU EU HMU HU) as HUlt.
    pose proof (pow2_le (53 + EU) (M - 1) ltac:(lia)). lra. }
  assert (HKU : K <= MU * 2 ^ (EU - E)).
  { apply grid_ge with (pow2 E) v; [assumption | | assumption].
    rewrite inject_Z_mult, <- Qmult_assoc, <- (pow2_split EU E) by lia.
    rewrite <- HU. assumption. }
  assert (HKpU : (inject_Z K * pow2 E <= U)%Q).
  { rewrite HU, (pow2_split EU E), Qmult_assoc, <- inject_Z_mult by lia.
    rewrite Zle_Qle in HKU. nra. }
  assert (HUmax : (U < pow2 1024)%Q).
  { pose proof (repr_lt_pow2 U MU EU HMU HU). pose proof (pow2_le (53 + EU) 1024 ltac:(lia)). lra. }
  destruct (Hfin ltac:(lra)) as [Hnn HrQ].
  split; [assumption |]. rewrite HrQ. split; [| assumption].
  destruct (Z_le_gt_dec E EL) as [Hle | Hgt].
  - assert (HLK : ML * 2 ^ (EL - E) <= K).
    { apply grid_le with (pow2 E) v; [assumption | | assumption].
      rewrite inject_Z_mult, <- Qmult_assoc, <- (pow2_split EL E) by lia.
      rewrite <- HL. assumption. }
    rewrite HL, (pow2_split EL E), Qmult_assoc, <- inject_Z_mult by lia.
    rewrite Zle_Qle in HLK. nra.
  - assert (H52 : 2 ^ 52 <= K).
    { apply grid_le with (pow2 E) v; [assumption | | assumption].
      rewrite <- (pow2_Z 52), <- pow2_add by lia. replace (52 + E) with (M - 1) by lia. assumption. }
    pose proof (repr_lt_pow2 L ML EL HML HL) as HLlt.
    pose proof (pow2_le (53 + EL) (52 + E) ltac:(lia)) as Hle.
    rewrite (pow2_add 52 E), (pow2_Z 52) in Hle by lia.
    rewrite Zle_Qle in H52. nra.
Qed.

Lemma nearest_exact v r : nearest v r -> repr v -> nonneg_float r /\ (to_Q r == v)%Q.
Proof.
  intros Hn Hr.
  destruct (nearest_between v r v v Hn Hr Hr (Qle_refl _) (Qle_refl _)) as (H1 & H2 & H3).
  split; [assumption | lra].
Qed.

Lemma pos_float_to_Q r : pos_float r -> (0 < to_Q r)%Q.
Proof.
  intros (m & e & -> & _). cbn [to_Q cond_Zopp].
  pose proof (pow2_pos e). assert (0 < Zpos m) by lia.
  rewrite Zlt_Qlt in H0. change (inject_Z 0) with 0%Q in H0. nra.
Qed.

Lemma nonneg_pos r : nonneg_float r -> (0 < to_Q r)%Q -> pos_float r.
Proof.
  intros [Hv [-> | (m & e & ->)]] Hpos.
  - cbn in Hpos. lra.
  - exists m, e. split; [reflexivity | exact Hv].
Qed.

Lemma nearest_between_pos v r L U :
  nearest v r -> repr L -> repr U -> (0 < L)%Q -> (L <= v)%Q -> (v <= U)%Q ->
  pos_float r /\ (L <= to_Q r)%Q /\ (to_Q r <= U)%Q.
Proof.
  intros Hn HL HU H0 H1 H2.
  destruct (nearest_between v r L U Hn HL HU H1 H2) as (Hnn & Hl & Hu).
  split; [apply nonneg_pos; [assumption | lra] | split; assumption].
Qed.

(** alignment *)
Lemma iter_xO m d : Zpos (Pos.iter xO m d) = Zpos m * 2 ^ Zpos d.
Proof.
  induction d as [| d IH] using Pos.peano_ind.
  - cbn [Pos.iter]. rewrite Pos2Z.inj_xO. lia.
  - rewrite Pos.iter_succ, Pos2Z.inj_xO, IH, Pos2Z.inj_succ, Z.pow_succ_r by lia. ring.
Qed.

Lemma shl_align_spec mx ex ex' :
  let '(mz, ez) := shl_align mx ex ex' in
  ez = Z.min ex ex' /\ Zpos mz = Zpos mx * 2 ^ (ex - ez).
Proof.
  unfold shl_align. destruct (ex' - ex) as [| d | d] eqn:Hd.
  - split; [lia |]. replace (ex - ex) with 0 by lia. lia.
  - split; [lia |]. replace (ex - ex) with 0 by lia. lia.
  - split; [lia |]. rewrite iter_xO. f_equal. f_equal. lia.
Qed.

Lemma Zdigits2_shift m k :
  0 < m -> 0 <= k -> Zdigits2 (m * 2 ^ k) = Zdigits2 m + k.
Proof.
  intros Hm Hk.
  pose proof (Zdigits2_bounds m Hm) as [Hlo Hhi].
  pose proof (Zdigits2_pos m Hm).
  assert (0 < 2 ^ k) by (apply Z.pow_pos_nonneg; lia).
  apply Zdigits2_unique; [lia |].
  replace (Zdigits2 m + k - 1) with ((Zdigits2 m - 1) + k) by lia.
  rewrite !Z.pow_add_r by lia. nia.
Qed.

Lemma binary_round_nearest m e :
  nearest (inject_Z (Zpos m) * pow2 e) (binary_round prec emax false m e).
Proof.
  unfold binary_round.
  pose proof (shl_align_spec m e (fexp prec emax (Zpos (digits2_pos m) + e))) as Hal.
  destruct (shl_align m e (fexp prec emax (Zpos (digits2_pos m) + e))) as [mz ez].
  destruct Hal as [Hez Hmz].
  assert (Hdig : Zdigits2 (Zpos mz) + ez = Zpos (digits2_pos m) + e).
  { rewrite Hmz, Zdigits2_shift by lia. cbn [Zdigits2]. lia. }
  apply round_aux_nearest with (a := 0) (b := 1).
  - lia.
  - lia.
  - reflexivity.
  - rewrite Hdig. lia.
  - rewrite Z.mul_1_r, Z.add_0_r, Hmz, inject_Z_mult.
    rewrite (pow2_split e ez) by lia. change (inject_Z 1) with 1%Q. ring.
Qed.

Lemma add_nearest x y :
  pos_float x -> pos_float y -> nearest (to_Q x + to_Q y) (add x y).
Proof.
  intros (mx & ex & -> & _) (my & ey & -> & _).
  unfold add, SFadd. cbn [cond_Zopp to_Q].
  pose proof (shl_align_spec mx ex (Z.min ex ey)) as Hx.
  pose proof (shl_align_spec my ey (Z.min ex ey)) as Hy.
  destruct (shl_align mx ex (Z.min ex ey)) as [mx' ex'].
  destruct (shl_align my ey (Z.min ex ey)) as [my' ey'].
  destruct Hx as [Hex Hmx]. destruct Hy as [Hey Hmy]. cbn [fst].
  change (Zpos mx' + Zpos my') with (Zpos (mx' + my')). cbn [binary_normalize].
  pose proof (binary_round_nearest (mx' + my') (Z.min ex ey)) as Hn.
  assert (Hv : (inject_Z (Zpos (mx' + my')) * pow2 (Z.min ex ey) ==
                inject_Z (Zpos mx) * pow2 ex + inject_Z (Zpos my) * pow2 ey)%Q).
  { rewrite Pos2Z.inj_add, inject_Z_plus, Hmx, Hmy, !inject_Z_mult.
    rewrite (pow2_split ex (Z.min ex ey)), (pow2_split ey (Z.min ex ey)) by lia.
    replace (ex - ex') with (ex - Z.min ex ey) by lia.
    replace (ey - ey') with (ey - Z.min ex ey) by lia. ring. }
  revert Hn. generalize (binary_round prec emax false (mx' + my') (Z.min ex ey)).
  intros r (M & K & H1 & H2 & H3 & H4 & H5 & H6).
  exists M, K. rewrite <- Hv. repeat split; assumption || (apply H6; assumption).
Qed.

Lemma nearest_ext v v' r : (v == v')%Q -> nearest v r -> nearest v' r.
Proof.
  intros Hv (M & K & H1 & H2 & H3 & H4 & H5 & H6).
  exists M, K. rewrite <- Hv. repeat split; assumption || (apply H6; assumption).
Qed.

Lemma bounded_canonical m e :
  bounded prec emax m e = true ->
  e = Z.max (Zpos (digits2_pos m) + e - 53) (-1074) /\ e <= 971.
Proof.
  unfold bounded, canonical_mantissa. intros H. apply andb_prop in H. destruct H as [H1 H2].
  apply Z.eqb_eq in H1. apply Z.leb_le in H2. rewrite fexp_eq in H1.
  change (emax - prec) with 971 in H2. lia.
Qed.

Lemma Zdigits2_mul_ge a b :
  0 < a -> 0 < b -> Zdigits2 a + Zdigits2 b - 1 <= Zdigits2 (a * b).
Proof.
  intros Ha Hb.
  pose proof (Zdigits2_bounds a Ha) as [Hal _].
  pose proof (Zdigits2_bounds b Hb) as [Hbl _].
  pose proof (Zdigits2_pos a Ha). pose proof (Zdigits2_pos b Hb).
  assert (Hab : 0 < a * b) by nia.
  pose proof (Zdigits2_bounds (a * b) Hab) as [_ Hh].
  destruct (Z_le_gt_dec (Zdigits2 a + Zdigits2 b - 1) (Zdigits2 (a * b))); [assumption | exfalso].
  assert (2 ^ Zdigits2 (a * b) <= 2 ^ ((Zdigits2 a - 1) + (Zdigits2 b - 1)))
    by (apply Z.pow_le_mono_r; lia).
  rewrite Z.pow_add_r in H1 by lia.
  assert (0 < 2 ^ (Zdigits2 a - 1)) by (apply Z.pow_pos_nonneg; lia).
  assert (0 < 2 ^ (Zdigits2 b - 1)) by (apply Z.pow_pos_nonneg; lia).
  nia.
Qed.

Lemma mul_nearest x y :
  pos_float x -> pos_float y -> nearest (to_Q x * to_Q y) (mul x y).
Proof.
  intros (mx & ex & -> & Hx) (my & ey & -> & Hy).
  apply bounded_canonical in Hx, Hy.
  unfold mul, SFmul. cbn [xorb to_Q cond_Zopp].
  apply round_aux_nearest with (a := 0) (b := 1).
  - lia.
  - lia.
  - reflexivity.
  - rewrite fexp_eq. rewrite Pos2Z.inj_mul.
    pose proof (Zdigits2_mul_ge (Zpos mx) (Zpos my) ltac:(lia) ltac:(lia)) as Hd.
    change (Zdigits2 (Zpos mx)) with (Zpos (digits2_pos mx)) in Hd.
    change (Zdigits2 (Zpos my)) with (Zpos (digits2_pos my)) in Hd.
    pose proof (Pos2Z.is_pos (digits2_pos mx)). pose proof (Pos2Z.is_pos (digits2_pos my)).
    lia.
  - rewrite Z.mul_1_r, Z.add_0_r, Pos2Z.inj_mul, inject_Z_mult, pow2_add.
    change (inject_Z 1) with 1%Q. ring.
Qed.

(** conversion of a positive integer below 2^53 is exact *)
Lemma repr_Z z : 0 <= z < 2 ^ 53 -> repr (inject_Z z).
Proof.
  intros Hz. exists z, 0. split; [assumption |]. split; [lia |].
  change (pow2 0) with 1%Q. ring.
Qed.

Lemma of_int_exact z :
  0 < z < 2 ^ 53 ->
  exists f, of_int z = Ok f /\ pos_float f /\ (to_Q f == inject_Z z)%Q.
Proof.
  intros Hz. unfold of_int.
  destruct z as [| p | p]; try lia. cbn [binary_normalize].
  pose proof (binary_round_nearest p 0) as Hn.
  apply nearest_ext with (v' := inject_Z (Zpos p)) in Hn;
    [| change (pow2 0) with 1%Q; ring].
  destruct (nearest_exact _ _ Hn (repr_Z (Zpos p) ltac:(lia))) as [Hnn HQ].
  assert (Hpos : pos_float (binary_round prec emax false p 0)).
  { apply nonneg_pos; [assumption |]. rewrite HQ.
    change 0%Q with (inject_Z 0). rewrite <- Zlt_Qlt. lia. }
  destruct Hpos as (m & e & Hr & Hb).
  exists (S754_finite false m e). rewrite Hr in *. 
  split; [reflexivity |]. split; [| assumption].
  exists m, e. auto.
Qed.

(** int(x) *)
Lemma shiftl_floor m e : Z.shiftl (Zpos m) e = Qfloor (inject_Z (Zpos m) * pow2 e).
Proof.
  destruct (Z_le_gt_dec 0 e) as [He | He].
  - rewrite Z.shiftl_mul_pow2 by assumption.
    rewrite pow2_Z, <- inject_Z_mult, Qfloor_Z by assumption. reflexivity.
  - rewrite Z.shiftl_div_pow2 by lia.
    assert (Hp : 0 < 2 ^ (- e)) by (apply Z.pow_pos_nonneg; lia).
    assert (Hq : (inject_Z (Zpos m) * pow2 e == Zpos m # Z.to_pos (2 ^ (- e)))%Q).
    { assert (Hpe : (pow2 e * inject_Z (2 ^ (- e)) == 1)%Q).
      { rewrite <- pow2_Z, <- pow2_add by lia. replace (e + - e) with 0 by lia. reflexivity. }
      rewrite (Qmake_Qdiv (Zpos m) _). rewrite Z2Pos.id by assumption.
      assert (Hne : ~ (inject_Z (2 ^ (- e)) == 0)%Q).
      { intros H0. rewrite H0 in Hpe. lra. }
      field_simplify_eq; [| assumption]. rewrite <- Qmult_assoc, Hpe. ring. }
    rewrite Hq. unfold Qfloor. rewrite Z2Pos.id by assumption. reflexivity.
Qed.

Lemma to_int_floor r : pos_float r -> to_int r = Ok (Qfloor (to_Q r)).
Proof.
  intros (m & e & -> & _). cbn [to_int to_Q cond_Zopp]. rewrite shiftl_floor. reflexivity.
Qed.

Lemma pow2_inv k : (pow2 k * pow2 (- k) == 1)%Q.
Proof. rewrite <- pow2_add. replace (k + - k) with 0 by lia. reflexivity. Qed.

(** rounding moves a value by less than the step of any grid it fits on *)
Lemma nearest_grid k v r :
  0 <= k <= 1074 -> nearest v r -> (1 <= v)%Q -> (v <= pow2 (52 - k))%Q ->
  pos_float r /\ (v - pow2 (- k) < to_Q r)%Q /\ (to_Q r < v + pow2 (- k))%Q.
Proof.
  intros Hk Hn H1 H2.
  pose proof (pow2_pos k) as Hpk. pose proof (pow2_pos (- k)) as Hpk'.
  pose proof (pow2_inv k) as Hinv.
  set (w := (v * pow2 k)%Q).
  assert (Hw1 : (1 <= w)%Q).
  { unfold w. assert (1 <= pow2 k)%Q by (change 1%Q with (pow2 0); apply pow2_le; lia). nra. }
  assert (Hw2 : (w <= inject_Z (2 ^ 52))%Q).
  { unfold w. rewrite <- pow2_Z by lia. rewrite (pow2_split 52 (52 - k)) by lia.
    replace (52 - (52 - k)) with k by lia. rewrite <- pow2_Z by lia. nra. }
  assert (Hv : (v == w * pow2 (- k))%Q).
  { unfold w. rewrite <- Qmult_assoc, Hinv. ring. }
  pose proof (Qfloor_le w) as Hf1. pose proof (Qlt_floor w) as Hf2.
  pose proof (Qle_ceiling w) as Hc1. pose proof (Qceiling_lt w) as Hc2.
  assert (HfL : 1 <= Qfloor w).
  { rewrite <- (Qfloor_Z 1). apply Qfloor_resp_le. exact Hw1. }
  assert (HfU : Qfloor w <= 2 ^ 52).
  { rewrite <- (Qfloor_Z (2 ^ 52)). apply Qfloor_resp_le. exact Hw2. }
  assert (HcU : Qceiling w <= 2 ^ 52).
  { rewrite <- (Qceiling_Z (2 ^ 52)). apply Qceiling_resp_le. exact Hw2. }
  assert (HcL : 1 <= Qceiling w).
  { rewrite <- (Qceiling_Z 1). apply Qceiling_resp_le. exact Hw1. }
  rewrite inject_Z_plus in Hf2. rewrite inject_Z_sub in Hc2.
  change (inject_Z 1) with 1%Q in *.
  assert (HL : repr (inject_Z (Qfloor w) * pow2 (- k))).
  { exists (Qfloor w), (- k). split; [lia |]. split; [lia | reflexivity]. }
  assert (HU : repr (inject_Z (Qceiling w) * pow2 (- k))).
  { exists (Qceiling w), (- k). split; [lia |]. split; [lia | reflexivity]. }
  assert (HfQ : (1 <= inject_Z (Qfloor w))%Q) by (rewrite Zle_Qle in HfL; exact HfL).
  destruct (nearest_between_pos v r _ _ Hn HL HU) as (Hp & Hlo & Hhi).
  - nra.
  - rewrite Hv. nra.
  - rewrite Hv. nra.
  - split; [assumption |]. rewrite Hv. split; nra.
Qed.

Lemma floor_bounds (x : Q) (lo hi : Z) :
  (inject_Z lo <= x)%Q -> (x < inject_Z hi + 1)%Q -> lo <= Qfloor x <= hi.
Proof.
  intros H1 H2. split.
  - rewrite <- (Qfloor_Z lo). apply Qfloor_resp_le. assumption.
  - pose proof (Qfloor_le x) as Hf.
    assert (inject_Z (Qfloor x) < inject_Z (hi + 1))%Q.
    { rewrite inject_Z_plus. change (inject_Z 1) with 1%Q. lra. }
    rewrite <- Zlt_Qlt in H. lia.
Qed.

Lemma pos_float_lit_checked f m e :
  f = S754_finite false m e -> bounded prec emax m e = true -> pos_float f.
Proof. intros -> H. exists m, e. auto. Qed.

Ltac lit_pos := eapply pos_float_lit_checked; [vm_compute; reflexivity | vm_compute; reflexivity].

Lemma pos_g08 : pos_float g08. Proof. lit_pos. Qed.
Lemma pos_g02 : pos_float g02. Proof. lit_pos. Qed.
Lemma pos_05 : pos_float (lit 0.5). Proof. lit_pos. Qed.
Lemma pos_07 : pos_float (lit 0.7). Proof. lit_pos. Qed.
Lemma pos_11 : pos_float (lit 1.1). Proof. lit_pos. Qed.
Lemma pos_12 : pos_float (lit 1.2). Proof. lit_pos. Qed.

Ltac qcomp := apply Qle_bool_iff; vm_compute; reflexivity.

Lemma g08_g02 : (to_Q g08 + to_Q g02 == 1)%Q.
Proof. apply Qeq_bool_iff. vm_compute. reflexivity. Qed.

Lemma g08_bounds : ((4 # 5) <= to_Q g08)%Q /\ (to_Q g08 <= (4 # 5) + (1 # 1000000000000000))%Q.
Proof. split; qcomp. Qed.

Lemma new_location_ok b r :
  0 <= r < b -> loc_ok r b (new_location b r).
Proof.
  intros Hr. unfold new_location, new_location_even, new_location_odd.
  destruct (Z.even b) eqn:Hev.
  - destruct (r =? 0) eqn:Hr0.
    + apply Z.eqb_eq in Hr0. exact Hr0.
    + destruct (2 * r ?= b) eqn:Hc; cbn [loc_ok].
      * apply Z.compare_eq in Hc. exact Hc.
      * apply Z.compare_lt_iff in Hc. exact Hc.
      * apply Z.compare_gt_iff in Hc. exact Hc.
  - destruct (r =? 0) eqn:Hr0.
    + apply Z.eqb_eq in Hr0. exact Hr0.
    + assert (Hodd : b mod 2 = 1).
      { rewrite Zmod_even, Hev. reflexivity. }
      destruct (2 * r + 1 ?= b) eqn:Hc; unfold loc_ok.
      * apply Z.compare_eq in Hc. change (2 * r + 1 = b) in Hc. lia.
      * apply Z.compare_lt_iff in Hc. change (2 * r + 1 < b) in Hc. lia.
      * apply Z.compare_gt_iff in Hc. change (b < 2 * r + 1) in Hc.
        assert (2 * r <> b) by (intros Heq; rewrite <- Heq in Hodd;
          rewrite Z.mul_comm, Z.mod_mul in Hodd by lia; lia).
        lia.
Qed.

Lemma div_eucl_div_mod a b : Z.div_eucl a b = (a / b, a mod b).
Proof. unfold Z.div, Z.modulo. destruct (Z.div_eucl a b). reflexivity. Qed.

Lemma Zdigits2_ge m k : 0 <= k -> 2 ^ k <= m -> k < Zdigits2 m.
Proof.
  intros Hk Hm.
  assert (Hpos : 0 < m) by (pose proof (Z.pow_pos_nonneg 2 k); lia).
  pose proof (Zdigits2_bounds m Hpos) as [_ Hhi].
  destruct (Z_lt_ge_dec k (Zdigits2 m)); [assumption | exfalso].
  pose proof (Zdigits2_pos m Hpos).
  assert (2 ^ Zdigits2 m <= 2 ^ k) by (apply Z.pow_le_mono_r; lia). lia.
Qed.

Lemma div_nearest mx ex my ey :
  -1021 <= Zdigits2 (Zpos mx) + ex - (Zdigits2 (Zpos my) + ey) ->
  nearest (to_Q (S754_finite false mx ex) / to_Q (S754_finite false my ey))
          (div (S754_finite false mx ex) (S754_finite false my ey)).
Proof.
  intros HD. unfold div, SFdiv, SFdiv_core_binary. cbn [xorb].
  set (d1 := Zdigits2 (Zpos mx)) in *. set (d2 := Zdigits2 (Zpos my)) in *.
  rewrite fexp_eq.
  set (e' := Z.min (Z.max (d1 + ex - (d2 + ey) - 53) (-1074)) (ex - ey)).
  set (s := ex - ey - e').
  assert (Hs : 0 <= s) by (unfold s, e'; lia).
  assert (Hs' : d2 - d1 + 53 <= s) by (unfold s, e'; lia).
  pose proof (Zdigits2_bounds (Zpos mx) ltac:(lia)) as [H1lo H1hi].
  pose proof (Zdigits2_bounds (Zpos my) ltac:(lia)) as [H2lo H2hi].
  pose proof (Zdigits2_pos (Zpos mx) ltac:(lia)) as Hd1.
  pose proof (Zdigits2_pos (Zpos my) ltac:(lia)) as Hd2.
  fold d1 in H1lo, H1hi, Hd1. fold d2 in H2lo, H2hi, Hd2.
  set (m' := match s with
             | 0 => Zpos mx
             | Zpos _ => Z.shiftl (Zpos mx) s
             | Zneg _ => 0
             end).
  assert (Hm' : m' = Zpos mx * 2 ^ s).
  { unfold m'. destruct s as [| p | p] eqn:Es; try lia.
    rewrite Z.shiftl_mul_pow2 by lia. reflexivity. }
  rewrite div_eucl_div_mod.
  set (q := m' / Zpos my). set (r := m' mod Zpos my).
  pose proof (Z.div_mod m' (Zpos my) ltac:(lia)) as Hqr. fold q r in Hqr.
  pose proof (Z.mod_pos_bound m' (Zpos my) ltac:(lia)) as Hr. fold r in Hr.
  assert (Hps : 0 < 2 ^ s) by (apply Z.pow_pos_nonneg; lia).
  set (k := d1 + s - d2 - 1).
  assert (Hk : 52 <= k) by (unfold k; lia).
  assert (Hqk : 2 ^ k <= q).
  { unfold q. apply Z.div_le_lower_bound; [lia |].
    assert (Zpos my * 2 ^ k <= 2 ^ d2 * 2 ^ k).
    { apply Z.mul_le_mono_nonneg_r; [apply Z.pow_nonneg; lia | lia]. }
    rewrite <- Z.pow_add_r in H by lia.
    replace (d2 + k) with ((d1 - 1) + s) in H by (unfold k; lia).
    rewrite Z.pow_add_r in H by lia. rewrite Hm'. nia. }
  assert (Hq0 : 0 < q) by (pose proof (Z.pow_pos_nonneg 2 k); lia).
  pose proof (Zdigits2_ge q k ltac:(lia) Hqk) as Hdq.
  apply round_aux_nearest with (a := r) (b := Zpos my).
  - exact Hq0.
  - exact Hr.
  - apply new_location_ok. exact Hr.
  - rewrite fexp_eq. unfold e', k in *. lia.
  - cbn [to_Q cond_Zopp].
    replace (q * Zpos my + r) with m' by lia. rewrite Hm', inject_Z_mult.
    rewrite <- (pow2_Z s) by lia. rewrite <- Qmult_assoc, <- pow2_add.
    replace (s + e') with (ex - ey) by (unfold s; lia).
    assert (Hey : (pow2 ex == pow2 (ex - ey) * pow2 ey)%Q).
    { rewrite <- pow2_add. replace (ex - ey + ey) with ex by lia. reflexivity. }
    rewrite Hey.
    pose proof (pow2_pos ey) as Hpe.
    assert (Hmy : (0 < inject_Z (Zpos my))%Q).
    { change 0%Q with (inject_Z 0). rewrite <- Zlt_Qlt. lia. }
    field. split; [lra | lra].
Qed.

(** exact conversion *)
Lemma normalize_exact z :
  0 < z -> repr (inject_Z z) ->
  pos_float (binary_normalize prec emax z 0 false) /\
  (to_Q (binary_normalize prec emax z 0 false) == inject_Z z)%Q.
Proof.
  intros Hz Hr. destruct z as [| p | p]; try lia. cbn [binary_normalize].
  pose proof (binary_round_nearest p 0) as Hn.
  apply nearest_ext with (v' := inject_Z (Zpos p)) in Hn;
    [| change (pow2 0) with 1%Q; ring].
  destruct (nearest_exact _ _ Hn Hr) as [Hnn HQ].
  split; [| assumption].
  apply nonneg_pos; [assumption |]. rewrite HQ.
  change 0%Q with (inject_Z 0). rewrite <- Zlt_Qlt. lia.
Qed.

Lemma of_int_repr z :
  0 < z -> repr (inject_Z z) ->
  exists f, of_int z = Ok f /\ pos_float f /\ (to_Q f == inject_Z z)%Q.
Proof.
  intros Hz Hr. destruct (normalize_exact z Hz Hr) as [Hp HQ]. unfold of_int.
  destruct Hp as (m & e & Hf & Hb). rewrite Hf in *.
  exists (S754_finite false m e). split; [reflexivity |]. split; [| assumption].
  exists m, e. auto.
Qed.

(** the binade of a positive value is unique *)
Lemma mag_unique v M M' :
  (pow2 (M - 1) <= v)%Q -> (v < pow2 M)%Q ->
  (pow2 (M' - 1) <= v)%Q -> (v < pow2 M')%Q -> M = M'.
Proof.
  intros H1 H2 H3 H4.
  destruct (Z.lt_trichotomy M M') as [Hlt | [Heq | Hgt]]; [exfalso | assumption | exfalso].
  - pose proof (pow2_le M (M' - 1) ltac:(lia)). lra.
  - pose proof (pow2_le M' (M - 1) ltac:(lia)). lra.
Qed.

(** adding less than half a unit to 2^53 leaves 2^53 *)
Lemma nearest_saturates v r :
  nearest v r -> (inject_Z (2 ^ 53) <= v)%Q -> (v <= inject_Z (2 ^ 53) + (1 # 2))%Q ->
  pos_float r /\ (to_Q r == inject_Z (2 ^ 53))%Q.
Proof.
  intros (M & K & Hlo & Hhi & HK0 & He1 & He2 & Hfin) Hv1 Hv2.
  assert (H53 : (pow2 53 == inject_Z (2 ^ 53))%Q) by (apply pow2_Z; lia).
  assert (H54 : (pow2 54 == inject_Z (2 ^ 54))%Q) by (apply pow2_Z; lia).
  assert (Hgap : (inject_Z (2 ^ 53) + (1 # 2) < inject_Z (2 ^ 54))%Q) by reflexivity.
  assert (HM : M = 54).
  { apply (mag_unique v M 54); try assumption; change (54 - 1) with 53; lra. }
  subst M. change (fexp64 54) with 1 in *. change (1 - 1) with 0 in *.
  change (pow2 1) with 2%Q in *. change (pow2 0) with 1%Q in *.
  assert (HK : K = 2 ^ 52).
  { assert (H53' : (inject_Z (2 ^ 53) == 2 * inject_Z (2 ^ 52))%Q) by reflexivity.
    assert (inject_Z K < inject_Z (2 ^ 52 + 1))%Q.
    { rewrite inject_Z_plus. change (inject_Z 1) with 1%Q. lra. }
    assert (inject_Z (2 ^ 52 - 1) < inject_Z K)%Q.
    { rewrite inject_Z_sub. change (inject_Z 1) with 1%Q. lra. }
    rewrite <- Zlt_Qlt in H, H0. lia. }
  subst K.
  destruct Hfin as [Hnn HQ]; [reflexivity |].
  assert (HQ' : (to_Q r == inject_Z (2 ^ 53))%Q) by (rewrite HQ; reflexivity).
  split; [| assumption].
  apply nonneg_pos; [assumption |]. rewrite HQ'. reflexivity.
Qed.

(** * The bitrate controller *)

Module BitrateProofs.

Import Bitrate BitrateSpec.

Lemma in_range_Q c : in_range c -> (500000 <= inject_Z c)%Q /\ (inject_Z c <= 8000000)%Q.
Proof.
  intros [H1 H2]. rewrite Zle_Qle in H1, H2. split; assumption.
Qed.

Lemma of_int_range c : in_range c ->
  exists f, of_int c = Ok f /\ pos_float f /\ (to_Q f == inject_Z c)%Q.
Proof.
  intros [H1 H2]. apply of_int_exact. split; [lia |].
  assert (8000000 < 2 ^ 53) by reflexivity. lia.
Qed.

Lemma pow2_m29 : (pow2 (-29) == 1 # 536870912)%Q.
Proof. reflexivity. Qed.

Lemma pow2_23 : (pow2 (52 - 29) == 8388608)%Q.
Proof. reflexivity. Qed.

(** [int(c * factor)] for a factor between one half and one *)
Lemma reduce_ok c rf :
  in_range c -> pos_float rf -> ((1 # 2) <= to_Q rf)%Q -> (to_Q rf <= 1)%Q ->
  exists f r, of_int c = Ok f /\ to_int (mul f rf) = Ok r /\ 1 <= r <= c.
Proof.
  intros Hc Hrf Hlo Hhi.
  destruct (of_int_range c Hc) as (f & Hf & Hpf & HfQ).
  destruct (in_range_Q c Hc) as [Hc1 Hc2].
  pose proof (mul_nearest f rf Hpf Hrf) as Hn.
  assert (HL : repr (inject_Z 1)) by (apply repr_Z; lia).
  assert (HU : repr (inject_Z c)).
  { apply repr_Z. destruct Hc. assert (8000000 < 2 ^ 53) by reflexivity. lia. }
  destruct (nearest_between_pos _ _ _ _ Hn HL HU) as (Hp & Hl & Hu).
  - reflexivity.
  - rewrite HfQ. change (inject_Z 1) with 1%Q. nra.
  - rewrite HfQ. nra.
  - exists f, (Qfloor (to_Q (mul f rf))). split; [assumption |].
    split; [apply to_int_floor; assumption |].
    apply floor_bounds; [assumption | lra].
Qed.

Lemma lit_05_Q : ((1 # 2) <= to_Q (lit 0.5))%Q /\ (to_Q (lit 0.5) <= 1)%Q.
Proof. split; qcomp. Qed.
Lemma lit_07_Q : ((1 # 2) <= to_Q (lit 0.7))%Q /\ (to_Q (lit 0.7) <= 1)%Q.
Proof. split; qcomp. Qed.
Lemma lit_08_Q : ((1 # 2) <= to_Q (lit 0.8))%Q /\ (to_Q (lit 0.8) <= 1)%Q.
Proof. split; qcomp. Qed.
Lemma lit_11_Q : (1 <= to_Q (lit 1.1))%Q /\ (to_Q (lit 1.1) <= 2)%Q.
Proof. split; qcomp. Qed.

(** [int(c * 1.1)] *)
Lemma increase_ok c :
  in_range c ->
  exists f r, of_int c = Ok f /\ to_int (mul f (lit 1.1)) = Ok r /\ c <= r.
Proof.
  intros Hc.
  destruct (of_int_range c Hc) as (f & Hf & Hpf & HfQ).
  destruct (in_range_Q c Hc) as [Hc1 Hc2].
  destruct lit_11_Q as [H1 H2].
  pose proof (mul_nearest f (lit 1.1) Hpf pos_11) as Hn.
  assert (HL : repr (inject_Z c)).
  { apply repr_Z. destruct Hc. assert (8000000 < 2 ^ 53) by reflexivity. lia. }
  assert (HU : repr (inject_Z 16000000)) by (apply repr_Z; split; [lia | reflexivity]).
  destruct (nearest_between_pos _ _ _ _ Hn HL HU) as (Hp & Hl & Hu).
  - lra.
  - rewrite HfQ. nra.
  - rewrite HfQ. change (inject_Z 16000000) with 16000000%Q. nra.
  - exists f, (Qfloor (to_Q (mul f (lit 1.1)))). split; [assumption |].
    split; [apply to_int_floor; assumption |].
    rewrite <- (Qfloor_Z c). apply Qfloor_resp_le. assumption.
Qed.

Lemma g08_Q : (to_Q g08 == 7205759403792794 # 9007199254740992)%Q.
Proof. apply Qeq_bool_iff. vm_compute. reflexivity. Qed.

Lemma g02_Q : (to_Q g02 == 1 - (7205759403792794 # 9007199254740992))%Q.
Proof. apply Qeq_bool_iff. vm_compute. reflexivity. Qed.

Lemma smooth_corner :
  exists fc, of_int 500000 = Ok fc /\
    to_int (add (mul g08 fc) (mul g02 fc)) = Ok 500000.
Proof. eexists. split; vm_compute; reflexivity. Qed.

(** the smoothing step [int(gamma * c + (1 - gamma) * t)] *)
Lemma smooth_ok c t :
  in_range c -> in_range t ->
  exists fc ft cur,
    of_int c = Ok fc /\ of_int t = Ok ft /\
    to_int (add (mul g08 fc) (mul g02 ft)) = Ok cur /\
    in_range cur /\ (t <= c -> cur <= c) /\ (t < c -> cur < c) /\
    (c <= t -> cur <= t).
Proof.
  intros Hc Ht.
  destruct (of_int_range c Hc) as (fc & Hfc & Hpc & HcQ).
  destruct (of_int_range t Ht) as (ft & Hft & Hpt & HtQ).
  destruct (in_range_Q c Hc) as [Hc1 Hc2].
  destruct (in_range_Q t Ht) as [Ht1 Ht2].
  pose proof g08_Q as HG. pose proof g02_Q as HG'.
  pose proof pow2_m29 as Hp29. pose proof pow2_23 as Hp23.
  (* gamma * c *)
  pose proof (mul_nearest g08 fc pos_g08 Hpc) as Ha.
  destruct (nearest_grid 29 _ _ ltac:(lia) Ha) as (Hpa & Ha1 & Ha2).
  { rewrite HG, HcQ. lra. }
  { rewrite HG, HcQ, Hp23. lra. }
  (* (1 - gamma) * t *)
  pose proof (mul_nearest g02 ft pos_g02 Hpt) as Hb.
  destruct (nearest_grid 29 _ _ ltac:(lia) Hb) as (Hpb & Hb1 & Hb2).
  { rewrite HG', HtQ. lra. }
  { rewrite HG', HtQ, Hp23. lra. }
  rewrite HG, HcQ, Hp29 in Ha1, Ha2. rewrite HG', HtQ, Hp29 in Hb1, Hb2.
  (* the sum *)
  pose proof (add_nearest _ _ Hpa Hpb) as Hs.
  destruct (nearest_grid 29 _ _ ltac:(lia) Hs) as (Hps & Hs1 & Hs2).
  { lra. }
  { rewrite Hp23. lra. }
  rewrite Hp29 in Hs1, Hs2.
  set (s := add (mul g08 fc) (mul g02 ft)) in *.
  exists fc, ft.
  destruct (Z.eq_dec c 500000) as [Ec | Ec]; [destruct (Z.eq_dec t 500000) as [Et | Et] |].
  - (* both at the lower bound: evaluated *)
    subst c t. destruct smooth_corner as (fc' & Hfc' & Hcur).
    rewrite Hfc in Hfc'. injection Hfc' as <-.
    rewrite Hft in Hfc. injection Hfc as ->.
    exists 500000. unfold in_range. repeat split; auto; lia.
  - exists (Qfloor (to_Q s)). split; [assumption |]. split; [assumption |].
    split; [apply to_int_floor; assumption |].
    assert (Ht' : 500001 <= t) by (destruct Ht; lia).
    rewrite Zle_Qle in Ht'. change (inject_Z 500001) with 500001%Q in Ht'.
    assert (Hlow : 500000 <= Qfloor (to_Q s)).
    { rewrite <- (Qfloor_Z 500000). apply Qfloor_resp_le.
      change (inject_Z 500000) with 500000%Q. lra. }
    split; [split; [assumption |] |].
    + apply (floor_bounds (to_Q s) 0 8000000); [| ]; 
        change (inject_Z 0) with 0%Q; change (inject_Z 8000000) with 8000000%Q; lra.
    + split; [| split]; intros Hle.
      * apply (floor_bounds (to_Q s) 0 c); [change (inject_Z 0) with 0%Q; lra |].
        rewrite Zle_Qle in Hle. lra.
      * exfalso. destruct Ht. lia.
      * apply (floor_bounds (to_Q s) 0 t); [change (inject_Z 0) with 0%Q; lra |].
        rewrite Zle_Qle in Hle. lra.
  - exists (Qfloor (to_Q s)). split; [assumption |]. split; [assumption |].
    split; [apply to_int_floor; assumption |].
    assert (Hc' : 500001 <= c) by (destruct Hc; lia).
    rewrite Zle_Qle in Hc'. change (inject_Z 500001) with 500001%Q in Hc'.
    assert (Hlow : 500000 <= Qfloor (to_Q s)).
    { rewrite <- (Qfloor_Z 500000). apply Qfloor_resp_le.
      change (inject_Z 500000) with 500000%Q. lra. }
    split; [split; [assumption |] |].
    + apply (floor_bounds (to_Q s) 0 8000000); [| ];
        change (inject_Z 0) with 0%Q; change (inject_Z 8000000) with 8000000%Q; lra.
    + split; [| split]; intros Hle.
      * apply (floor_bounds (to_Q s) 0 c); [change (inject_Z 0) with 0%Q; lra |].
        rewrite Zle_Qle in Hle. lra.
      * assert (Hlt : Qfloor (to_Q s) <= c - 1); [| lia].
        apply (floor_bounds (to_Q s) 0 (c - 1)); [change (inject_Z 0) with 0%Q; lra |].
        assert (Hle' : t <= c - 1) by lia.
        rewrite Zle_Qle, inject_Z_sub in Hle'. rewrite inject_Z_sub.
        change (inject_Z 1) with 1%Q in *. lra.
      * apply (floor_bounds (to_Q s) 0 t); [change (inject_Z 0) with 0%Q; lra |].
        rewrite Zle_Qle in Hle. lra.
Qed.

(** [int(c * factor)] stays below [c] *)
Lemma reduce_lt c rf :
  in_range c -> pos_float rf -> ((1 # 2) <= to_Q rf)%Q -> (to_Q rf <= (9 # 10))%Q ->
  exists f r, of_int c = Ok f /\ to_int (mul f rf) = Ok r /\ 1 <= r < c.
Proof.
  intros Hc Hrf Hlo Hhi.
  destruct (of_int_range c Hc) as (f & Hf & Hpf & HfQ).
  destruct (in_range_Q c Hc) as [Hc1 Hc2].
  pose proof (mul_nearest f rf Hpf Hrf) as Hn.
  assert (HL : repr (inject_Z 1)) by (apply repr_Z; lia).
  assert (HU : repr (inject_Z (c - 1))).
  { apply repr_Z. destruct Hc. assert (8000000 < 2 ^ 53) by reflexivity. lia. }
  destruct (nearest_between_pos _ _ _ _ Hn HL HU) as (Hp & Hl & Hu).
  - reflexivity.
  - rewrite HfQ. change (inject_Z 1) with 1%Q. nra.
  - rewrite HfQ, inject_Z_sub. change (inject_Z 1) with 1%Q. nra.
  - exists f, (Qfloor (to_Q (mul f rf))). split; [assumption |].
    split; [apply to_int_floor; assumption |].
    assert (1 <= Qfloor (to_Q (mul f rf)) <= c - 1); [| lia].
    apply floor_bounds; [assumption | lra].
Qed.

Lemma lit_Q_09 :
  (to_Q (lit 0.5) <= (9 # 10))%Q /\ (to_Q (lit 0.7) <= (9 # 10))%Q /\
  (to_Q (lit 0.8) <= (9 # 10))%Q.
Proof. repeat split; qcomp. Qed.

Lemma pos_08 : pos_float (lit 0.8). Proof. exact pos_g08. Qed.

Lemma reduction_factor_ok n :
  pos_float (reduction_factor_of n) /\
  ((1 # 2) <= to_Q (reduction_factor_of n))%Q /\
  (to_Q (reduction_factor_of n) <= (9 # 10))%Q.
Proof.
  destruct lit_Q_09 as (H5 & H7 & H8).
  destruct n; cbn [reduction_factor_of network_state_eqb];
    (split; [first [exact pos_05 | exact pos_07 | exact pos_08] |]);
    (split; [first [apply lit_05_Q | apply lit_07_Q | apply lit_08_Q] | assumption]).
Qed.

Lemma adjust_bitrate_ok s :
  wf s -> throughput_history s <> [] ->
  exists cur tgt,
    adjust_bitrate s = Ok (set_bitrates s cur tgt) /\
    in_range cur /\ in_range tgt /\
    (congestion_detected s = true ->
       cur <= current_bitrate s /\
       (500000 < current_bitrate s -> cur < current_bitrate s)).
Proof.
  intros (Hmin & Hmax & Hg & Hc & Ht) Hne.
  unfold adjust_bitrate.
  destruct (throughput_history s) as [| h hs] eqn:Hh; [congruence |].
  rewrite Hmin, Hmax, Hg.
  change (sub (lit 1) (lit 0.8)) with g02. change (lit 0.8) with g08 at 2.
  destruct (congestion_detected s) eqn:Hd.
  - destruct (reduction_factor_ok (network_state s)) as (Hp & Hlo & Hhi).
    destruct (reduce_lt (current_bitrate s) _ Hc Hp Hlo Hhi) as (f & r & Hf & Hr & Hrr).
    unfold reduction_factor_of in Hr.
    rewrite Hf. cbn [bind]. rewrite Hr. cbn [bind].
    assert (Htgt : in_range (Z.max 500000 r)) by (unfold in_range in *; lia).
    destruct (smooth_ok _ _ Hc Htgt) as (fc & ft & cur & Hfc & Hft & Hcur & Hin & Hle & Hlt & _).
    rewrite Hf in Hfc. injection Hfc as <-.
    rewrite Hft. cbn [bind]. rewrite Hcur. cbn [bind].
    exists cur, (Z.max 500000 r). split; [reflexivity |].
    split; [assumption |]. split; [assumption |]. intros _.
    unfold in_range in *. split; [apply Hle; lia |]. intros Hbig. apply Hlt. lia.
  - destruct (of_int_range _ Hc) as (f & Hf & _).
    rewrite Hf. cbn [bind].
    match goal with |- context [if ?b then _ else _] => destruct b end.
    + destruct (increase_ok _ Hc) as (f' & r & Hf' & Hr & Hrr).
      rewrite Hf in Hf'. injection Hf' as <-. rewrite Hr. cbn [bind].
      assert (Htgt : in_range (Z.min 8000000 r)) by (unfold in_range in *; lia).
      destruct (smooth_ok _ _ Hc Htgt) as (fc & ft & cur & Hfc & Hft & Hcur & Hin & _).
      rewrite Hf in Hfc. injection Hfc as <-.
      rewrite Hft. cbn [bind]. rewrite Hcur. cbn [bind].
      exists cur, (Z.min 8000000 r). split; [reflexivity |].
      split; [assumption |]. split; [assumption |]. discriminate.
    + cbn [bind].
      destruct (smooth_ok _ _ Hc Ht) as (fc & ft & cur & Hfc & Hft & Hcur & Hin & _).
      rewrite Hf in Hfc. injection Hfc as <-.
      rewrite Hft. cbn [bind]. rewrite Hcur. cbn [bind].
      exists cur, (target_bitrate s). split; [reflexivity |].
      split; [assumption |]. split; [assumption |]. discriminate.
Qed.

(** deque *)
Lemma deque_append_nonempty {A} (d : list A) x : deque_append 50 d x <> [].
Proof.
  unfold deque_append. intros H.
  apply (f_equal (@length A)) in H. rewrite length_skipn, length_app in H. cbn in H. lia.
Qed.

Lemma deque_append_suffix {A} n (pre suf : list A) x :
  (length suf < n)%nat ->
  exists pre', deque_append n (pre ++ suf) x = pre' ++ (suf ++ [x]).
Proof.
  intros Hn. unfold deque_append.
  exists (skipn (length ((pre ++ suf) ++ [x]) - n) pre).
  rewrite <- app_assoc, skipn_app.
  replace (length (pre ++ suf ++ [x]) - n - length pre)%nat with 0%nat.
  - reflexivity.
  - rewrite !length_app. cbn. lia.
Qed.

Lemma deque_append_last {A} n (d : list A) x :
  (0 < n)%nat -> exists pre, deque_append n d x = pre ++ [x].
Proof.
  intros Hn. destruct (deque_append_suffix n d [] x Hn) as (pre' & H).
  rewrite app_nil_r in H. exists pre'. exact H.
Qed.

Lemma lossy_tail_0 w : lossy_tail 0 w.
Proof. exists w, []. rewrite app_nil_r. auto. Qed.

Lemma lossy_tail_append k w x :
  lossy_tail k w -> lossy x -> (k < 100)%nat ->
  lossy_tail (S k) (deque_append 100 w x).
Proof.
  intros (pre & suf & -> & Hk & Hall) Hx Hlt.
  destruct (deque_append_suffix 100 pre suf x ltac:(lia)) as (pre' & ->).
  exists pre', (suf ++ [x]). split; [reflexivity |]. split.
  - rewrite length_app. cbn. lia.
  - apply Forall_app. auto.
Qed.

Lemma lossy_tail_weaken k w : lossy_tail (S k) w -> lossy_tail k w.
Proof.
  intros (pre & suf & -> & Hk & Hall).
  destruct suf as [| a suf]; [discriminate |].
  exists (pre ++ [a]), suf. rewrite <- app_assoc. cbn.
  split; [reflexivity |]. split; [cbn in Hk; lia |]. inversion Hall; assumption.
Qed.

Lemma lossy_tail_10 w :
  lossy_tail 10 w ->
  (10 <= length w)%nat /\ map packet_loss_rate (last_n 10 w) = repeat (lit 0.1) 10.
Proof.
  intros (pre & suf & -> & Hk & Hall). split.
  - rewrite length_app. lia.
  - unfold last_n. rewrite length_app, Hk, skipn_app.
    replace (length pre + 10 - 10 - length pre)%nat with 0%nat by lia.
    replace (length pre + 10 - 10)%nat with (length pre) by lia.
    rewrite skipn_all. cbn [app skipn].
    rewrite <- Hk. clear Hk. induction Hall as [| a l Ha _ IH]; [reflexivity |].
    cbn. rewrite Ha, IH. reflexivity.
Qed.

Lemma mean_lossy : gtb (Np.mean (repeat (lit 0.1) 10)) (lit 0.05) = true.
Proof. vm_compute. reflexivity. Qed.

Lemma detect_congestion_lossy s :
  lossy_tail 10 (stats_window s) ->
  detect_congestion s = set_detection s true congested.
Proof.
  intros H. apply lossy_tail_10 in H. destruct H as [Hlen Hmap].
  unfold detect_congestion.
  assert (Hl : (length (stats_window s) <? 10)%nat = false) by (apply Nat.ltb_ge; lia).
  rewrite Hl, Hmap, mean_lossy. reflexivity.
Qed.

Lemma detect_congestion_frame s :
  current_bitrate (detect_congestion s) = current_bitrate s /\
  target_bitrate (detect_congestion s) = target_bitrate s /\
  min_bitrate (detect_congestion s) = min_bitrate s /\
  max_bitrate (detect_congestion s) = max_bitrate s /\
  gamma (detect_congestion s) = gamma s /\
  stats_window (detect_congestion s) = stats_window s /\
  throughput_history (detect_congestion s) = throughput_history s.
Proof.
  unfold detect_congestion.
  repeat match goal with
         | |- context [if ?b then _ else _] => destruct b
         end; cbn; auto 10.
Qed.

Lemma detect_congestion_short s :
  (length (stats_window s) < 10)%nat -> detect_congestion s = s.
Proof.
  intros H. unfold detect_congestion.
  apply Nat.ltb_lt in H. rewrite H. reflexivity.
Qed.

Lemma wf_detect s x : wf s -> wf (detect_congestion (record_sample s x)).
Proof.
  intros Hwf. unfold wf in *.
  destruct (detect_congestion_frame (record_sample s x)) as (-> & -> & -> & -> & -> & _).
  exact Hwf.
Qed.

(** one call of [update_network_stats] from a well-formed state *)
Lemma update_ok s x :
  wf s ->
  exists cur tgt,
    let d := detect_congestion (record_sample s x) in
    update_network_stats s x = Ok (set_bitrates d cur tgt) /\
    wf (set_bitrates d cur tgt) /\
    (congestion_detected d = true ->
       cur <= current_bitrate s /\
       (500000 < current_bitrate s -> cur < current_bitrate s)).
Proof.
  intros Hwf. unfold update_network_stats.
  pose proof (wf_detect s x Hwf) as Hwfd.
  destruct (detect_congestion_frame (record_sample s x))
    as (Hc & Ht & Hmin & Hmax & Hg & Hw & Hh).
  set (d := detect_congestion (record_sample s x)) in *.
  assert (Hne : throughput_history d <> []).
  { rewrite Hh. cbn. apply deque_append_nonempty. }
  destruct (adjust_bitrate_ok d Hwfd Hne) as (cur & tgt & Hadj & Hcur & Htgt & Hmono).
  exists cur, tgt. cbn zeta. split; [exact Hadj |]. split.
  - destruct Hwfd as (H1 & H2 & H3 & _). unfold wf. cbn. auto.
  - rewrite Hc in Hmono. exact Hmono.
Qed.

Lemma feed_app s xs ys :
  feed s (xs ++ ys) = (s' <- feed s xs ;; feed s' ys)%py.
Proof.
  revert s. induction xs as [| x xs IH]; intros s; cbn [feed app bind]; [reflexivity |].
  destruct (update_network_stats s x); cbn [bind]; auto.
Qed.

Lemma feed_wf xs : forall s,
  wf s -> exists s', feed s xs = Ok s' /\ wf s'.
Proof.
  induction xs as [| x xs IH]; intros s Hwf; cbn [feed].
  - eauto.
  - destruct (update_ok s x Hwf) as (cur & tgt & Hup & Hwf' & _). cbn zeta in *.
    rewrite Hup. cbn [bind]. apply IH. assumption.
Qed.

Lemma wf_init b : in_range b -> wf (init b).
Proof. intros H. unfold wf. cbn. auto. Qed.

(** congestion phase *)
Lemma feed_lossy xs : forall s k,
  wf s -> lossy_tail k (stats_window s) -> (k <= 10)%nat -> Forall lossy xs ->
  exists s',
    feed s xs = Ok s' /\ wf s' /\
    lossy_tail (Nat.min 10 (k + length xs)) (stats_window s') /\
    ((10 <= k + length xs)%nat -> xs <> [] ->
       network_state s' = congested /\ congestion_detected s' = true).
Proof.
  induction xs as [| x xs IH]; intros s k Hwf Htail Hk Hall; cbn [feed].
  - exists s. split; [reflexivity |]. split; [assumption |].
    rewrite Nat.add_0_r, Nat.min_r by lia. split; [assumption | congruence].
  - inversion Hall as [| ? ? Hx Hall']; subst.
    destruct (update_ok s x Hwf) as (cur & tgt & Hup & Hwf' & _). cbn zeta in *.
    rewrite Hup. cbn [bind].
    set (d := detect_congestion (record_sample s x)) in *.
    assert (Hw : stats_window (set_bitrates d cur tgt) = deque_append 100 (stats_window s) x).
    { cbn. unfold d.
      destruct (detect_congestion_frame (record_sample s x)) as (_ & _ & _ & _ & _ & -> & _).
      reflexivity. }
    pose proof (lossy_tail_append k _ x Htail Hx ltac:(lia)) as Hrec.
    pose proof Hrec as Htail'. rewrite <- Hw in Htail'.
    destruct (Nat.eq_dec k 10) as [-> | Hk10].
    + apply lossy_tail_weaken in Htail'.
      destruct (IH _ 10%nat Hwf' Htail' ltac:(lia) Hall') as (s' & Hf & Hwfs & Ht & Hc).
      exists s'. split; [assumption |]. split; [assumption |]. split.
      * cbn [length]. rewrite Nat.min_l in * by lia. assumption.
      * intros _ _. destruct xs as [| y ys].
        -- cbn in Hf. injection Hf as <-. cbn.
           assert (Hd : lossy_tail 10 (stats_window (record_sample s x))).
           { cbn. apply lossy_tail_weaken. exact Hrec. }
           unfold d. rewrite (detect_congestion_lossy _ Hd). cbn. auto.
        -- apply Hc; [cbn; lia | discriminate].
    + destruct (IH _ (S k) Hwf' Htail' ltac:(lia) Hall') as (s' & Hf & Hwfs & Ht & Hc).
      exists s'. split; [assumption |]. split; [assumption |]. split.
      * cbn [length]. replace (k + S (length xs))%nat with (S k + length xs)%nat by lia.
        assumption.
      * intros Hlen _. destruct xs as [| y ys].
        -- cbn in Hf. injection Hf as <-. cbn. cbn in Hlen.
           assert (Hk9 : k = 9%nat) by lia. subst k.
           assert (Hd : lossy_tail 10 (stats_window (record_sample s x))).
           { cbn. exact Hrec. }
           unfold d. rewrite (detect_congestion_lossy _ Hd). cbn. auto.
        -- apply Hc; [cbn in *; lia | discriminate].
Qed.

Lemma update_lossy s x :
  wf s -> lossy_tail 10 (stats_window s) -> lossy x ->
  exists s',
    update_network_stats s x = Ok s' /\ wf s' /\
    lossy_tail 10 (stats_window s') /\
    network_state s' = congested /\ congestion_detected s' = true /\
    current_bitrate s' <= current_bitrate s /\
    (500000 < current_bitrate s -> current_bitrate s' < current_bitrate s).
Proof.
  intros Hwf Htail Hx.
  destruct (update_ok s x Hwf) as (cur & tgt & Hup & Hwf' & Hmono). cbn zeta in *.
  assert (Hd : lossy_tail 10 (stats_window (record_sample s x))).
  { cbn. apply lossy_tail_weaken. apply lossy_tail_append; auto. lia. }
  rewrite (detect_congestion_lossy _ Hd) in *.
  eexists. split; [exact Hup |]. split; [exact Hwf' |].
  split; [exact Hd |]. split; [reflexivity |]. split; [reflexivity |].
  apply Hmono. reflexivity.
Qed.

Lemma feed_congested ys : forall s,
  wf s -> lossy_tail 10 (stats_window s) -> Forall lossy ys ->
  exists s',
    feed s ys = Ok s' /\ wf s' /\ lossy_tail 10 (stats_window s') /\
    (network_state s = congested -> network_state s' = congested) /\
    500000 <= current_bitrate s' <= current_bitrate s /\
    (ys <> [] -> 500000 < current_bitrate s -> current_bitrate s' < current_bitrate s) /\
    (current_bitrate s - 500000 <= Z.of_nat (length ys) -> current_bitrate s' = 500000).
Proof.
  induction ys as [| y ys IH]; intros s Hwf Htail Hall; cbn [feed].
  - exists s. split; [reflexivity |]. split; [assumption |]. split; [assumption |].
    split; [auto |].
    destruct Hwf as (_ & _ & _ & [Hc _] & _). split; [lia |].
    split; [congruence |]. cbn. lia.
  - inversion Hall as [| ? ? Hy Hall']; subst.
    destruct (update_lossy s y Hwf Htail Hy) as (s1 & Hup & Hwf1 & Ht1 & Hn1 & _ & Hle & Hlt).
    rewrite Hup. cbn [bind].
    destruct (IH s1 Hwf1 Ht1 Hall') as (s' & Hf & Hwf' & Ht' & Hn' & Hb & _ & Hfix).
    exists s'. split; [assumption |]. split; [assumption |]. split; [assumption |].
    split; [auto |]. split; [lia |].
    destruct Hwf1 as (_ & _ & _ & [Hc1 _] & _).
    split.
    + intros _ Hbig. specialize (Hlt Hbig). lia.
    + intros Hlen. apply Hfix.
      cbn [length] in Hlen. rewrite Nat2Z.inj_succ in Hlen.
      destruct (Z.eq_dec (current_bitrate s) 500000); [lia |].
      assert (current_bitrate s1 < current_bitrate s)
        by (apply Hlt; destruct Hwf as (_ & _ & _ & [? _] & _); lia).
      lia.
Qed.

(** C1, as stated, fails: [__init__] stores the caller's initial bitrate
    unchecked and [_adjust_bitrate] clamps the target on its two branches
    only, never the current bitrate.  Created at 100 and fed one sample,
    the controller stays at 100, below [min_bitrate]. *)
Lemma current_bitrate_unclamped :
  exists s,
    feed (init 100) [quiet] = Ok s /\
    current_bitrate s = 100 /\ current_bitrate s < min_bitrate s.
Proof. eexists. split; [vm_compute; reflexivity |]. split; reflexivity. Qed.

(** C1 (amended): on a controller created with an initial bitrate within
    [[min_bitrate, max_bitrate]], every sequence of [update_network_stats]
    calls returns normally and leaves
    [min_bitrate <= current_bitrate <= max_bitrate], and the same for the
    target.  The bound on the current bitrate is not enforced by a clamp: it
    follows from the smoothing step, in binary64, between a current and a
    target bitrate that are both within bounds. *)
Theorem current_bitrate_invariant (b : Z) (xs : list RTMPStats) :
  min_bitrate (init b) <= b <= max_bitrate (init b) ->
  exists s,
    feed (init b) xs = Ok s /\
    min_bitrate s <= current_bitrate s <= max_bitrate s /\
    min_bitrate s <= target_bitrate s <= max_bitrate s.
Proof.
  intros Hb. cbn in Hb.
  destruct (feed_wf xs (init b) (wf_init b Hb)) as (s & Hf & Hmin & Hmax & _ & Hc & Ht).
  exists s. rewrite Hmin, Hmax. auto.
Qed.

Lemma current_bitrate_invariant_witness :
  exists s,
    feed (init 3000000) [quiet; quiet] = Ok s /\
    min_bitrate s <= current_bitrate s <= max_bitrate s /\
    min_bitrate s <= target_bitrate s <= max_bitrate s.
Proof. apply (current_bitrate_invariant 3000000 [quiet; quiet]). cbn. lia. Defined.

(** C5: on a controller created at 3 000 000, a first sample with loss
    rate 0.0 and throughput 4 000 000 (whatever its other fields) sets the
    target to min(8 000 000, 3 300 000) = 3 300 000, and the current
    bitrate after that tick is 3 060 000: [int] of the binary64 value of
    [0.8 * 3000000 + (1 - 0.8) * 3300000]. *)
Theorem first_tick_scenario (x : RTMPStats) :
  packet_loss_rate x = lit 0 -> throughput_bps x = lit 4000000 ->
  exists s,
    update_network_stats (init 3000000) x = Ok s /\
    target_bitrate s = Z.min 8000000 3300000 /\
    target_bitrate s = 3300000 /\
    current_bitrate s = 3060000.
Proof.
  intros Hl Ht. destruct x as [bs br ps pr rtt thr loss lvl]. cbn in Hl, Ht. subst.
  eexists. split; [vm_compute; reflexivity |]. repeat split; reflexivity.
Qed.

Lemma first_tick_scenario_witness :
  exists s,
    update_network_stats (init 3000000) fast_sample = Ok s /\
    target_bitrate s = Z.min 8000000 3300000 /\
    target_bitrate s = 3300000 /\
    current_bitrate s = 3060000.
Proof. apply (first_tick_scenario fast_sample); reflexivity. Defined.

(** C8, as stated, fails on a controller created below [min_bitrate]: at
    100 000, ten samples with loss rate 0.1 make the state [congested], the
    target is then [max(500000, ...)] = 500 000, above the current bitrate,
    and the next such sample raises the current bitrate from 179 999 to
    243 999. *)
Lemma low_initial_bitrate_rises :
  exists s1 s2,
    feed (init 100000) (repeat lossy_sample 10) = Ok s1 /\
    network_state s1 = congested /\
    update_network_stats s1 lossy_sample = Ok s2 /\
    network_state s2 = congested /\
    current_bitrate s1 = 179999 /\ current_bitrate s2 = 243999 /\
    current_bitrate s1 < current_bitrate s2.
Proof.
  eexists. eexists. split; [vm_compute; reflexivity |].
  split; [reflexivity |]. split; [vm_compute; reflexivity |].
  split; [reflexivity |]. split; [reflexivity |]. split; reflexivity.
Qed.

(** C8 (amended): on a controller whose current and target bitrates are
    within [[min_bitrate, max_bitrate]] ([wf]: what [__init__] builds from
    an initial bitrate within bounds, and what every update keeps), ten or
    more samples with loss rate 0.1 leave the state [congested]; over any
    further such samples the state stays [congested] and the current bitrate
    does not increase and stays at or above [min_bitrate]; it decreases
    strictly while above [min_bitrate], and has reached [min_bitrate], where
    it stays, after at most [current_bitrate - min_bitrate] samples. *)
Theorem sustained_loss_lowers_bitrate (s : RTMPAdaptiveBitrate) (xs ys : list RTMPStats) :
  wf s -> (10 <= length xs)%nat -> Forall lossy xs -> Forall lossy ys ->
  exists s1 s2,
    feed s xs = Ok s1 /\ network_state s1 = congested /\
    feed s1 ys = Ok s2 /\ network_state s2 = congested /\
    min_bitrate s2 <= current_bitrate s2 <= current_bitrate s1 /\
    (ys <> [] -> min_bitrate s1 < current_bitrate s1 ->
       current_bitrate s2 < current_bitrate s1) /\
    (current_bitrate s1 - min_bitrate s1 <= Z.of_nat (length ys) ->
       current_bitrate s2 = min_bitrate s2).
Proof.
  intros Hwf Hlen Hxs Hys.
  destruct (feed_lossy xs s 0%nat Hwf (lossy_tail_0 _) ltac:(lia) Hxs)
    as (s1 & Hf1 & Hwf1 & Ht1 & Hc1).
  rewrite Nat.min_l in Ht1 by lia.
  destruct Hc1 as [Hn1 _]; [lia | destruct xs; [cbn in Hlen; lia | discriminate] |].
  destruct (feed_congested ys s1 Hwf1 Ht1 Hys)
    as (s2 & Hf2 & Hwf2 & _ & Hn2 & Hb & Hlt & Hfix).
  destruct Hwf1 as (Hmin1 & _). destruct Hwf2 as (Hmin2 & _).
  exists s1, s2. rewrite Hmin1, Hmin2. auto 10.
Qed.

Lemma sustained_loss_lowers_bitrate_witness :
  exists s1 s2,
    feed (init 3000000) (repeat lossy_sample 10) = Ok s1 /\
    network_state s1 = congested /\
    feed s1 [lossy_sample] = Ok s2 /\ network_state s2 = congested /\
    min_bitrate s2 <= current_bitrate s2 <= current_bitrate s1 /\
    ([lossy_sample] <> [] -> min_bitrate s1 < current_bitrate s1 ->
       current_bitrate s2 < current_bitrate s1) /\
    (current_bitrate s1 - min_bitrate s1 <= Z.of_nat (length [lossy_sample]) ->
       current_bitrate s2 = min_bitrate s2).
Proof.
  apply (sustained_loss_lowers_bitrate (init 3000000) (repeat lossy_sample 10) [lossy_sample]).
  - unfold wf, in_range. cbn. repeat split; lia.
  - cbn. lia.
  - repeat constructor.
  - repeat constructor.
Defined.

Lemma adjust_bitrate_frame s s' :
  adjust_bitrate s = Ok s' ->
  network_state s' = network_state s /\
  congestion_detected s' = congestion_detected s /\
  stats_window s' = stats_window s /\
  throughput_history s' = throughput_history s.
Proof.
  unfold adjust_bitrate.
  destruct (throughput_history s) eqn:Hh.
  - intros H. injection H as <-. auto.
  - repeat match goal with
           | |- context [bind ?r _] =>
               let E := fresh "E" in destruct r eqn:E; cbn [bind]
           | |- context [if ?b then _ else _] => destruct b
           | |- Raise _ = Ok _ -> _ => discriminate
           end;
      try discriminate; intros H; injection H as <-; cbn; rewrite ?Hh; auto.
Qed.

(** C10: when the stats window, the sample of the call included (the
    window [_detect_congestion] measures), holds fewer than 10 samples,
    [update_network_stats] leaves [network_state] and [congestion_detected]
    as they were, and returns normally on a controller within bounds.  The
    adjustment still runs: on a fresh controller at 3 000 000 a first
    sample whose throughput 4 000 000 exceeds 1.2 times the current bitrate
    moves the current bitrate to 3 060 000 while the state and the flag are
    those of the constructor. *)
Theorem detection_skipped_adjustment_runs :
  (forall s x,
     (length (stats_window (record_sample s x)) < 10)%nat ->
     (forall s', update_network_stats s x = Ok s' ->
        network_state s' = network_state s /\
        congestion_detected s' = congestion_detected s) /\
     (wf s -> exists s', update_network_stats s x = Ok s')) /\
  (exists x s',
     (length (stats_window (record_sample (init 3000000) x)) < 10)%nat /\
     (exists c, of_int (current_bitrate (init 3000000)) = Ok c /\
                gtb (throughput_bps x) (mul c (lit 1.2)) = true) /\
     update_network_stats (init 3000000) x = Ok s' /\
     network_state s' = network_state (init 3000000) /\
     congestion_detected s' = congestion_detected (init 3000000) /\
     current_bitrate s' = 3060000 /\
     current_bitrate s' <> current_bitrate (init 3000000)).
Proof.
  split.
  - intros s x Hlen. split.
    + intros s' Hup. unfold update_network_stats in Hup.
      rewrite (detect_congestion_short _ Hlen) in Hup.
      apply adjust_bitrate_frame in Hup. destruct Hup as (-> & -> & _). cbn. auto.
    + intros Hwf. destruct (update_ok s x Hwf) as (cur & tgt & Hup & _). eauto.
  - exists fast_sample. eexists.
    split; [apply Nat.ltb_lt; vm_compute; reflexivity |].
    split; [eexists; split; [vm_compute; reflexivity | vm_compute; reflexivity] |].
    split; [vm_compute; reflexivity |].
    split; [reflexivity |]. split; [reflexivity |]. split; [reflexivity |].
    vm_compute. discriminate.
Qed.

Lemma detection_skipped_adjustment_runs_witness :
  (forall s', update_network_stats (init 3000000) fast_sample = Ok s' ->
     network_state s' = network_state (init 3000000) /\
     congestion_detected s' = congestion_detected (init 3000000)) /\
  (wf (init 3000000) -> exists s', update_network_stats (init 3000000) fast_sample = Ok s').
Proof.
  apply (proj1 detection_skipped_adjustment_runs (init 3000000) fast_sample).
  apply Nat.ltb_lt. vm_compute. reflexivity.
Defined.

(** C9, as stated, fails: a negative level and a loss rate of 1.5 are both
    accepted, stored, and no error is raised. *)
Lemma out_of_range_accepted :
  exists bm s,
    Buffer.init 1000 = Ok bm /\
    Buffer.update_buffer_level_call bm (-5) = Ok (Buffer.update_buffer_level bm (-5)) /\
    Buffer.current_buffer_size (Buffer.update_buffer_level bm (-5)) = -5 /\
    raises (Buffer.update_buffer_level_call bm (-5)) = false /\
    update_network_stats (init 3000000) bad_sample = Ok s /\
    stats_window s = [bad_sample] /\
    raises (update_network_stats (init 3000000) bad_sample) = false.
Proof.
  eexists. eexists. split; [vm_compute; reflexivity |].
  split; [reflexivity |]. split; [reflexivity |]. split; [reflexivity |].
  split; [vm_compute; reflexivity |]. split; [reflexivity |]. vm_compute. reflexivity.
Qed.

(** C9 (amended): neither operation validates its input.
    [update_buffer_level] returns normally for every integer level,
    negative ones included, and stores it as the current size;
    [update_network_stats], on a controller whose bitrates are within
    bounds, returns normally for every sample, whatever its loss rate, and
    the sample is the newest entry of the stats window. *)
Theorem inputs_are_not_validated :
  (forall (bm : Buffer.RTMPBufferManager) (level : Z),
     Buffer.update_buffer_level_call bm level = Ok (Buffer.update_buffer_level bm level) /\
     Buffer.current_buffer_size (Buffer.update_buffer_level bm level) = level) /\
  (forall (s : RTMPAdaptiveBitrate) (x : RTMPStats),
     wf s ->
     exists s' older,
       update_network_stats s x = Ok s' /\ stats_window s' = older ++ [x]).
Proof.
  split.
  - intros bm level. split; reflexivity.
  - intros s x Hwf.
    destruct (update_ok s x Hwf) as (cur & tgt & Hup & _). cbn zeta in Hup.
    destruct (deque_append_last 100 (stats_window s) x ltac:(lia)) as (older & Hw).
    eexists. exists older. split; [exact Hup |].
    cbn [stats_window set_bitrates].
    destruct (detect_congestion_frame (record_sample s x)) as (_ & _ & _ & _ & _ & -> & _).
    exact Hw.
Qed.

Lemma inputs_are_not_validated_witness :
  exists s' older,
    update_network_stats (init 3000000) bad_sample = Ok s' /\
    stats_window s' = older ++ [bad_sample].
Proof.
  apply (proj2 inputs_are_not_validated (init 3000000) bad_sample).
  unfold wf, in_range. cbn. repeat split; lia.
Defined.

End BitrateProofs.

(** * The buffer manager *)

Module BufferProofs.

Import Buffer.

Lemma run_snoc bm levels l :
  run bm (levels ++ [l]) = update_buffer_level (run bm levels) l.
Proof. unfold run. rewrite fold_left_app. reflexivity. Qed.

Lemma run_frame levels : forall bm,
  max_buffer_size (run bm levels) = max_buffer_size bm /\
  buffer_threshold_low (run bm levels) = buffer_threshold_low bm /\
  buffer_threshold_high (run bm levels) = buffer_threshold_high bm /\
  drop_count (run bm levels) = drop_count bm.
Proof.
  induction levels as [| l ls IH]; intros bm; cbn [run fold_left]; [auto |].
  destruct (IH (update_buffer_level bm l)) as (H1 & H2 & H3 & H4).
  unfold run in *. rewrite H1, H2, H3, H4. cbn. auto.
Qed.

Lemma init_1000 :
  exists bm, init 1000 = Ok bm /\
    max_buffer_size bm = 1000 /\ buffer_threshold_low bm = 200 /\
    buffer_threshold_high bm = 800 /\ current_buffer_size bm = 0 /\
    drop_count bm = 0.
Proof. eexists. split; [vm_compute; reflexivity |]. cbn. auto 10. Qed.

(** C3, as stated, fails: a negative level is stored as it is, and so is
    a level above [max_buffer_size]. *)
Lemma negative_level_stored :
  exists bm,
    init 1000 = Ok bm /\
    current_buffer_size (run bm [500; -1]) = -1 /\
    current_buffer_size (run bm [500; -1]) < 0 /\
    current_buffer_size (run bm [2000]) = 2000 /\
    max_buffer_size (run bm [2000]) < current_buffer_size (run bm [2000]).
Proof.
  destruct init_1000 as (bm & Hi & Hm & _). exists bm. split; [assumption |].
  cbn. rewrite Hm. lia.
Qed.

(** C3 (amended): [update_buffer_level] stores the level it is given,
    whatever came before, and leaves [max_buffer_size] alone; so
    [0 <= current_buffer_size <= max_buffer_size] holds after a call exactly
    when the level of that call is within [[0, max_buffer_size]]. *)
Theorem level_stored_unchecked (bm : RTMPBufferManager) (levels : list Z) (level : Z) :
  let bm' := update_buffer_level (run bm levels) level in
  run bm (levels ++ [level]) = bm' /\
  current_buffer_size bm' = level /\
  max_buffer_size bm' = max_buffer_size bm /\
  (0 <= current_buffer_size bm' <= max_buffer_size bm' <->
   0 <= level <= max_buffer_size bm).
Proof.
  cbn zeta. split; [apply run_snoc |]. cbn [update_buffer_level current_buffer_size max_buffer_size].
  destruct (run_frame levels bm) as (-> & _). split; [reflexivity |]. split; [reflexivity |].
  reflexivity.
Qed.

(** C4: [should_drop_packets] returns [True] exactly when
    [current_buffer_size >= max_buffer_size]; a call that returns [True]
    adds exactly 1 to [drop_count] (and touches neither size), a call that
    returns [False] changes nothing.  After [update_buffer_level(max)] the
    call signals a drop and counts it; after [update_buffer_level(max - 1)]
    it signals none and [drop_count] is unchanged. *)
Theorem drop_rule (bm : RTMPBufferManager) (now : float64) :
  (fst (should_drop_packets bm now) = true <->
     current_buffer_size bm >= max_buffer_size bm) /\
  (fst (should_drop_packets bm now) = true ->
     drop_count (snd (should_drop_packets bm now)) = drop_count bm + 1 /\
     current_buffer_size (snd (should_drop_packets bm now)) = current_buffer_size bm /\
     max_buffer_size (snd (should_drop_packets bm now)) = max_buffer_size bm) /\
  (fst (should_drop_packets bm now) = false ->
     snd (should_drop_packets bm now) = bm) /\
  (let full := update_buffer_level bm (max_buffer_size bm) in
   fst (should_drop_packets full now) = true /\
   drop_count (snd (should_drop_packets full now)) = drop_count bm + 1) /\
  (let below := update_buffer_level bm (max_buffer_size bm - 1) in
   fst (should_drop_packets below now) = false /\
   snd (should_drop_packets below now) = below /\
   drop_count (snd (should_drop_packets below now)) = drop_count bm).
Proof.
  unfold should_drop_packets. cbn zeta.
  cbn [update_buffer_level current_buffer_size max_buffer_size drop_count].
  destruct (current_buffer_size bm >=? max_buffer_size bm) eqn:E.
  - apply Z.geb_le in E.
    assert (E1 : (max_buffer_size bm >=? max_buffer_size bm) = true) by (apply Z.geb_le; lia).
    assert (E2 : (max_buffer_size bm - 1 >=? max_buffer_size bm) = false)
      by (rewrite Z.geb_leb; apply Z.leb_gt; lia).
    rewrite E1, E2. cbn. repeat split; auto; try lia; try discriminate.
  - rewrite Z.geb_leb in E. apply Z.leb_gt in E.
    assert (E1 : (max_buffer_size bm >=? max_buffer_size bm) = true) by (apply Z.geb_le; lia).
    assert (E2 : (max_buffer_size bm - 1 >=? max_buffer_size bm) = false)
      by (rewrite Z.geb_leb; apply Z.leb_gt; lia).
    rewrite E1, E2. cbn. repeat split; auto; try lia; try discriminate.
Qed.

(** C6, as stated, fails: level 150 is at most the low threshold 200. *)
Lemma level_150_is_low :
  exists bm,
    init 1000 = Ok bm /\
    buffer_threshold_low bm = 200 /\
    buffer_state (update_buffer_level bm 850) = high /\
    buffer_state (update_buffer_level (update_buffer_level bm 850) 150) = low /\
    buffer_state (update_buffer_level bm 150) = low.
Proof.
  destruct init_1000 as (bm & Hi & _ & Hlo & Hhi & _). exists bm.
  split; [assumption |]. split; [assumption |].
  cbn. rewrite Hlo, Hhi. cbn. auto.
Qed.

(** C6 (amended): for a buffer manager with [max_buffer_size] 1000 the
    thresholds are 200 and 800, and after every call the state is a function
    of the level of that call alone, whatever the calls before: [low] when
    [level <= 200], [high] when [level >= 800], [normal] in between.  So
    850 gives [high], 150 and 190 give [low], and 500 gives [normal]. *)
Theorem buffer_state_level_driven :
  exists bm,
    init 1000 = Ok bm /\
    buffer_threshold_low bm = 200 /\ buffer_threshold_high bm = 800 /\
    (forall (levels : list Z) (level : Z),
       buffer_state (update_buffer_level (run bm levels) level) =
         if level <=? 200 then low
         else if level >=? 800 then high
         else normal) /\
    (forall levels, buffer_state (update_buffer_level (run bm levels) 850) = high) /\
    (forall levels, buffer_state (update_buffer_level (run bm levels) 150) = low) /\
    (forall levels, buffer_state (update_buffer_level (run bm levels) 190) = low) /\
    (forall levels, buffer_state (update_buffer_level (run bm levels) 500) = normal).
Proof.
  destruct init_1000 as (bm & Hi & _ & Hlo & Hhi & _). exists bm.
  split; [assumption |]. split; [assumption |]. split; [assumption |].
  assert (H : forall levels level,
            buffer_state (update_buffer_level (run bm levels) level) =
            if level <=? 200 then low else if level >=? 800 then high else normal).
  { intros levels level. cbn [update_buffer_level buffer_state].
    destruct (run_frame levels bm) as (_ & -> & -> & _). rewrite Hlo, Hhi. reflexivity. }
  split; [exact H |]. repeat split; intros levels; rewrite H; reflexivity.
Qed.

End BufferProofs.

(** * The congestion controller *)

Module CongestionProofs.

Import Num Congestion CongestionSpec.

Lemma num_in_value lo hi a :
  num_in lo hi a -> (inject_Z lo <= value a)%Q /\ (value a <= inject_Z hi)%Q.
Proof.
  destruct a as [z | f]; cbn [num_in value].
  - intros [H1 H2]. rewrite Zle_Qle in H1, H2. auto.
  - intros (_ & H1 & H2). auto.
Qed.

Lemma num_in_window_ok lo hi w : hi <= 2 ^ 53 -> num_in lo hi w -> window_ok w.
Proof.
  intros Hhi. destruct w as [z | f]; cbn [window_ok num_in]; [auto |].
  intros (Hp & _ & H). split; [assumption |].
  rewrite Zle_Qle in Hhi. eapply Qle_trans; eassumption.
Qed.

Lemma num_in_weaken lo hi lo' hi' a :
  lo' <= lo -> hi <= hi' -> num_in lo hi a -> num_in lo' hi' a.
Proof.
  intros Hlo Hhi. destruct a as [z | f]; cbn [num_in].
  - lia.
  - intros (Hp & H1 & H2). rewrite Zle_Qle in Hlo, Hhi. repeat split; [assumption | lra | lra].
Qed.

Lemma floor_half m e :
  (to_Q (S754_finite false m e) <= inject_Z (2 ^ 53))%Q ->
  Z.shiftl (Zpos m) (e - 1) = Qfloor (to_Q (S754_finite false m e) / 2) /\
  0 <= Z.shiftl (Zpos m) (e - 1) <= 2 ^ 52.
Proof.
  intros Hle. cbn [to_Q cond_Zopp] in *.
  assert (Heq : (inject_Z (Zpos m) * pow2 (e - 1) == inject_Z (Zpos m) * pow2 e / 2)%Q).
  { rewrite (pow2_half e). field. }
  rewrite shiftl_floor, Heq. split; [reflexivity |].
  assert (Hm : (0 < inject_Z (Zpos m))%Q) by (change 0%Q with (inject_Z 0); rewrite <- Zlt_Qlt; lia).
  pose proof (pow2_pos e) as Hp.
  assert (H53 : (inject_Z (2 ^ 53) == 2 * inject_Z (2 ^ 52))%Q) by reflexivity.
  apply floor_bounds.
  - change (inject_Z 0) with 0%Q.
    assert (0 < inject_Z (Zpos m) * pow2 e)%Q by nra.
    assert (inject_Z (Zpos m) * pow2 e / 2 == inject_Z (Zpos m) * pow2 e * (1 # 2))%Q by field.
    lra.
  - assert (inject_Z (Zpos m) * pow2 e / 2 == inject_Z (Zpos m) * pow2 e * (1 # 2))%Q by field.
    lra.
Qed.

Lemma Zmax_floor_int z : Z.max (z / 2) 2 = floor_threshold (inject_Z z).
Proof.
  unfold floor_threshold. f_equal. rewrite Zdiv_Qdiv. reflexivity.
Qed.

(** the shape of [max(w // 2, 2)] *)
Lemma threshold_shape w :
  window_ok w ->
  let k := floor_threshold (value w) in
  let ss := Num.max (floordiv2 w) (PyInt 2) in
  ss = PyInt k \/
  (exists f, ss = PyFloat f /\ pos_float f /\ (to_Q f == inject_Z k)%Q /\ 2 <= k <= 2 ^ 52).
Proof.
  intros Hw. cbn zeta. destruct w as [z | f]; cbn [window_ok value floordiv2] in *.
  - left. rewrite <- Zmax_floor_int. unfold Num.max, gtb. cbn [compare].
    destruct (2 ?= z / 2) eqn:Hc; cbv iota.
    + apply Z.compare_eq in Hc. f_equal. lia.
    + change (2 < z / 2) in Hc. f_equal. lia.
    + apply Z.compare_gt_iff in Hc. f_equal. lia.
  - destruct Hw as [(m & e & -> & Hb) Hle].
    destruct (floor_half m e Hle) as [Hz Hzr].
    cbn [cond_Zopp]. unfold floor_threshold. rewrite <- Hz.
    set (z := Z.shiftl (Zpos m) (e - 1)) in *.
    destruct (Z.eq_dec z 0) as [Hz0 | Hz0].
    + left. rewrite Hz0. cbn. reflexivity.
    + assert (Hr : repr (inject_Z z)).
      { apply repr_Z. assert (2 ^ 52 < 2 ^ 53) by reflexivity. lia. }
      destruct (normalize_exact z ltac:(lia) Hr) as [Hp HQ].
      set (f' := binary_normalize prec emax z 0 false) in *.
      unfold Num.max, gtb. 
      assert (Hcmp : compare (PyInt 2) (PyFloat f') = Some (Qcompare (inject_Z 2) (to_Q f'))).
      { destruct Hp as (m' & e' & -> & _). reflexivity. }
      rewrite Hcmp.
      destruct (Qcompare_spec (inject_Z 2) (to_Q f')) as [Hc | Hc | Hc]; cbv iota;
        rewrite HQ in Hc.
      * right. exists f'. apply (proj1 (inject_Z_injective _ _)) in Hc.
        rewrite Z.max_l by lia. repeat split; auto; lia.
      * right. exists f'. rewrite <- Zlt_Qlt in Hc.
        rewrite Z.max_l by lia. repeat split; auto; lia.
      * left. rewrite <- Zlt_Qlt in Hc. f_equal. lia.
Qed.

Lemma of_int_small z :
  0 < z < 2 ^ 53 ->
  exists f, of_int z = Ok f /\ pos_float f /\ (to_Q f == inject_Z z)%Q.
Proof. intros Hz. apply of_int_repr; [lia | apply repr_Z; lia]. Qed.

(** [ssthresh + 3] on a threshold produced by [max(w // 2, 2)] *)
Lemma add_three ss k :
  ss = PyInt k \/
  (exists f, ss = PyFloat f /\ pos_float f /\ (to_Q f == inject_Z k)%Q /\ 2 <= k <= 2 ^ 52) ->
  exists r, Num.add ss (PyInt 3) = Ok r /\ (value r == inject_Z (k + 3))%Q /\
            (2 <= k <= 2 ^ 52 -> num_in 1 (2 ^ 53) r).
Proof.
  intros [-> | (f & -> & Hp & HQ & Hk)].
  - exists (PyInt (k + 3)). split; [reflexivity |]. split; [reflexivity |].
    cbn [num_in]. assert (2 ^ 53 = 2 * 2 ^ 52) by reflexivity. lia.
  - cbn [Num.add].
    destruct (of_int_small 3 ltac:(split; [lia | reflexivity])) as (t & Ht & Hpt & HtQ).
    rewrite Ht. cbn [bind].
    pose proof (add_nearest f t Hp Hpt) as Hn.
    assert (Hv : (to_Q f + to_Q t == inject_Z (k + 3))%Q).
    { rewrite HQ, HtQ, inject_Z_plus. reflexivity. }
    apply (nearest_ext _ _ _ Hv) in Hn.
    assert (H53 : 2 ^ 53 = 2 * 2 ^ 52) by reflexivity.
    destruct (nearest_exact _ _ Hn (repr_Z (k + 3) ltac:(lia))) as [Hnn Hex].
    assert (Hpos : pos_float (F64.add f t)).
    { apply nonneg_pos; [assumption |]. rewrite Hex.
      change 0%Q with (inject_Z 0). rewrite <- Zlt_Qlt. lia. }
    exists (PyFloat (F64.add f t)). split; [reflexivity |]. split; [exact Hex |].
    intros _. cbn [num_in]. split; [assumption |]. rewrite Hex.
    rewrite <- !Zle_Qle. lia.
Qed.

Lemma threshold_in w :
  num_in 1 (2 ^ 53) w ->
  num_in 2 (2 ^ 52) (Num.max (floordiv2 w) (PyInt 2)) /\
  2 <= floor_threshold (value w) <= 2 ^ 52.
Proof.
  intros Hw.
  assert (Hk : 2 <= floor_threshold (value w) <= 2 ^ 52).
  { destruct (num_in_value _ _ _ Hw) as [H1 H2]. unfold floor_threshold.
    assert (0 <= Qfloor (value w / 2) <= 2 ^ 52); [| lia].
    assert (H53 : (inject_Z (2 ^ 53) == 2 * inject_Z (2 ^ 52))%Q) by reflexivity.
    assert (Hd : (value w / 2 == value w * (1 # 2))%Q) by field.
    change (inject_Z 1) with 1%Q in H1.
    apply floor_bounds; rewrite Hd; [change (inject_Z 0) with 0%Q; lra | lra]. }
  split; [| exact Hk].
  destruct (threshold_shape w (num_in_window_ok 1 (2 ^ 53) _ ltac:(lia) Hw)) as [-> | (f & -> & Hp & HQ & _)].
  - exact Hk.
  - cbn [num_in]. split; [assumption |]. rewrite HQ, <- !Zle_Qle. exact Hk.
Qed.

Lemma on_packet_loss_spec c is_timeout :
  window_ok (congestion_window c) ->
  let k := floor_threshold (value (congestion_window c)) in
  exists c',
    on_packet_loss c is_timeout = Ok c' /\
    slow_start_threshold c' = Num.max (floordiv2 (congestion_window c)) (PyInt 2) /\
    (value (slow_start_threshold c') == inject_Z k)%Q /\
    (is_timeout = true ->
       congestion_window c' = PyInt 1 /\ state c' = slow_start /\
       retransmissions c' = retransmissions c + 1) /\
    (is_timeout = false ->
       (value (congestion_window c') == inject_Z (k + 3))%Q /\
       state c' = fast_recovery /\
       (2 <= k <= 2 ^ 52 -> num_in 1 (2 ^ 53) (congestion_window c'))).
Proof.
  intros Hw. cbn zeta.
  pose proof (threshold_shape _ Hw) as Hshape. cbn zeta in Hshape.
  set (k := floor_threshold (value (congestion_window c))) in *.
  set (ss := Num.max (floordiv2 (congestion_window c)) (PyInt 2)) in *.
  assert (Hval : (value ss == inject_Z k)%Q).
  { destruct Hshape as [-> | (f & -> & _ & HQ & _)]; [reflexivity | exact HQ]. }
  unfold on_packet_loss. fold ss. destruct is_timeout.
  - eexists. split; [reflexivity |]. cbn. split; [reflexivity |]. split; [exact Hval |].
    split; [auto | discriminate].
  - destruct (add_three ss k Hshape) as (r & Hr & HrQ & Hrin).
    rewrite Hr. cbn [bind].
    eexists. split; [reflexivity |]. cbn. split; [reflexivity |]. split; [exact Hval |].
    split; [discriminate | auto].
Qed.

Lemma inv_packet_loss c is_timeout :
  inv c -> exists c', on_packet_loss c is_timeout = Ok c' /\ inv c'.
Proof.
  intros (Hw & Hs & Hss).
  destruct (threshold_in _ Hw) as [Hin Hk].
  destruct (on_packet_loss_spec c is_timeout (num_in_window_ok 1 (2 ^ 53) _ ltac:(lia) Hw))
    as (c' & Hc' & Hth & HthQ & Ht & Hf).
  exists c'. split; [assumption |]. unfold inv. rewrite Hth.
  destruct is_timeout.
  - destruct (Ht eq_refl) as (Hcw & Hst & _). rewrite Hcw.
    split; [cbn; lia |].
    split; [assumption |]. intros _. exists 1. split; [reflexivity |].
    destruct (num_in_value _ _ _ Hin) as [H2 _].
    change (inject_Z 2) with 2%Q in H2. change (inject_Z 1) with 1%Q. lra.
  - destruct (Hf eq_refl) as (_ & Hst & Hcw).
    split; [apply Hcw; exact Hk |]. split; [assumption |].
    rewrite Hst. discriminate.
Qed.

Lemma mag_bounds m e :
  (pow2 (Zdigits2 (Zpos m) + e - 1) <= to_Q (S754_finite false m e))%Q /\
  (to_Q (S754_finite false m e) < pow2 (Zdigits2 (Zpos m) + e))%Q.
Proof.
  cbn [to_Q cond_Zopp].
  pose proof (Zdigits2_bounds (Zpos m) ltac:(lia)) as [Hlo Hhi].
  pose proof (Zdigits2_pos (Zpos m) ltac:(lia)) as Hd.
  set (d := Zdigits2 (Zpos m)) in *.
  pose proof (pow2_pos e) as Hp.
  replace (d + e - 1) with ((d - 1) + e) by lia.
  rewrite !pow2_add, (pow2_Z (d - 1)), (pow2_Z d) by lia.
  rewrite Zle_Qle in Hlo. rewrite Zlt_Qlt in Hhi. split; nra.
Qed.

Lemma mag_le m e K :
  (to_Q (S754_finite false m e) <= pow2 K)%Q -> Zdigits2 (Zpos m) + e <= K + 1.
Proof.
  intros H. destruct (mag_bounds m e) as [Hlo _].
  destruct (Z_le_gt_dec (Zdigits2 (Zpos m) + e) (K + 1)); [assumption | exfalso].
  pose proof (pow2_lt K (Zdigits2 (Zpos m) + e - 1) ltac:(lia)). lra.
Qed.

Lemma mag_ge m e K :
  (pow2 K <= to_Q (S754_finite false m e))%Q -> K + 1 <= Zdigits2 (Zpos m) + e.
Proof.
  intros H. destruct (mag_bounds m e) as [_ Hhi].
  destruct (Z_le_gt_dec (K + 1) (Zdigits2 (Zpos m) + e)); [assumption | exfalso].
  pose proof (pow2_le (Zdigits2 (Zpos m) + e) K ltac:(lia)). lra.
Qed.

(** a float just below 2^53 is at most 2^53 - 1 *)
Lemma float_top f :
  pos_float f -> (to_Q f <= inject_Z (2 ^ 53))%Q ->
  (to_Q f <= inject_Z (2 ^ 53 - 1))%Q \/ (to_Q f == inject_Z (2 ^ 53))%Q.
Proof.
  intros (m & e & -> & Hb) Hle. apply bounded_canonical in Hb. destruct Hb as [Hcan _].
  pose proof (digits2_pos_bounds m) as [_ Hhi].
  assert (Hm : Zpos m < 2 ^ 53).
  { assert (2 ^ Zpos (digits2_pos m) <= 2 ^ 53) by (apply Z.pow_le_mono_r; lia). lia. }
  cbn [to_Q cond_Zopp] in *.
  destruct (Z_le_gt_dec e 0) as [He | He].
  - left. pose proof (pow2_le e 0 He) as Hp. change (pow2 0) with 1%Q in Hp.
    pose proof (pow2_pos e).
    assert (Hm' : Zpos m <= 2 ^ 53 - 1) by lia. rewrite Zle_Qle in Hm'.
    assert (0 < inject_Z (Zpos m))%Q by (change 0%Q with (inject_Z 0); rewrite <- Zlt_Qlt; lia).
    nra.
  - rewrite (pow2_Z e), <- inject_Z_mult in * by lia.
    rewrite <- Zle_Qle in Hle.
    destruct (Z.eq_dec (Zpos m * 2 ^ e) (2 ^ 53)) as [Heq | Hne].
    + right. rewrite Heq. reflexivity.
    + left. rewrite <- Zle_Qle. lia.
Qed.

Lemma repr_pow2_m53 : repr (pow2 (-53)).
Proof. exists 1, (-53). split; [split; [lia | reflexivity] |]. split; [lia |]. ring. Qed.

Lemma repr_1 : repr 1.
Proof. apply (repr_Z 1). split; [lia | reflexivity]. Qed.

Lemma repr_2_53 : repr (inject_Z (2 ^ 53)).
Proof. exists (2 ^ 52), 1. split; [split; [lia | reflexivity] |]. split; [lia | reflexivity]. Qed.

Lemma pow2_m53_Q : (pow2 (-53) == 1 # 9007199254740992)%Q.
Proof. reflexivity. Qed.

(** the congestion-avoidance increment: [x + 1/x] stays in [1, 2^53] *)
Lemma ca_step x d :
  pos_float x -> (1 <= to_Q x)%Q ->
  (to_Q x <= inject_Z (2 ^ 53 - 1))%Q \/ (to_Q x == inject_Z (2 ^ 53))%Q ->
  nearest (1 / to_Q x) d ->
  pos_float d /\
  pos_float (F64.add x d) /\
  (1 <= to_Q (F64.add x d))%Q /\ (to_Q (F64.add x d) <= inject_Z (2 ^ 53))%Q.
Proof.
  intros Hx H1 Htop Hd.
  pose proof pow2_m53_Q as Hp53.
  assert (H53 : (inject_Z (2 ^ 53) == 9007199254740992)%Q) by reflexivity.
  assert (H53' : (inject_Z (2 ^ 53 - 1) == 9007199254740991)%Q) by reflexivity.
  assert (Hx53 : (to_Q x <= 9007199254740992)%Q) by (destruct Htop as [H | H]; lra).
  assert (Hinv : (1 / to_Q x * to_Q x == 1)%Q) by (field; lra).
  assert (Hinv0 : (0 < 1 / to_Q x)%Q).
  { destruct (Qlt_le_dec 0 (1 / to_Q x)); [assumption | exfalso]. nra. }
  assert (Hinv1 : (1 / to_Q x <= 1)%Q).
  { destruct (Qlt_le_dec 1 (1 / to_Q x)); [exfalso; nra | assumption]. }
  assert (Hinv2 : (pow2 (-53) <= 1 / to_Q x)%Q).
  { rewrite Hp53. destruct (Qlt_le_dec (1 / to_Q x) (1 # 9007199254740992)); [exfalso | assumption].
    assert (1 / to_Q x * to_Q x < 1)%Q; [| lra].
    assert ((1 # 9007199254740992) * 9007199254740992 == 1)%Q by reflexivity.
    nra. }
  destruct (nearest_between_pos _ _ _ _ Hd repr_pow2_m53 repr_1 (pow2_pos _) Hinv2 Hinv1)
    as (Hpd & Hd1 & Hd2).
  split; [assumption |].
  pose proof (add_nearest x d Hx Hpd) as Hs.
  destruct Htop as [Hlow | Htop].
  - destruct (nearest_between_pos _ _ _ _ Hs repr_1 repr_2_53) as (Hps & Hs1 & Hs2).
    + reflexivity.
    + pose proof (pow2_pos (-53)). lra.
    + lra.
    + auto.
  - (* x = 2^53: the increment is 2^-53 and is absorbed *)
    assert (Hdv : (1 / to_Q x == pow2 (-53))%Q).
    { rewrite Htop, Hp53. reflexivity. }
    destruct (nearest_exact _ _ (nearest_ext _ _ _ Hdv Hd) repr_pow2_m53) as [_ HdQ].
    destruct (nearest_saturates _ _ Hs) as [Hps HsQ].
    + lra.
    + rewrite HdQ, Hp53, Htop. 
      assert ((1 # 9007199254740992) <= (1 # 2))%Q by (apply Qle_bool_iff; reflexivity).
      lra.
    + split; [assumption |]. rewrite HsQ. split; [| lra].
      rewrite H53. apply Qle_bool_iff. reflexivity.
Qed.

Lemma geb_false z a :
  num_in 2 (2 ^ 52) a -> geb (PyInt z) a = false -> (inject_Z z < value a)%Q.
Proof.
  unfold geb. destruct a as [y | f]; cbn [num_in compare value].
  - intros _. destruct (Z.compare_spec z y) as [H | H | H]; try discriminate.
    intros _. rewrite <- Zlt_Qlt. exact H.
  - intros ((m & e & -> & _) & _).
    destruct (Qcompare_spec (inject_Z z) (to_Q (S754_finite false m e))) as [H | H | H];
      try discriminate.
    intros _. exact H.
Qed.

Lemma Zdigits2_le m K : 0 < m -> m <= 2 ^ K -> 0 <= K -> Zdigits2 m <= K + 1.
Proof.
  intros Hm Hle HK.
  pose proof (Zdigits2_bounds m Hm) as [Hlo _]. pose proof (Zdigits2_pos m Hm).
  destruct (Z_le_gt_dec (Zdigits2 m) (K + 1)); [assumption | exfalso].
  assert (2 ^ (K + 1) <= 2 ^ (Zdigits2 m - 1)) by (apply Z.pow_le_mono_r; lia).
  rewrite Z.pow_add_r in H0 by lia. pose proof (Z.pow_pos_nonneg 2 K). lia.
Qed.

(** [cwnd + 1 / cwnd] *)
Lemma ca_increment w :
  num_in 1 (2 ^ 53) w ->
  exists inc r,
    truediv (PyInt 1) w = Ok inc /\ Num.add w inc = Ok r /\ num_in 1 (2 ^ 53) r.
Proof.
  intros Hw. destruct w as [z | f]; cbn [num_in] in Hw.
  - (* an int window *)
    assert (Hz0 : (z =? 0) = false) by (apply Z.eqb_neq; lia).
    cbn [truediv]. rewrite Hz0.
    destruct z as [| p | p]; try lia. cbn [exact_int].
    assert (Hdig : Zdigits2 (Zpos p) <= 54) by (apply (Zdigits2_le _ 53); lia).
    pose proof (div_nearest 1 0 p 0 ltac:(cbn [Zdigits2 digits2_pos] in *; lia)) as Hd.
    assert (Hrep : repr (inject_Z (Zpos p))).
    { destruct (Z.eq_dec (Zpos p) (2 ^ 53)) as [-> | Hne]; [apply repr_2_53 |].
      apply repr_Z. lia. }
    destruct (of_int_repr (Zpos p) ltac:(lia) Hrep) as (x & Hx & Hpx & HxQ).
    assert (Hv : (to_Q (S754_finite false 1 0) / to_Q (S754_finite false p 0) == 1 / to_Q x)%Q).
    { rewrite HxQ. cbn [to_Q cond_Zopp]. change (pow2 0) with 1%Q.
      change (inject_Z 1) with 1%Q. 
      assert (0 < inject_Z (Zpos p))%Q by (change 0%Q with (inject_Z 0); rewrite <- Zlt_Qlt; lia).
      field. lra. }
    apply (nearest_ext _ _ _ Hv) in Hd.
    assert (H1 : (1 <= to_Q x)%Q).
    { rewrite HxQ. change 1%Q with (inject_Z 1). rewrite <- Zle_Qle. lia. }
    assert (Htop : (to_Q x <= inject_Z (2 ^ 53 - 1))%Q \/ (to_Q x == inject_Z (2 ^ 53))%Q).
    { destruct (Z.eq_dec (Zpos p) (2 ^ 53)) as [Heq | Hne].
      - right. rewrite HxQ, Heq. reflexivity.
      - left. rewrite HxQ, <- Zle_Qle. lia. }
    destruct (ca_step x _ Hpx H1 Htop Hd) as (Hpd & Hps & Hs1 & Hs2).
    remember (F64.div (S754_finite false 1 0) (S754_finite false p 0)) as d eqn:Ed.
    exists (PyFloat d), (PyFloat (F64.add x d)).
    split; [destruct Hpd as (m & e & Hde & _); rewrite Hde; reflexivity |].
    cbn [Num.add]. rewrite Hx. cbn [bind].
    split; [reflexivity |]. cbn [num_in]. auto.
  - (* a float window *)
    destruct Hw as (Hpf & H1 & H2).
    change (inject_Z 1) with 1%Q in H1.
    assert (Hz : is_zero f = false) by (destruct Hpf as (m & e & -> & _); reflexivity).
    cbn [truediv]. rewrite Hz.
    destruct (of_int_small 1 ltac:(split; [lia | reflexivity])) as (one & Hone & Hpone & HoneQ).
    rewrite Hone. cbn [bind].
    change (inject_Z 1) with 1%Q in HoneQ.
    assert (Hd : nearest (1 / to_Q f) (F64.div one f)).
    { destruct Hpone as (m1 & e1 & -> & _). destruct Hpf as (m & e & -> & _).
      pose proof (mag_ge m1 e1 0 ltac:(change (pow2 0) with 1%Q; lra)) as Hm1.
      pose proof (mag_le m e 53 ltac:(rewrite (pow2_Z 53) by lia; exact H2)) as Hm.
      pose proof (div_nearest m1 e1 m e ltac:(lia)) as Hdn.
      apply (nearest_ext _ (1 / to_Q (S754_finite false m e))) in Hdn; [exact Hdn |].
      rewrite HoneQ. reflexivity. }
    destruct (ca_step f _ Hpf H1 (float_top f Hpf H2) Hd) as (Hpd & Hps & Hs1 & Hs2).
    exists (PyFloat (F64.div one f)), (PyFloat (F64.add f (F64.div one f))).
    split; [reflexivity |]. split; [reflexivity |]. cbn [num_in].
    change (inject_Z 1) with 1%Q. auto.
Qed.

Lemma inv_ack c bytes_acked :
  inv c -> exists c', on_ack_received c bytes_acked = Ok c' /\ inv c'.
Proof.
  intros (Hw & Hs & Hss). unfold on_ack_received.
  destruct (state c) eqn:Hst.
  - (* slow start *)
    destruct (Hss eq_refl) as (z & Hz & Hlt). rewrite Hz in *. cbn [Num.add bind].
    cbn [num_in] in Hw.
    destruct (num_in_value _ _ _ Hs) as [_ Hs2].
    assert (Hz52 : z + 1 <= 2 ^ 52).
    { assert (inject_Z z < inject_Z (2 ^ 52))%Q by lra. rewrite <- Zlt_Qlt in H. lia. }
    assert (H5253 : 2 ^ 52 <= 2 ^ 53) by (apply Z.pow_le_mono_r; lia).
    destruct (geb (PyInt (z + 1)) (slow_start_threshold c)) eqn:Hge.
    + eexists. split; [reflexivity |]. unfold inv. cbn.
      split; [lia |]. split; [assumption | discriminate].
    + eexists. split; [reflexivity |]. unfold inv. cbn.
      split; [lia |]. split; [assumption |]. intros _.
      exists (z + 1). split; [reflexivity |]. apply geb_false; assumption.
  - (* congestion avoidance *)
    destruct (ca_increment _ Hw) as (inc & r & Hinc & Hr & Hin).
    rewrite Hinc. cbn [bind]. rewrite Hr. cbn [bind].
    eexists. split; [reflexivity |]. unfold inv. cbn.
    split; [assumption |]. split; [assumption | discriminate].
  - (* fast recovery *)
    eexists. split; [reflexivity |]. unfold inv.
    cbn [congestion_window slow_start_threshold state set_window].
    split; [| split; [assumption | discriminate]].
    apply (num_in_weaken 2 (2 ^ 52)); [lia | apply Z.pow_le_mono_r; lia | assumption].
Qed.

Lemma inv_init : inv init.
Proof.
  unfold inv. cbn. split; [lia |]. split; [lia |]. intros _.
  exists 1000. split; reflexivity.
Qed.

Lemma inv_step c ev : inv c -> exists c', step c ev = Ok c' /\ inv c'.
Proof.
  intros H. destruct ev; cbn [step]; [apply inv_packet_loss | apply inv_ack]; assumption.
Qed.

Lemma inv_run evs : forall c, inv c -> exists c', run c evs = Ok c' /\ inv c'.
Proof.
  induction evs as [| ev evs IH]; intros c Hc; cbn [run].
  - eauto.
  - destruct (inv_step c ev Hc) as (c1 & H1 & Hc1). rewrite H1. cbn [bind]. auto.
Qed.

Lemma window_to_int w :
  num_in 1 (2 ^ 53) w -> exists n, Num.to_int w = Ok n /\ 1 <= n.
Proof.
  destruct w as [z | f]; cbn [num_in Num.to_int].
  - intros H. exists z. split; [reflexivity | lia].
  - intros (Hp & H1 & _). rewrite (to_int_floor _ Hp). eexists. split; [reflexivity |].
    rewrite <- (Qfloor_Z 1). apply Qfloor_resp_le. exact H1.
Qed.

(** C2: every sequence of [on_packet_loss] and [on_ack_received] calls on
    a fresh controller returns normally and leaves
    [congestion_window >= 1]; [get_congestion_window] then returns an
    integer that is at least 1 too. *)
Theorem congestion_window_at_least_one (evs : list event) :
  exists c n,
    run init evs = Ok c /\
    (1 <= value (congestion_window c))%Q /\
    get_congestion_window c = Ok n /\ 1 <= n.
Proof.
  destruct (inv_run evs init inv_init) as (c & Hrun & Hw & _).
  destruct (window_to_int _ Hw) as (n & Hn & Hn1).
  destruct (num_in_value _ _ _ Hw) as [H1 _].
  exists c, n. unfold get_congestion_window. auto.
Qed.

(** C7, as stated, fails at the odd window 1001, which one acknowledgement
    after start-up reaches: the code stores 500, the spec's formula gives
    500.5. *)
Lemma odd_window_is_floored :
  exists c c',
    run init [AckReceived 0] = Ok c /\
    congestion_window c = PyInt 1001 /\
    on_packet_loss c true = Ok c' /\
    slow_start_threshold c' = PyInt 500 /\
    (spec_threshold (value (congestion_window c)) == 1001 # 2)%Q /\
    (value (slow_start_threshold c') < spec_threshold (value (congestion_window c)))%Q.
Proof.
  eexists. eexists. split; [vm_compute; reflexivity |].
  split; [reflexivity |]. split; [vm_compute; reflexivity |].
  split; [reflexivity |]. split; [vm_compute; reflexivity | vm_compute; reflexivity].
Qed.

(** C7 (amended): [on_packet_loss] sets the threshold to
    [max(floor(w / 2), 2)], for every integer window and every float window
    up to 2^53 (all the windows the controller can reach); on a timeout
    the window becomes 1 and the state [slow_start], otherwise the window
    becomes the threshold plus 3 and the state [fast_recovery].  At window
    16 a timeout gives threshold 8, window 1, state [slow_start]. *)
Theorem loss_sets_floored_threshold :
  (forall (c : RTMPCongestionController) (is_timeout : bool),
     window_ok (congestion_window c) ->
     exists c',
       on_packet_loss c is_timeout = Ok c' /\
       (value (slow_start_threshold c') ==
        inject_Z (floor_threshold (value (congestion_window c))))%Q /\
       (is_timeout = true ->
          congestion_window c' = PyInt 1 /\ state c' = slow_start) /\
       (is_timeout = false ->
          (value (congestion_window c') == value (slow_start_threshold c') + 3)%Q /\
          state c' = fast_recovery)) /\
  (forall c : RTMPCongestionController,
     congestion_window c = PyInt 16 ->
     exists c',
       on_packet_loss c true = Ok c' /\
       slow_start_threshold c' = PyInt 8 /\
       congestion_window c' = PyInt 1 /\ state c' = slow_start).
Proof.
  split.
  - intros c is_timeout Hw.
    destruct (on_packet_loss_spec c is_timeout Hw) as (c' & Hc' & _ & HQ & Ht & Hf).
    exists c'. split; [assumption |]. split; [assumption |]. split.
    + intros E. destruct (Ht E) as (H1 & H2 & _). auto.
    + intros E. destruct (Hf E) as (H1 & H2 & _). split; [| assumption].
      rewrite H1, HQ, inject_Z_plus. reflexivity.
  - intros c Hw. unfold on_packet_loss. rewrite Hw.
    eexists. split; [reflexivity |]. cbn. auto.
Qed.

Lemma loss_sets_floored_threshold_witness :
  exists c',
    on_packet_loss init false = Ok c' /\
    (value (slow_start_threshold c') ==
     inject_Z (floor_threshold (value (congestion_window init))))%Q /\
    (false = true ->
       congestion_window c' = PyInt 1 /\ state c' = slow_start) /\
    (false = false ->
       (value (congestion_window c') == value (slow_start_threshold c') + 3)%Q /\
       state c' = fast_recovery).
Proof.
  apply (proj1 loss_sets_floored_threshold init false). exact I.
Defined.

End CongestionProofs.

(** * Further properties of the controllers *)

Module FloorFacts.

(** [int(x)] on a float that may be zero *)
Lemma to_int_floor_nonneg r : nonneg_float r -> F64.to_int r = Ok (Qfloor (to_Q r)).
Proof.
  intros [Hv [-> | (m & e & ->)]].
  - reflexivity.
  - cbn [F64.to_int to_Q cond_Zopp]. rewrite shiftl_floor. reflexivity.
Qed.

(** [int(m * g)] when the exact product lies in [[q, q + 7/8]] *)
Lemma scaled_floor m g q :
  0 < m < 2 ^ 53 -> pos_float g -> 0 <= q -> 8 * q + 7 < 2 ^ 53 ->
  (inject_Z q <= inject_Z m * to_Q g)%Q ->
  (inject_Z m * to_Q g <= inject_Z q + (7 # 8))%Q ->
  exists f, of_int m = Ok f /\ F64.to_int (mul f g) = Ok q.
Proof.
  intros Hm Hg Hq Hq53 Hlo Hhi.
  destruct (of_int_exact m Hm) as (f & Hf & Hpf & HfQ).
  exists f. split; [assumption |].
  pose proof (mul_nearest f g Hpf Hg) as Hn.
  assert (HL : repr (inject_Z q)) by (apply repr_Z; lia).
  assert (HU : repr (inject_Z q + (7 # 8))).
  { exists (8 * q + 7), (-3). split; [lia |]. split; [lia |].
    rewrite inject_Z_plus, inject_Z_mult.
    change (pow2 (-3)) with (1 # 8)%Q. change (inject_Z 7) with 7%Q.
    change (inject_Z 8) with 8%Q. field. }
  destruct (nearest_between _ _ _ _ Hn HL HU) as (Hnn & Hl & Hu).
  - rewrite HfQ. assumption.
  - rewrite HfQ. assumption.
  - rewrite (to_int_floor_nonneg _ Hnn). f_equal.
    assert (q <= Qfloor (to_Q (mul f g)) <= q); [| lia].
    apply floor_bounds; [assumption | lra].
Qed.

Lemma lit_02_Q : (to_Q (lit 0.2) == 3602879701896397 # 18014398509481984)%Q.
Proof. apply Qeq_bool_iff. vm_compute. reflexivity. Qed.

Lemma lit_08_exact : (to_Q (lit 0.8) == 3602879701896397 # 4503599627370496)%Q.
Proof. apply Qeq_bool_iff. vm_compute. reflexivity. Qed.

Lemma pos_02 : pos_float (lit 0.2).
Proof. lit_pos. Qed.

Lemma fifth m :
  0 < m <= 2 ^ 50 ->
  exists f, of_int m = Ok f /\ F64.to_int (mul f (lit 0.2)) = Ok (m / 5).
Proof.
  intros Hm.
  assert (H50 : 2 ^ 50 = 1125899906842624) by reflexivity.
  assert (H53 : 2 ^ 53 = 9007199254740992) by reflexivity.
  pose proof (Z.div_mod m 5 ltac:(lia)) as Hdm.
  pose proof (Z.mod_pos_bound m 5 ltac:(lia)) as Hmod.
  set (q := m / 5) in *. set (t := m mod 5) in *.
  assert (HmQ : (inject_Z m == 5 * inject_Z q + inject_Z t)%Q).
  { rewrite Hdm, inject_Z_plus, inject_Z_mult. reflexivity. }
  assert (Hq0 : (0 <= inject_Z q)%Q) by (change 0%Q with (inject_Z 0); rewrite <- Zle_Qle; lia).
  assert (Hq1 : (inject_Z q <= 1125899906842624)%Q)
    by (change 1125899906842624%Q with (inject_Z 1125899906842624); rewrite <- Zle_Qle; lia).
  assert (Ht0 : (0 <= inject_Z t)%Q) by (change 0%Q with (inject_Z 0); rewrite <- Zle_Qle; lia).
  assert (Ht1 : (inject_Z t <= 4)%Q) by (change 4%Q with (inject_Z 4); rewrite <- Zle_Qle; lia).
  apply scaled_floor; try lia.
  - exact pos_02.
  - rewrite lit_02_Q, HmQ. lra.
  - rewrite lit_02_Q, HmQ. lra.
Qed.

Lemma four_fifths m :
  0 < m <= 2 ^ 50 ->
  exists f, of_int m = Ok f /\ F64.to_int (mul f (lit 0.8)) = Ok (4 * m / 5).
Proof.
  intros Hm.
  assert (H50 : 2 ^ 50 = 1125899906842624) by reflexivity.
  assert (H53 : 2 ^ 53 = 9007199254740992) by reflexivity.
  pose proof (Z.div_mod (4 * m) 5 ltac:(lia)) as Hdm.
  pose proof (Z.mod_pos_bound (4 * m) 5 ltac:(lia)) as Hmod.
  set (q := 4 * m / 5) in *. set (t := (4 * m) mod 5) in *.
  assert (HmQ : (4 * inject_Z m == 5 * inject_Z q + inject_Z t)%Q).
  { change 4%Q with (inject_Z 4). rewrite <- inject_Z_mult, Hdm, inject_Z_plus, inject_Z_mult.
    reflexivity. }
  assert (Hq0 : (0 <= inject_Z q)%Q) by (change 0%Q with (inject_Z 0); rewrite <- Zle_Qle; lia).
  assert (Hq1 : (inject_Z q <= 1125899906842624)%Q)
    by (change 1125899906842624%Q with (inject_Z 1125899906842624); rewrite <- Zle_Qle; lia).
  assert (Ht0 : (0 <= inject_Z t)%Q) by (change 0%Q with (inject_Z 0); rewrite <- Zle_Qle; lia).
  assert (Ht1 : (inject_Z t <= 4)%Q) by (change 4%Q with (inject_Z 4); rewrite <- Zle_Qle; lia).
  apply scaled_floor; try lia.
  - exact pos_g08.
  - rewrite lit_08_exact. lra.
  - rewrite lit_08_exact. lra.
Qed.

Lemma lit_05_exact : (to_Q (lit 0.5) == 1 # 2)%Q.
Proof. apply Qeq_bool_iff. vm_compute. reflexivity. Qed.

Lemma half m :
  0 < m <= 2 ^ 50 ->
  exists f, of_int m = Ok f /\ F64.to_int (mul f (lit 0.5)) = Ok (m / 2).
Proof.
  intros Hm.
  assert (H50 : 2 ^ 50 = 1125899906842624) by reflexivity.
  assert (H53 : 2 ^ 53 = 9007199254740992) by reflexivity.
  pose proof (Z.div_mod m 2 ltac:(lia)) as Hdm.
  pose proof (Z.mod_pos_bound m 2 ltac:(lia)) as Hmod.
  set (q := m / 2) in *. set (t := m mod 2) in *.
  assert (HmQ : (inject_Z m == 2 * inject_Z q + inject_Z t)%Q).
  { rewrite Hdm, inject_Z_plus, inject_Z_mult. reflexivity. }
  assert (Ht0 : (0 <= inject_Z t)%Q) by (change 0%Q with (inject_Z 0); rewrite <- Zle_Qle; lia).
  assert (Ht1 : (inject_Z t <= 1)%Q) by (change 1%Q with (inject_Z 1); rewrite <- Zle_Qle; lia).
  apply scaled_floor; try lia.
  - exact pos_05.
  - rewrite lit_05_exact, HmQ. lra.
  - rewrite lit_05_exact, HmQ. lra.
Qed.

(** [int(m * g)] when the exact product lies in [[q, q + 15/16]] *)
Lemma scaled_floor_fine m g q :
  0 < m < 2 ^ 53 -> pos_float g -> 0 <= q -> 16 * q + 15 < 2 ^ 53 ->
  (inject_Z q <= inject_Z m * to_Q g)%Q ->
  (inject_Z m * to_Q g <= inject_Z q + (15 # 16))%Q ->
  exists f, of_int m = Ok f /\ F64.to_int (mul f g) = Ok q.
Proof.
  intros Hm Hg Hq Hq53 Hlo Hhi.
  destruct (of_int_exact m Hm) as (f & Hf & Hpf & HfQ).
  exists f. split; [assumption |].
  pose proof (mul_nearest f g Hpf Hg) as Hn.
  assert (HL : repr (inject_Z q)) by (apply repr_Z; lia).
  assert (HU : repr (inject_Z q + (15 # 16))).
  { exists (16 * q + 15), (-4). split; [lia |]. split; [lia |].
    rewrite inject_Z_plus, inject_Z_mult.
    change (pow2 (-4)) with (1 # 16)%Q. change (inject_Z 15) with 15%Q.
    change (inject_Z 16) with 16%Q. field. }
  destruct (nearest_between _ _ _ _ Hn HL HU) as (Hnn & Hl & Hu).
  - rewrite HfQ. assumption.
  - rewrite HfQ. assumption.
  - rewrite (to_int_floor_nonneg _ Hnn). f_equal.
    assert (q <= Qfloor (to_Q (mul f g)) <= q); [| lia].
    apply floor_bounds; [assumption | lra].
Qed.

Lemma lit_11_exact : (to_Q (lit 1.1) == 2476979795053773 # 2251799813685248)%Q.
Proof. apply Qeq_bool_iff. vm_compute. reflexivity. Qed.

Lemma eleven_tenths m :
  0 < m <= 2 ^ 40 ->
  exists f, of_int m = Ok f /\ F64.to_int (mul f (lit 1.1)) = Ok (11 * m / 10).
Proof.
  intros Hm.
  assert (H40 : 2 ^ 40 = 1099511627776) by reflexivity.
  assert (H53 : 2 ^ 53 = 9007199254740992) by reflexivity.
  pose proof (Z.div_mod (11 * m) 10 ltac:(lia)) as Hdm.
  pose proof (Z.mod_pos_bound (11 * m) 10 ltac:(lia)) as Hmod.
  set (q := 11 * m / 10) in *. set (t := (11 * m) mod 10) in *.
  assert (HmQ : (11 * inject_Z m == 10 * inject_Z q + inject_Z t)%Q).
  { change 11%Q with (inject_Z 11). rewrite <- inject_Z_mult, Hdm, inject_Z_plus, inject_Z_mult.
    reflexivity. }
  assert (Hm0 : (0 <= inject_Z m)%Q) by (change 0%Q with (inject_Z 0); rewrite <- Zle_Qle; lia).
  assert (Hm1 : (inject_Z m <= 1099511627776)%Q)
    by (change 1099511627776%Q with (inject_Z 1099511627776); rewrite <- Zle_Qle; lia).
  assert (Ht0 : (0 <= inject_Z t)%Q) by (change 0%Q with (inject_Z 0); rewrite <- Zle_Qle; lia).
  assert (Ht1 : (inject_Z t <= 9)%Q) by (change 9%Q with (inject_Z 9); rewrite <- Zle_Qle; lia).
  apply scaled_floor_fine; try lia.
  - exact pos_11.
  - rewrite lit_11_exact. lra.
  - rewrite lit_11_exact. lra.
Qed.

End FloorFacts.

Module BitrateFacts.

Import Bitrate BitrateSpec BitrateProofs DetectionSpec FloorFacts.

(** *** The sliding windows *)

Lemma last_n_short {A} n (l : list A) : (length l <= n)%nat -> last_n n l = l.
Proof.
  intros H. unfold last_n. replace (length l - n)%nat with 0%nat by lia. reflexivity.
Qed.

Lemma length_last_n {A} n (l : list A) : length (last_n n l) = Nat.min (length l) n.
Proof. unfold last_n. rewrite length_skipn. lia. Qed.

Lemma last_n_app_last_n {A} n (l r : list A) :
  last_n n (last_n n l ++ r) = last_n n (l ++ r).
Proof.
  unfold last_n. rewrite !length_app, length_skipn, !skipn_app, skipn_skipn, length_skipn.
  f_equal; f_equal; lia.
Qed.

Lemma update_windows s x s' :
  update_network_stats s x = Ok s' ->
  stats_window s' = last_n 100 (stats_window s ++ [x]) /\
  throughput_history s' = last_n 50 (throughput_history s ++ [throughput_bps x]).
Proof.
  unfold update_network_stats. intros H.
  apply adjust_bitrate_frame in H. destruct H as (_ & _ & -> & ->).
  destruct (detect_congestion_frame (record_sample s x)) as (_ & _ & _ & _ & _ & -> & ->).
  split; reflexivity.
Qed.

Lemma feed_windows xs : forall s s',
  (length (stats_window s) <= 100)%nat -> (length (throughput_history s) <= 50)%nat ->
  feed s xs = Ok s' ->
  stats_window s' = last_n 100 (stats_window s ++ xs) /\
  throughput_history s' = last_n 50 (throughput_history s ++ map throughput_bps xs).
Proof.
  induction xs as [| x xs IH]; intros s s' Hw Hh; cbn [feed map].
  - intros H. injection H as <-. rewrite !app_nil_r, !last_n_short by assumption. auto.
  - destruct (update_network_stats s x) as [s1 |] eqn:Hup; cbn [bind]; [| discriminate].
    intros Hf. destruct (update_windows _ _ _ Hup) as [Hw1 Hh1].
    destruct (IH s1 s') as [Hw' Hh']; try assumption.
    + rewrite Hw1, length_last_n. lia.
    + rewrite Hh1, length_last_n. lia.
    + rewrite Hw', Hh', Hw1, Hh1, !last_n_app_last_n, <- !app_assoc. auto.
Qed.

(** X1: After any run of updates on a controller created within bounds, the
    stats window holds the last 100 samples fed, oldest first, and the
    throughput history the throughputs of the last 50: the two deques are
    trimmed to different lengths. *)
Theorem windows_hold_latest_samples (b : Z) (xs : list RTMPStats) :
  in_range b ->
  exists s,
    feed (init b) xs = Ok s /\
    stats_window s = last_n 100 xs /\
    throughput_history s = last_n 50 (map throughput_bps xs) /\
    length (stats_window s) = Nat.min (length xs) 100 /\
    length (throughput_history s) = Nat.min (length xs) 50.
Proof.
  intros Hb.
  destruct (feed_wf xs (init b) (wf_init b Hb)) as (s & Hf & _).
  exists s. split; [assumption |].
  destruct (feed_windows xs (init b) s) as [Hw Hh]; [cbn; lia | cbn; lia | assumption |].
  cbn [init stats_window throughput_history app] in Hw, Hh.
  rewrite Hw, Hh, !length_last_n, length_map. auto.
Qed.

Lemma windows_hold_latest_samples_witness :
  exists s,
    feed (init 3000000) [quiet; fast_sample] = Ok s /\
    stats_window s = last_n 100 [quiet; fast_sample] /\
    throughput_history s = last_n 50 (map throughput_bps [quiet; fast_sample]) /\
    length (stats_window s) = Nat.min (length [quiet; fast_sample]) 100 /\
    length (throughput_history s) = Nat.min (length [quiet; fast_sample]) 50.
Proof.
  apply (windows_hold_latest_samples 3000000 [quiet; fast_sample]).
  unfold in_range. lia.
Defined.

(** *** What an update leaves alone *)

Lemma adjust_bitrate_params s s' :
  adjust_bitrate s = Ok s' ->
  min_bitrate s' = min_bitrate s /\ max_bitrate s' = max_bitrate s /\
  alpha s' = alpha s /\ beta s' = beta s /\ gamma s' = gamma s.
Proof.
  unfold adjust_bitrate.
  destruct (throughput_history s) eqn:Hh.
  - intros H. injection H as <-. auto.
  - repeat match goal with
           | |- context [bind ?r _] =>
               let E := fresh "E" in destruct r eqn:E; cbn [bind]
           | |- context [if ?b then _ else _] => destruct b
           | |- Raise _ = Ok _ -> _ => discriminate
           end;
      try discriminate; intros H; injection H as <-; cbn; auto.
Qed.

Lemma detect_congestion_params s :
  alpha (detect_congestion s) = alpha s /\ beta (detect_congestion s) = beta s.
Proof.
  unfold detect_congestion.
  repeat match goal with
         | |- context [if ?b then _ else _] => destruct b
         end; cbn; auto.
Qed.

Lemma update_params s x s' :
  update_network_stats s x = Ok s' ->
  min_bitrate s' = min_bitrate s /\ max_bitrate s' = max_bitrate s /\
  alpha s' = alpha s /\ beta s' = beta s /\ gamma s' = gamma s.
Proof.
  unfold update_network_stats. intros H.
  apply adjust_bitrate_params in H. destruct H as (-> & -> & -> & -> & ->).
  destruct (detect_congestion_frame (record_sample s x)) as (_ & _ & -> & -> & -> & _).
  destruct (detect_congestion_params (record_sample s x)) as (-> & ->).
  cbn. auto.
Qed.

(** X2: No update ever writes the bounds or the control parameters: after any
    run that returns, on any controller, [min_bitrate], [max_bitrate],
    [alpha], [beta] and [gamma] are what they were. *)
Theorem parameters_are_never_written
    (s s' : RTMPAdaptiveBitrate) (xs : list RTMPStats) :
  feed s xs = Ok s' ->
  min_bitrate s' = min_bitrate s /\ max_bitrate s' = max_bitrate s /\
  alpha s' = alpha s /\ beta s' = beta s /\ gamma s' = gamma s.
Proof.
  revert s. induction xs as [| x xs IH]; intros s; cbn [feed].
  - intros H. injection H as <-. auto.
  - destruct (update_network_stats s x) as [s1 |] eqn:Hup; cbn [bind]; [| discriminate].
    intros Hf. destruct (IH _ Hf) as (-> & -> & -> & -> & ->).
    apply update_params in Hup. exact Hup.
Qed.

Lemma parameters_are_never_written_witness :
  min_bitrate (set_bitrates (record_sample (init 3000000) fast_sample) 3060000 3300000) =
    min_bitrate (init 3000000) /\
  max_bitrate (set_bitrates (record_sample (init 3000000) fast_sample) 3060000 3300000) =
    max_bitrate (init 3000000) /\
  alpha (set_bitrates (record_sample (init 3000000) fast_sample) 3060000 3300000) =
    alpha (init 3000000) /\
  beta (set_bitrates (record_sample (init 3000000) fast_sample) 3060000 3300000) =
    beta (init 3000000) /\
  gamma (set_bitrates (record_sample (init 3000000) fast_sample) 3060000 3300000) =
    gamma (init 3000000).
Proof.
  apply (parameters_are_never_written (init 3000000) _ [fast_sample]).
  vm_compute. reflexivity.
Defined.

(** *** The detection flag *)

Lemma detect_congestion_consistent s : consistent s -> consistent (detect_congestion s).
Proof.
  unfold detect_congestion, consistent.
  repeat match goal with
         | |- context [if ?b then _ else _] => destruct b
         end; cbn; auto.
Qed.

Lemma update_consistent s x s' :
  consistent s -> update_network_stats s x = Ok s' -> consistent s'.
Proof.
  unfold update_network_stats. intros Hc H.
  apply adjust_bitrate_frame in H. destruct H as (Hn & Hd & _).
  unfold consistent. rewrite Hn, Hd.
  apply detect_congestion_consistent. exact Hc.
Qed.

Lemma feed_consistent xs : forall s s',
  consistent s -> feed s xs = Ok s' -> consistent s'.
Proof.
  induction xs as [| x xs IH]; intros s s' Hc; cbn [feed].
  - intros H. injection H as <-. assumption.
  - destruct (update_network_stats s x) as [s1 |] eqn:Hup; cbn [bind]; [| discriminate].
    apply IH. eapply update_consistent; eassumption.
Qed.

(** X3: After any run of updates on a controller created within bounds,
    [congestion_detected] is set exactly when [network_state] is not
    [stable]: detection writes the two together and adjustment writes
    neither. *)
Theorem flag_agrees_with_state (b : Z) (xs : list RTMPStats) :
  in_range b ->
  exists s,
    feed (init b) xs = Ok s /\
    (congestion_detected s = true <-> network_state s <> stable) /\
    (congestion_detected s = false <-> network_state s = stable).
Proof.
  intros Hb.
  destruct (feed_wf xs (init b) (wf_init b Hb)) as (s & Hf & _).
  exists s. split; [assumption |].
  assert (Hc : consistent s) by (apply (feed_consistent xs (init b)); [reflexivity | assumption]).
  unfold consistent in Hc. rewrite Hc.
  destruct (network_state s); cbn; split; split; congruence.
Qed.

Lemma flag_agrees_with_state_witness :
  exists s,
    feed (init 3000000) (repeat lossy_sample 10) = Ok s /\
    (congestion_detected s = true <-> network_state s <> stable) /\
    (congestion_detected s = false <-> network_state s = stable).
Proof.
  apply (flag_agrees_with_state 3000000 (repeat lossy_sample 10)).
  unfold in_range. lia.
Defined.

(** *** The steps of an adjustment *)

Lemma adjust_bitrate_steps s :
  wf s -> throughput_history s <> [] ->
  exists fc tgt ft cur,
    of_int (current_bitrate s) = Ok fc /\ of_int tgt = Ok ft /\ in_range tgt /\
    F64.to_int (add (mul g08 fc) (mul g02 ft)) = Ok cur /\
    adjust_bitrate s = Ok (set_bitrates s cur tgt) /\
    (congestion_detected s = true ->
       exists r,
         F64.to_int (mul fc (reduction_factor_of (network_state s))) = Ok r /\
         tgt = Z.max 500000 r) /\
    (congestion_detected s = false ->
       tgt = target_bitrate s \/
       exists r, F64.to_int (mul fc (lit 1.1)) = Ok r /\ tgt = Z.min 8000000 r).
Proof.
  intros (Hmin & Hmax & Hg & Hc & Ht) Hne.
  unfold adjust_bitrate.
  destruct (throughput_history s) as [| h hs] eqn:Hh; [congruence |].
  rewrite Hmin, Hmax, Hg.
  change (sub (lit 1) (lit 0.8)) with g02. change (lit 0.8) with g08 at 2.
  destruct (congestion_detected s) eqn:Hd.
  - destruct (reduction_factor_ok (network_state s)) as (Hp & Hlo & Hhi).
    destruct (reduce_lt (current_bitrate s) _ Hc Hp Hlo Hhi) as (f & r & Hf & Hr & Hrr).
    pose proof Hr as Hr'. unfold reduction_factor_of in Hr.
    rewrite Hf. cbn [bind]. rewrite Hr. cbn [bind].
    assert (Htgt : in_range (Z.max 500000 r)) by (unfold in_range in *; lia).
    destruct (smooth_ok _ _ Hc Htgt) as (fc & ft & cur & Hfc & Hft & Hcur & _).
    rewrite Hf in Hfc. injection Hfc as <-.
    rewrite Hft. cbn [bind]. rewrite Hcur. cbn [bind].
    exists f, (Z.max 500000 r), ft, cur.
    split; [reflexivity |]. split; [assumption |]. split; [assumption |].
    split; [assumption |]. split; [reflexivity |]. split.
    + intros _. exists r. auto.
    + discriminate.
  - destruct (of_int_range _ Hc) as (f & Hf & _).
    rewrite Hf. cbn [bind].
    match goal with |- context [if ?b then _ else _] => destruct b end.
    + destruct (increase_ok _ Hc) as (f' & r & Hf' & Hr & Hrr).
      rewrite Hf in Hf'. injection Hf' as <-. rewrite Hr. cbn [bind].
      assert (Htgt : in_range (Z.min 8000000 r)) by (unfold in_range in *; lia).
      destruct (smooth_ok _ _ Hc Htgt) as (fc & ft & cur & Hfc & Hft & Hcur & _).
      rewrite Hf in Hfc. injection Hfc as <-.
      rewrite Hft. cbn [bind]. rewrite Hcur. cbn [bind].
      exists f, (Z.min 8000000 r), ft, cur.
      split; [reflexivity |]. split; [assumption |]. split; [assumption |].
      split; [assumption |]. split; [reflexivity |]. split.
      * discriminate.
      * intros _. right. exists r. auto.
    + cbn [bind].
      destruct (smooth_ok _ _ Hc Ht) as (fc & ft & cur & Hfc & Hft & Hcur & _).
      rewrite Hf in Hfc. injection Hfc as <-.
      rewrite Hft. cbn [bind]. rewrite Hcur. cbn [bind].
      exists f, (target_bitrate s), ft, cur.
      split; [reflexivity |]. split; [assumption |]. split; [assumption |].
      split; [assumption |]. split; [reflexivity |]. split.
      * discriminate.
      * intros _. left. reflexivity.
Qed.

(** one update, with the steps of its adjustment *)
Lemma update_steps s x :
  wf s ->
  let d := detect_congestion (record_sample s x) in
  exists fc tgt ft cur,
    of_int (current_bitrate s) = Ok fc /\ of_int tgt = Ok ft /\ in_range tgt /\
    F64.to_int (add (mul g08 fc) (mul g02 ft)) = Ok cur /\
    update_network_stats s x = Ok (set_bitrates d cur tgt) /\
    (congestion_detected d = true ->
       exists r,
         F64.to_int (mul fc (reduction_factor_of (network_state d))) = Ok r /\
         tgt = Z.max 500000 r) /\
    (congestion_detected d = false ->
       tgt = target_bitrate s \/
       exists r, F64.to_int (mul fc (lit 1.1)) = Ok r /\ tgt = Z.min 8000000 r).
Proof.
  intros Hwf d. unfold update_network_stats.
  pose proof (wf_detect s x Hwf) as Hwfd.
  destruct (detect_congestion_frame (record_sample s x))
    as (Hc & Ht & _ & _ & _ & _ & Hh).
  fold d in Hwfd, Hc, Ht, Hh.
  assert (Hne : throughput_history d <> []).
  { rewrite Hh. cbn. apply deque_append_nonempty. }
  destruct (adjust_bitrate_steps d Hwfd Hne)
    as (fc & tgt & ft & cur & Hfc & Hft & Hin & Hcur & Hadj & Hred & Hinc).
  cbn [record_sample current_bitrate target_bitrate] in Hc, Ht.
  rewrite Hc in Hfc. rewrite Ht in Hinc.
  exists fc, tgt, ft, cur. auto 10.
Qed.

(** the smoothing step lands between its two inputs, truncation apart *)
Lemma smooth_bounds c t fc ft cur :
  in_range c -> in_range t ->
  of_int c = Ok fc -> of_int t = Ok ft ->
  F64.to_int (add (mul g08 fc) (mul g02 ft)) = Ok cur ->
  Z.min c t - 1 <= cur <= Z.max c t.
Proof.
  intros Hc Ht Hfc' Hft' Hcur.
  destruct (of_int_range c Hc) as (fc0 & Hfc & Hpc & HcQ).
  destruct (of_int_range t Ht) as (ft0 & Hft & Hpt & HtQ).
  rewrite Hfc' in Hfc. injection Hfc as <-.
  rewrite Hft' in Hft. injection Hft as <-.
  destruct (in_range_Q c Hc) as [Hc1 Hc2].
  destruct (in_range_Q t Ht) as [Ht1 Ht2].
  pose proof g08_Q as HG. pose proof g02_Q as HG'.
  pose proof pow2_m29 as Hp29. pose proof pow2_23 as Hp23.
  pose proof (mul_nearest g08 fc pos_g08 Hpc) as Ha.
  destruct (nearest_grid 29 _ _ ltac:(lia) Ha) as (Hpa & Ha1 & Ha2).
  { rewrite HG, HcQ. lra. }
  { rewrite HG, HcQ, Hp23. lra. }
  pose proof (mul_nearest g02 ft pos_g02 Hpt) as Hb.
  destruct (nearest_grid 29 _ _ ltac:(lia) Hb) as (Hpb & Hb1 & Hb2).
  { rewrite HG', HtQ. lra. }
  { rewrite HG', HtQ, Hp23. lra. }
  rewrite HG, HcQ, Hp29 in Ha1, Ha2. rewrite HG', HtQ, Hp29 in Hb1, Hb2.
  pose proof (add_nearest _ _ Hpa Hpb) as Hs.
  destruct (nearest_grid 29 _ _ ltac:(lia) Hs) as (Hps & Hs1 & Hs2).
  { lra. }
  { rewrite Hp23. lra. }
  rewrite Hp29 in Hs1, Hs2.
  rewrite (to_int_floor _ Hps) in Hcur. injection Hcur as <-.
  destruct (Z.le_ge_cases c t) as [Hle | Hle].
  - rewrite Z.min_l, Z.max_r by lia.
    apply floor_bounds; rewrite ?inject_Z_sub; change (inject_Z 1) with 1%Q;
      rewrite Zle_Qle in Hle; lra.
  - rewrite Z.min_r, Z.max_l by lia.
    apply floor_bounds; rewrite ?inject_Z_sub; change (inject_Z 1) with 1%Q;
      rewrite Zle_Qle in Hle; lra.
Qed.

(** X4: Every update on a controller within bounds moves the current bitrate
    to a value between its old value and the new target: it never
    overshoots the target, and truncation takes it at most 1 below the
    smaller of the two. *)
Theorem current_moves_toward_target (s : RTMPAdaptiveBitrate) (x : RTMPStats) :
  wf s ->
  exists s',
    update_network_stats s x = Ok s' /\
    Z.min (current_bitrate s) (target_bitrate s') - 1 <= current_bitrate s' /\
    current_bitrate s' <= Z.max (current_bitrate s) (target_bitrate s').
Proof.
  intros Hwf.
  destruct (update_steps s x Hwf) as (fc & tgt & ft & cur & Hfc & Hft & Hin & Hcur & Hup & _).
  eexists. split; [exact Hup |].
  cbn [set_bitrates current_bitrate target_bitrate].
  destruct Hwf as (_ & _ & _ & Hc & _).
  apply (smooth_bounds _ _ fc ft); assumption.
Qed.

Lemma current_moves_toward_target_witness :
  exists s',
    update_network_stats (init 3000000) fast_sample = Ok s' /\
    Z.min (current_bitrate (init 3000000)) (target_bitrate s') - 1 <= current_bitrate s' /\
    current_bitrate s' <= Z.max (current_bitrate (init 3000000)) (target_bitrate s').
Proof.
  apply (current_moves_toward_target (init 3000000) fast_sample).
  unfold wf, in_range. cbn. repeat split; lia.
Defined.

(** X5: On a controller within bounds, an update that ends with the flag set
    and the state [congested] has set the target to exactly
    [max(min_bitrate, current // 2)], and one that ends [unstable] to
    [max(min_bitrate, 4 * current // 5)], [current] being the bitrate
    before the update: the float products [current * 0.5] and
    [current * 0.8] truncate to the integer quotients. *)
Theorem reduction_targets_are_exact (s : RTMPAdaptiveBitrate) (x : RTMPStats) :
  wf s ->
  exists s',
    update_network_stats s x = Ok s' /\
    (congestion_detected s' = true -> network_state s' = congested ->
       target_bitrate s' = Z.max (min_bitrate s) (current_bitrate s / 2)) /\
    (congestion_detected s' = true -> network_state s' = unstable ->
       target_bitrate s' = Z.max (min_bitrate s) (4 * current_bitrate s / 5)).
Proof.
  intros Hwf.
  destruct (update_steps s x Hwf)
    as (fc & tgt & ft & cur & Hfc & Hft & Hin & Hcur & Hup & Hred & _).
  eexists. split; [exact Hup |].
  cbn [set_bitrates congestion_detected network_state target_bitrate].
  destruct Hwf as (Hmin & _ & _ & Hc & _). rewrite Hmin.
  assert (H50 : 0 < current_bitrate s <= 2 ^ 50).
  { unfold in_range in Hc. split; [lia |].
    assert (8000000 <= 2 ^ 50) by (vm_compute; discriminate). lia. }
  split; intros Hd Hn; destruct (Hred Hd) as (r & Hr & ->); rewrite Hn in Hr;
    cbn [reduction_factor_of network_state_eqb] in Hr.
  - destruct (half _ H50) as (f & Hf & Hh).
    rewrite Hfc in Hf. injection Hf as <-. rewrite Hr in Hh. injection Hh as ->. reflexivity.
  - destruct (four_fifths _ H50) as (f & Hf & Hh).
    rewrite Hfc in Hf. injection Hf as <-. rewrite Hr in Hh. injection Hh as ->. reflexivity.
Qed.

Lemma primed_reached : feed (init 3000000) (repeat lossy_sample 9) = Ok primed.
Proof. vm_compute. reflexivity. Qed.

Lemma wf_primed : wf primed.
Proof. unfold wf, in_range. cbn. repeat split; lia. Qed.

Lemma reduction_targets_are_exact_witness :
  exists s',
    update_network_stats primed lossy_sample = Ok s' /\
    (congestion_detected s' = true -> network_state s' = congested ->
       target_bitrate s' = Z.max (min_bitrate primed) (current_bitrate primed / 2)) /\
    (congestion_detected s' = true -> network_state s' = unstable ->
       target_bitrate s' = Z.max (min_bitrate primed) (4 * current_bitrate primed / 5)).
Proof.
  apply (reduction_targets_are_exact primed lossy_sample).
  unfold wf, in_range. cbn. repeat split; lia.
Defined.

(** X6: On a controller within bounds, an update that ends with the flag
    clear has either left the target as it was or raised it to exactly
    [min(max_bitrate, 11 * current // 10)], [current] being the bitrate
    before the update; a raised target is never below that bitrate. *)
Theorem increase_target_is_exact (s : RTMPAdaptiveBitrate) (x : RTMPStats) :
  wf s ->
  exists s',
    update_network_stats s x = Ok s' /\
    (congestion_detected s' = false ->
       target_bitrate s' = target_bitrate s \/
       target_bitrate s' = Z.min (max_bitrate s) (11 * current_bitrate s / 10) /\
       current_bitrate s <= target_bitrate s').
Proof.
  intros Hwf.
  destruct (update_steps s x Hwf)
    as (fc & tgt & ft & cur & Hfc & Hft & Hin & Hcur & Hup & _ & Hinc).
  eexists. split; [exact Hup |].
  cbn [set_bitrates congestion_detected target_bitrate].
  destruct Hwf as (_ & Hmax & _ & Hc & _). rewrite Hmax.
  intros Hd. destruct (Hinc Hd) as [-> | (r & Hr & ->)]; [left; reflexivity | right].
  assert (H40 : 0 < current_bitrate s <= 2 ^ 40).
  { unfold in_range in Hc. split; [lia |].
    assert (8000000 <= 2 ^ 40) by (vm_compute; discriminate). lia. }
  destruct (eleven_tenths _ H40) as (f & Hf & Hh).
  rewrite Hfc in Hf. injection Hf as <-.
  assert (Er : r = 11 * current_bitrate s / 10) by congruence.
  rewrite Er. split; [reflexivity |].
  unfold in_range in Hc.
  assert (current_bitrate s <= 11 * current_bitrate s / 10)
    by (apply Z.div_le_lower_bound; lia).
  lia.
Qed.

Lemma increase_target_is_exact_witness :
  exists s',
    update_network_stats (init 3000000) fast_sample = Ok s' /\
    (congestion_detected s' = false ->
       target_bitrate s' = target_bitrate (init 3000000) \/
       target_bitrate s' =
         Z.min (max_bitrate (init 3000000)) (11 * current_bitrate (init 3000000) / 10) /\
       current_bitrate (init 3000000) <= target_bitrate s').
Proof.
  apply (increase_target_is_exact (init 3000000) fast_sample).
  unfold wf, in_range. cbn. repeat split; lia.
Defined.

(** *** A NaN among the loss rates *)

Lemma add_nan_l b : add S754_nan b = S754_nan.
Proof. reflexivity. Qed.

Lemma add_nan_r a : add a S754_nan = S754_nan.
Proof. destruct a; reflexivity. Qed.

Lemma gtb_nan b : gtb S754_nan b = false.
Proof. destruct b; reflexivity. Qed.

Lemma sum10_nan l : length l = 10%nat -> In S754_nan l -> Np.sum l = S754_nan.
Proof.
  intros Hlen Hin.
  do 10 (destruct l as [| ? l]; [discriminate |]).
  destruct l; [| discriminate]. clear Hlen.
  unfold Np.sum, Np.pairwise_sum, Np.sum_block, Np.blocks, Np.combine8, Np.add_lanes.
  cbn [length Nat.leb Nat.ltb firstn skipn fold_left].
  cbn [In] in Hin.
  repeat (destruct Hin as [-> | Hin]; [rewrite ?add_nan_l, ?add_nan_r; reflexivity |]).
  contradiction.
Qed.

Lemma mean10_nan l : length l = 10%nat -> In S754_nan l -> Np.mean l = S754_nan.
Proof. intros Hlen Hin. unfold Np.mean. rewrite sum10_nan by assumption. reflexivity. Qed.

Lemma detect_congestion_nan s :
  (10 <= length (stats_window s))%nat ->
  Exists nan_loss (last_n 10 (stats_window s)) ->
  network_state (detect_congestion s) <> congested.
Proof.
  intros Hlen Hex. unfold detect_congestion.
  assert (Hl : (length (stats_window s) <? 10)%nat = false) by (apply Nat.ltb_ge; lia).
  rewrite Hl.
  rewrite mean10_nan.
  - rewrite gtb_nan.
    repeat match goal with
           | |- context [if ?b then _ else _] => destruct b
           end; cbn; discriminate.
  - rewrite length_map, length_last_n. lia.
  - apply Exists_exists in Hex. destruct Hex as (x & Hin & Hx).
    unfold nan_loss in Hx. rewrite <- Hx. apply in_map. assumption.
Qed.

(** X7: One sample whose loss rate is a NaN among the last ten keeps the
    controller out of [congested], whatever the other nine report: the
    mean is a NaN, [NaN > 0.05] is false, and detection goes on to the RTT
    and throughput tests.  The update itself returns normally. *)
Theorem nan_loss_masks_congestion (s : RTMPAdaptiveBitrate) (x : RTMPStats) :
  wf s ->
  (10 <= length (stats_window (record_sample s x)))%nat ->
  Exists nan_loss (last_n 10 (stats_window (record_sample s x))) ->
  exists s',
    update_network_stats s x = Ok s' /\ network_state s' <> congested.
Proof.
  intros Hwf Hlen Hex.
  destruct (update_ok s x Hwf) as (cur & tgt & Hup & _). cbn zeta in Hup.
  eexists. split; [exact Hup |].
  cbn [set_bitrates network_state].
  apply detect_congestion_nan; assumption.
Qed.

Lemma nan_loss_masks_congestion_witness :
  exists s',
    update_network_stats primed nan_sample = Ok s' /\ network_state s' <> congested.
Proof.
  apply (nan_loss_masks_congestion primed nan_sample).
  - unfold wf, in_range. cbn. repeat split; lia.
  - vm_compute. lia.
  - vm_compute. apply Exists_exists. exists nan_sample. split; [| reflexivity].
    cbn. auto 12.
Defined.

End BitrateFacts.

Module BufferFacts.

Import Buffer BufferStats RunSpec FloorFacts.

(** X8: [__init__] computes the thresholds in binary64 and truncates them; for
    every size from 0 to 2^50 the result is the exact integer fifth and
    four fifths of the size, rounded down, so the low threshold never
    exceeds the high one. *)
Theorem init_thresholds_exact (m : Z) :
  0 <= m <= 2 ^ 50 ->
  exists bm,
    init m = Ok bm /\
    max_buffer_size bm = m /\
    buffer_threshold_low bm = m / 5 /\
    buffer_threshold_high bm = 4 * m / 5 /\
    0 <= buffer_threshold_low bm <= buffer_threshold_high bm /\
    buffer_threshold_high bm <= m.
Proof.
  intros Hm. destruct (Z.eq_dec m 0) as [-> | Hne].
  - eexists. split; [vm_compute; reflexivity |]. cbn. repeat split; lia.
  - destruct (fifth m ltac:(lia)) as (f & Hf & Hlo).
    destruct (four_fifths m ltac:(lia)) as (f' & Hf' & Hhi).
    rewrite Hf in Hf'. injection Hf' as <-.
    unfold init. rewrite Hf. cbn [bind]. rewrite Hlo. cbn [bind]. rewrite Hhi. cbn [bind].
    eexists. split; [reflexivity |].
    cbn [max_buffer_size buffer_threshold_low buffer_threshold_high].
    split; [reflexivity |]. split; [reflexivity |]. split; [reflexivity |].
    assert (0 <= m / 5) by (apply Z.div_pos; lia).
    assert (m / 5 <= 4 * m / 5) by (apply Z.div_le_mono; lia).
    assert (4 * m / 5 <= m) by (apply Z.div_le_upper_bound; lia).
    lia.
Qed.

Lemma init_thresholds_exact_witness :
  exists bm,
    init 1000 = Ok bm /\
    max_buffer_size bm = 1000 /\
    buffer_threshold_low bm = 1000 / 5 /\
    buffer_threshold_high bm = 4 * 1000 / 5 /\
    0 <= buffer_threshold_low bm <= buffer_threshold_high bm /\
    buffer_threshold_high bm <= 1000.
Proof. apply (init_thresholds_exact 1000). split; [lia | vm_compute; discriminate]. Defined.

(** X9: A fresh manager reports [normal] although its level, 0, is at or below
    the low threshold: the state is computed by [update_buffer_level] only,
    and the first call with level 0 turns it to [low]. *)
Theorem fresh_manager_is_normal (m : Z) :
  0 <= m <= 2 ^ 50 ->
  exists bm,
    init m = Ok bm /\
    current_buffer_size bm = 0 /\ buffer_state bm = normal /\
    state_of_level bm (current_buffer_size bm) = low /\
    buffer_state (update_buffer_level bm 0) = low.
Proof.
  intros Hm.
  destruct (init_thresholds_exact m Hm) as (bm & Hi & _ & _ & _ & Hlo & _).
  exists bm. split; [assumption |].
  assert (Hf : current_buffer_size bm = 0 /\ buffer_state bm = normal).
  { unfold init in Hi.
    destruct (of_int m); cbn [bind] in Hi; [| discriminate].
    destruct (F64.to_int (mul a (lit 0.2))); cbn [bind] in Hi; [| discriminate].
    destruct (F64.to_int (mul a (lit 0.8))); cbn [bind] in Hi; [| discriminate].
    injection Hi as <-. split; reflexivity. }
  destruct Hf as [Hc Hs]. rewrite Hc.
  assert (Hl : (0 <=? buffer_threshold_low bm) = true) by (apply Z.leb_le; lia).
  split; [reflexivity |]. split; [assumption |].
  unfold state_of_level. cbn [update_buffer_level buffer_state]. rewrite Hl. auto.
Qed.

Lemma fresh_manager_is_normal_witness :
  exists bm,
    init 1000 = Ok bm /\
    current_buffer_size bm = 0 /\ buffer_state bm = normal /\
    state_of_level bm (current_buffer_size bm) = low /\
    buffer_state (update_buffer_level bm 0) = low.
Proof. apply (fresh_manager_is_normal 1000). split; [lia | vm_compute; discriminate]. Defined.

(** what a run of calls leaves *)
Lemma calls_frame cs : forall bm,
  max_buffer_size (snd (calls bm cs)) = max_buffer_size bm /\
  buffer_threshold_low (snd (calls bm cs)) = buffer_threshold_low bm /\
  buffer_threshold_high (snd (calls bm cs)) = buffer_threshold_high bm.
Proof.
  induction cs as [| [level | now] cs IH]; intros bm; cbn [calls]; [auto | |].
  - destruct (IH (update_buffer_level bm level)) as (-> & -> & ->). auto.
  - unfold should_drop_packets.
    destruct (current_buffer_size bm >=? max_buffer_size bm);
      match goal with |- context [calls ?b cs] =>
        specialize (IH b); destruct (calls b cs) as [bs bm'] end;
      cbn [snd] in *; exact IH.
Qed.

Lemma calls_app cs cs' bm :
  calls bm (cs ++ cs') =
    (fst (calls bm cs) ++ fst (calls (snd (calls bm cs)) cs'),
     snd (calls (snd (calls bm cs)) cs')).
Proof.
  revert bm. induction cs as [| [level | now] cs IH]; intros bm; cbn [calls app].
  - cbn. destruct (calls bm cs'). reflexivity.
  - apply IH.
  - destruct (should_drop_packets bm now) as [b bm1].
    rewrite IH. destruct (calls bm1 cs) as [bs bm2]. cbn [fst snd].
    destruct (calls bm2 cs') as [bs' bm3]. reflexivity.
Qed.

Lemma levels_of_app cs cs' : levels_of (cs ++ cs') = levels_of cs ++ levels_of cs'.
Proof.
  induction cs as [| [level | now] cs IH]; cbn [levels_of app]; [reflexivity | |].
  - rewrite IH. reflexivity.
  - exact IH.
Qed.

(** X10: Over any interleaving of [update_buffer_level] and
    [should_drop_packets] calls, [drop_count] grows by exactly the number of
    [True] answers, [dropped_packets] gains one time stamp for each of them,
    and [update_buffer_level] never touches either. *)
Theorem drop_count_counts_drops (bm : RTMPBufferManager) (cs : list call) :
  let answers := fst (calls bm cs) in
  let bm' := snd (calls bm cs) in
  Buffer.drop_count bm' =
    Buffer.drop_count bm + Z.of_nat (length (filter (fun b => b) answers)) /\
  length (dropped_packets bm') =
    (length (dropped_packets bm) + length (filter (fun b => b) answers))%nat.
Proof.
  cbn zeta. revert bm.
  induction cs as [| [level | now] cs IH]; intros bm; cbn [calls].
  - cbn. split; lia.
  - destruct (IH (update_buffer_level bm level)) as [H1 H2].
    rewrite H1, H2. cbn. auto.
  - unfold should_drop_packets.
    destruct (current_buffer_size bm >=? max_buffer_size bm);
      match goal with |- context [calls ?b cs] =>
        specialize (IH b); destruct (calls b cs) as [bs bm'] end;
      cbn [fst snd filter length] in *; destruct IH as [H1 H2]; rewrite H1, H2.
    + cbn [Buffer.drop_count dropped_packets]. rewrite length_app. cbn [length]. split; lia.
    + split; lia.
Qed.

(** X11: [buffer_utilization] is the complete history of levels: every
    [update_buffer_level] call appends its level, nothing is ever removed,
    and [should_drop_packets] leaves the history alone. *)
Theorem utilization_history_is_complete (bm : RTMPBufferManager) (cs : list call) :
  buffer_utilization (snd (calls bm cs)) = buffer_utilization bm ++ levels_of cs /\
  length (buffer_utilization (snd (calls bm cs))) =
    (length (buffer_utilization bm) + length (levels_of cs))%nat.
Proof.
  assert (H : forall cs bm,
             buffer_utilization (snd (calls bm cs)) = buffer_utilization bm ++ levels_of cs).
  { clear. induction cs as [| [level | now] cs IH]; intros bm; cbn [calls levels_of].
    - cbn. rewrite app_nil_r. reflexivity.
    - rewrite IH. cbn [update_buffer_level buffer_utilization].
      rewrite <- app_assoc. reflexivity.
    - unfold should_drop_packets.
      destruct (current_buffer_size bm >=? max_buffer_size bm);
        match goal with |- context [calls ?b cs] =>
          specialize (IH b); destruct (calls b cs) as [bs bm'] end;
        cbn [snd] in *; exact IH. }
  split; [apply H |]. rewrite H, length_app. reflexivity.
Qed.

(** X12: After any interleaving of calls that ends some time after an
    [update_buffer_level(level)], with only [should_drop_packets] calls
    since, the size is that level and the state is the one the thresholds
    give it: [should_drop_packets] changes neither. *)
Theorem state_follows_latest_level
    (bm : RTMPBufferManager) (cs : list call) (level : Z) (nows : list float64) :
  let bm' := snd (calls bm (cs ++ UpdateLevel level :: map ShouldDrop nows)) in
  current_buffer_size bm' = level /\
  buffer_state bm' = state_of_level bm level /\
  buffer_state bm' = state_of_level bm' (current_buffer_size bm').
Proof.
  cbn zeta. rewrite calls_app. cbn [snd calls].
  destruct (calls_frame cs bm) as (_ & Hlo & Hhi).
  set (bm1 := snd (calls bm cs)) in *.
  assert (H : forall nows b,
             current_buffer_size (snd (calls b (map ShouldDrop nows))) = current_buffer_size b /\
             buffer_state (snd (calls b (map ShouldDrop nows))) = buffer_state b).
  { clear. induction nows as [| now nows IH]; intros b; cbn [map calls]; [auto |].
    unfold should_drop_packets.
    destruct (current_buffer_size b >=? max_buffer_size b);
      match goal with |- context [calls ?b' (map ShouldDrop nows)] =>
        specialize (IH b'); destruct (calls b' (map ShouldDrop nows)) as [bs bm'] end;
      cbn [snd] in *; exact IH. }
  destruct (H nows (update_buffer_level bm1 level)) as [Hc Hs].
  destruct (calls_frame (map ShouldDrop nows) (update_buffer_level bm1 level)) as (_ & Hlo' & Hhi').
  rewrite Hc, Hs. cbn [update_buffer_level current_buffer_size buffer_state].
  unfold state_of_level. rewrite Hlo', Hhi'.
  cbn [update_buffer_level buffer_threshold_low buffer_threshold_high].
  rewrite Hlo, Hhi. auto.
Qed.

End BufferFacts.

Module CongestionFacts.

Import Num Congestion CongestionSpec CongestionProofs RunSpec.

Lemma run_app evs evs' c :
  run c (evs ++ evs') = (c' <- run c evs ;; run c' evs').
Proof.
  revert c. induction evs as [| ev evs IH]; intros c; cbn [run app bind]; [reflexivity |].
  destruct (step c ev); cbn [bind]; auto.
Qed.

(** what one event leaves alone *)
Lemma on_packet_loss_frame c is_timeout c' :
  on_packet_loss c is_timeout = Ok c' ->
  retransmissions c' = retransmissions c + (if is_timeout then 1 else 0) /\
  duplicate_acks c' = duplicate_acks c /\ rtt_samples c' = rtt_samples c.
Proof.
  unfold on_packet_loss. destruct is_timeout.
  - intros H. injection H as <-. cbn. auto.
  - destruct (Num.add _ _); cbn [bind]; [| discriminate].
    intros H. injection H as <-. cbn. split; [lia | auto].
Qed.

Lemma on_ack_received_frame c bytes_acked c' :
  on_ack_received c bytes_acked = Ok c' ->
  retransmissions c' = retransmissions c /\
  duplicate_acks c' = duplicate_acks c /\ rtt_samples c' = rtt_samples c /\
  slow_start_threshold c' = slow_start_threshold c.
Proof.
  unfold on_ack_received. destruct (state c).
  - destruct (Num.add _ _); cbn [bind]; [| discriminate].
    destruct (geb _ _); intros H; injection H as <-; cbn; auto.
  - destruct (truediv _ _); cbn [bind]; [| discriminate].
    destruct (Num.add _ _); cbn [bind]; [| discriminate].
    intros H; injection H as <-; cbn; auto.
  - intros H; injection H as <-; cbn; auto.
Qed.

Lemma run_counters evs : forall c c',
  run c evs = Ok c' ->
  retransmissions c' = retransmissions c + timeouts evs /\
  duplicate_acks c' = duplicate_acks c /\ rtt_samples c' = rtt_samples c.
Proof.
  induction evs as [| ev evs IH]; intros c c'; cbn [run].
  - intros H. injection H as <-. cbn. split; [lia | auto].
  - destruct (step c ev) as [c1 |] eqn:Hs; cbn [bind]; [| discriminate].
    intros Hr. destruct (IH _ _ Hr) as (H1 & H2 & H3).
    rewrite H1, H2, H3. destruct ev as [t | b]; cbn [step] in Hs.
    + destruct (on_packet_loss_frame _ _ _ Hs) as (-> & -> & ->).
      destruct t; cbn [timeouts]; split; auto; lia.
    + destruct (on_ack_received_frame _ _ _ Hs) as (-> & -> & -> & _).
      cbn [timeouts]. auto.
Qed.

(** X13: Whatever the events, a controller started fresh returns normally,
    [retransmissions] is the number of timeouts among them (a fast
    retransmit is not counted), and [duplicate_acks] and [rtt_samples] are
    never written: they stay 0 and empty. *)
Theorem retransmissions_count_timeouts (evs : list event) :
  exists c,
    run init evs = Ok c /\
    retransmissions c = timeouts evs /\
    duplicate_acks c = 0 /\ rtt_samples c = [].
Proof.
  destruct (inv_run evs init inv_init) as (c & Hrun & _).
  exists c. split; [assumption |].
  destruct (run_counters evs _ _ Hrun) as (H1 & H2 & H3).
  rewrite H1, H2, H3. cbn. auto.
Qed.

(** X14: Whatever the events, [get_congestion_window] on the controller they
    leave returns the floor of the window, an [int] even when the window
    has become a float in congestion avoidance. *)
Theorem window_is_reported_floored (evs : list event) :
  exists c,
    run init evs = Ok c /\
    get_congestion_window c = Ok (Qfloor (value (congestion_window c))).
Proof.
  destruct (inv_run evs init inv_init) as (c & Hrun & Hw & _).
  exists c. split; [assumption |]. unfold get_congestion_window.
  destruct (congestion_window c) as [z | f]; cbn [num_in Num.to_int value] in *.
  - rewrite Qfloor_Z. reflexivity.
  - destruct Hw as (Hp & _). apply to_int_floor. assumption.
Qed.

(** comparison of an [int] with a threshold *)
Lemma geb_true z a :
  num_in 2 (2 ^ 52) a -> geb (PyInt z) a = true -> (value a <= inject_Z z)%Q.
Proof.
  unfold geb. destruct a as [y | f]; cbn [num_in compare value].
  - intros _. destruct (Z.compare_spec z y) as [H | H | H]; try discriminate;
      intros _; rewrite <- Zle_Qle; lia.
  - intros ((m & e & -> & _) & _).
    destruct (Qcompare_spec (inject_Z z) (to_Q (S754_finite false m e))) as [H | H | H];
      try discriminate; intros _; lra.
Qed.

Lemma geb_int z a :
  num_in 2 (2 ^ 52) a ->
  geb (PyInt z) a = true <-> (value a <= inject_Z z)%Q.
Proof.
  intros Ha. split; [apply geb_true; assumption |].
  intros Hle. destruct (geb (PyInt z) a) eqn:E; [reflexivity |].
  pose proof (geb_false z a Ha E). lra.
Qed.

(** one acknowledgement in slow start *)
Lemma slow_start_ack c bytes_acked w :
  num_in 2 (2 ^ 52) (slow_start_threshold c) ->
  state c = slow_start -> congestion_window c = PyInt w ->
  exists c',
    on_ack_received c bytes_acked = Ok c' /\
    congestion_window c' = PyInt (w + 1) /\
    slow_start_threshold c' = slow_start_threshold c /\
    ((inject_Z (w + 1) < value (slow_start_threshold c))%Q -> state c' = slow_start) /\
    ((value (slow_start_threshold c) <= inject_Z (w + 1))%Q ->
       state c' = congestion_avoidance).
Proof.
  intros Hs Hst Hw. unfold on_ack_received. rewrite Hst, Hw. cbn [Num.add bind].
  destruct (geb (PyInt (w + 1)) (slow_start_threshold c)) eqn:E.
  - eexists. split; [reflexivity |]. cbn. split; [reflexivity |]. split; [reflexivity |].
    apply geb_true in E; [| assumption]. split; [intros; lra | reflexivity].
  - eexists. split; [reflexivity |]. cbn. split; [reflexivity |]. split; [reflexivity |].
    apply geb_false in E; [| assumption]. split; [reflexivity | intros; lra].
Qed.

Lemma slow_start_acks n : forall c bytes_acked w,
  num_in 2 (2 ^ 52) (slow_start_threshold c) ->
  state c = slow_start -> congestion_window c = PyInt w ->
  (inject_Z (w + Z.of_nat n) < value (slow_start_threshold c))%Q ->
  exists c',
    run c (acks n bytes_acked) = Ok c' /\
    congestion_window c' = PyInt (w + Z.of_nat n) /\
    slow_start_threshold c' = slow_start_threshold c /\
    state c' = slow_start.
Proof.
  induction n as [| n IH]; intros c b w Hs Hst Hw Hlt; cbn [acks repeat run].
  - exists c. rewrite Z.add_0_r. auto.
  - destruct (slow_start_ack c b w Hs Hst Hw) as (c1 & H1 & Hw1 & Hs1 & Hlt1 & _).
    cbn [step]. rewrite H1. cbn [bind].
    rewrite Nat2Z.inj_succ in Hlt.
    assert (Hstep : (inject_Z (w + 1) <= inject_Z (w + Z.succ (Z.of_nat n)))%Q)
      by (rewrite <- Zle_Qle; lia).
    destruct (IH c1 b (w + 1)) as (c' & Hr & Hw' & Hs' & Hst').
    + rewrite Hs1. assumption.
    + apply Hlt1. lra.
    + assumption.
    + rewrite Hs1. replace (w + 1 + Z.of_nat n) with (w + Z.succ (Z.of_nat n)) by lia.
      assumption.
    + exists c'. split; [exact Hr |]. rewrite Hw', Hs', Hs1, Nat2Z.inj_succ.
      split; [f_equal; lia | auto].
Qed.

(** X15: In slow start every acknowledgement adds exactly 1 to the window,
    whatever [bytes_acked] is: [n] of them take an [int] window [w] to
    [w + n] and stay in slow start as long as [w + n] is below the
    threshold; the acknowledgement with which the window reaches the
    threshold moves the controller to congestion avoidance. *)
Theorem slow_start_adds_one_per_ack
    (c : RTMPCongestionController) (bytes_acked w : Z) (n : nat) :
  inv c -> state c = slow_start -> congestion_window c = PyInt w ->
  (inject_Z (w + Z.of_nat n) < value (slow_start_threshold c))%Q ->
  exists c',
    run c (acks n bytes_acked) = Ok c' /\
    congestion_window c' = PyInt (w + Z.of_nat n) /\
    state c' = slow_start /\
    ((value (slow_start_threshold c) <= inject_Z (w + Z.of_nat n + 1))%Q ->
     exists c'',
       on_ack_received c' bytes_acked = Ok c'' /\
       congestion_window c'' = PyInt (w + Z.of_nat n + 1) /\
       state c'' = congestion_avoidance).
Proof.
  intros (_ & Hs & _) Hst Hw Hlt.
  destruct (slow_start_acks n c bytes_acked w Hs Hst Hw Hlt) as (c' & Hr & Hw' & Hs' & Hst').
  exists c'. split; [assumption |]. split; [assumption |]. split; [assumption |].
  intros Hge.
  destruct (slow_start_ack c' bytes_acked (w + Z.of_nat n)) as (c'' & H1 & Hw'' & _ & _ & Hca);
    [rewrite Hs'; assumption | assumption | assumption |].
  exists c''. split; [assumption |]. split; [assumption |]. apply Hca. rewrite Hs'. assumption.
Qed.

Lemma inv_restarted : inv restarted.
Proof.
  unfold inv, restarted. cbn. split; [lia |]. split; [lia |]. intros _.
  exists 1. split; reflexivity.
Qed.

Lemma slow_start_adds_one_per_ack_witness :
  exists c',
    run restarted (acks 6 1460) = Ok c' /\
    congestion_window c' = PyInt (1 + Z.of_nat 6) /\
    state c' = slow_start /\
    ((value (slow_start_threshold restarted) <= inject_Z (1 + Z.of_nat 6 + 1))%Q ->
     exists c'',
       on_ack_received c' 1460 = Ok c'' /\
       congestion_window c'' = PyInt (1 + Z.of_nat 6 + 1) /\
       state c'' = congestion_avoidance).
Proof.
  apply (slow_start_adds_one_per_ack restarted 1460 1 6).
  - exact inv_restarted.
  - reflexivity.
  - reflexivity.
  - vm_compute. reflexivity.
Defined.

(** X16: A fast retransmit followed by one acknowledgement leaves the window at
    the threshold [max(w // 2, 2)] of the loss: the three segments added
    on entering fast recovery are dropped again, and the controller is in
    congestion avoidance. *)
Theorem fast_recovery_is_single_shot (c : RTMPCongestionController) (bytes_acked : Z) :
  window_ok (congestion_window c) ->
  exists c1 c2,
    on_packet_loss c false = Ok c1 /\
    state c1 = fast_recovery /\
    on_ack_received c1 bytes_acked = Ok c2 /\
    congestion_window c2 = slow_start_threshold c1 /\
    slow_start_threshold c2 = slow_start_threshold c1 /\
    (value (congestion_window c2) ==
     inject_Z (floor_threshold (value (congestion_window c))))%Q /\
    (value (congestion_window c1) == value (congestion_window c2) + 3)%Q /\
    state c2 = congestion_avoidance.
Proof.
  intros Hw.
  destruct (on_packet_loss_spec c false Hw) as (c1 & H1 & _ & HQ & _ & Hf).
  destruct (Hf eq_refl) as (HwQ & Hst & _).
  exists c1. eexists. split; [assumption |]. split; [assumption |].
  unfold on_ack_received. rewrite Hst. split; [reflexivity |].
  cbn [congestion_window slow_start_threshold state set_window].
  split; [reflexivity |]. split; [reflexivity |]. split; [assumption |].
  split; [| reflexivity]. rewrite HwQ, HQ, inject_Z_plus. reflexivity.
Qed.

Lemma fast_recovery_is_single_shot_witness :
  exists c1 c2,
    on_packet_loss init false = Ok c1 /\
    state c1 = fast_recovery /\
    on_ack_received c1 0 = Ok c2 /\
    congestion_window c2 = slow_start_threshold c1 /\
    slow_start_threshold c2 = slow_start_threshold c1 /\
    (value (congestion_window c2) ==
     inject_Z (floor_threshold (value (congestion_window init))))%Q /\
    (value (congestion_window c1) == value (congestion_window c2) + 3)%Q /\
    state c2 = congestion_avoidance.
Proof. apply (fast_recovery_is_single_shot init 0). exact I. Defined.

(** every valid positive float is a representable rational *)
Lemma pos_float_repr f : pos_float f -> repr (to_Q f).
Proof.
  intros (m & e & -> & Hb). apply bounded_canonical in Hb. destruct Hb as [Hcan He].
  pose proof (digits2_pos_bounds m) as [_ Hhi].
  assert (Hm : Zpos m < 2 ^ 53).
  { assert (2 ^ Zpos (digits2_pos m) <= 2 ^ 53) by (apply Z.pow_le_mono_r; lia). lia. }
  exists (Zpos m), e. split; [lia |]. split; [lia |]. reflexivity.
Qed.

Lemma repr_2_54 : repr (inject_Z (2 ^ 54)).
Proof. exists (2 ^ 52), 2. split; [split; [lia | reflexivity] |]. split; [lia | reflexivity]. Qed.

(** [x + d] is not below [x] *)
Lemma add_ge x d :
  pos_float x -> pos_float d -> (to_Q x <= inject_Z (2 ^ 53))%Q -> (to_Q d <= 1)%Q ->
  (to_Q x <= to_Q (F64.add x d))%Q.
Proof.
  intros Hx Hd Hx53 Hd1.
  pose proof (add_nearest x d Hx Hd) as Hs.
  pose proof (pos_float_to_Q _ Hd) as Hd0.
  assert (H54 : (inject_Z (2 ^ 54) == 2 * inject_Z (2 ^ 53))%Q) by reflexivity.
  assert (H53 : (1 <= inject_Z (2 ^ 53))%Q) by (apply Qle_bool_iff; reflexivity).
  destruct (nearest_between _ _ _ _ Hs (pos_float_repr _ Hx) repr_2_54) as (_ & Hl & _).
  - lra.
  - lra.
  - assumption.
Qed.

(** [cwnd + 1 / cwnd] is not below [cwnd] *)
Lemma ca_increment_mono w :
  num_in 1 (2 ^ 53) w ->
  exists inc r,
    truediv (PyInt 1) w = Ok inc /\ Num.add w inc = Ok r /\
    num_in 1 (2 ^ 53) r /\ (value w <= value r)%Q.
Proof.
  intros Hw. destruct w as [z | f]; cbn [num_in] in Hw.
  - assert (Hz0 : (z =? 0) = false) by (apply Z.eqb_neq; lia).
    cbn [truediv]. rewrite Hz0.
    destruct z as [| p | p]; try lia. cbn [exact_int].
    assert (Hdig : Zdigits2 (Zpos p) <= 54) by (apply (Zdigits2_le _ 53); lia).
    pose proof (div_nearest 1 0 p 0 ltac:(cbn [Zdigits2 digits2_pos] in *; lia)) as Hd.
    assert (Hrep : repr (inject_Z (Zpos p))).
    { destruct (Z.eq_dec (Zpos p) (2 ^ 53)) as [-> | Hne]; [apply repr_2_53 |].
      apply repr_Z. lia. }
    destruct (of_int_repr (Zpos p) ltac:(lia) Hrep) as (x & Hx & Hpx & HxQ).
    assert (Hv : (to_Q (S754_finite false 1 0) / to_Q (S754_finite false p 0) == 1 / to_Q x)%Q).
    { rewrite HxQ. cbn [to_Q cond_Zopp]. change (pow2 0) with 1%Q.
      change (inject_Z 1) with 1%Q.
      assert (0 < inject_Z (Zpos p))%Q by (change 0%Q with (inject_Z 0); rewrite <- Zlt_Qlt; lia).
      field. lra. }
    apply (nearest_ext _ _ _ Hv) in Hd.
    assert (H1 : (1 <= to_Q x)%Q).
    { rewrite HxQ. change 1%Q with (inject_Z 1). rewrite <- Zle_Qle. lia. }
    assert (Hx53 : (to_Q x <= inject_Z (2 ^ 53))%Q) by (rewrite HxQ, <- Zle_Qle; lia).
    assert (Htop : (to_Q x <= inject_Z (2 ^ 53 - 1))%Q \/ (to_Q x == inject_Z (2 ^ 53))%Q).
    { destruct (Z.eq_dec (Zpos p) (2 ^ 53)) as [Heq | Hne].
      - right. rewrite HxQ, Heq. reflexivity.
      - left. rewrite HxQ, <- Zle_Qle. lia. }
    destruct (ca_step x _ Hpx H1 Htop Hd) as (Hpd & Hps & Hs1 & Hs2).
    remember (F64.div (S754_finite false 1 0) (S754_finite false p 0)) as d eqn:Ed.
    assert (Hd1 : (to_Q d <= 1)%Q).
    { assert (Hinv1 : (1 / to_Q x <= 1)%Q).
      { assert (Hinv : (1 / to_Q x * to_Q x == 1)%Q) by (field; lra).
        destruct (Qlt_le_dec 1 (1 / to_Q x)); [exfalso; nra | assumption]. }
      assert (Hinv0 : (0 <= 1 / to_Q x)%Q).
      { assert (Hinv : (1 / to_Q x * to_Q x == 1)%Q) by (field; lra).
        destruct (Qlt_le_dec (1 / to_Q x) 0); [exfalso; nra | assumption]. }
      destruct (nearest_between _ _ _ _ Hd (repr_Z 0 ltac:(split; [lia | reflexivity])) repr_1)
        as (_ & _ & Hu); [exact Hinv0 | exact Hinv1 | exact Hu]. }
    exists (PyFloat d), (PyFloat (F64.add x d)).
    split; [destruct Hpd as (m & e & Hde & _); rewrite Hde; reflexivity |].
    cbn [Num.add]. rewrite Hx. cbn [bind].
    split; [reflexivity |]. cbn [num_in value]. split; [auto |].
    rewrite <- HxQ. apply add_ge; assumption.
  - destruct Hw as (Hpf & H1 & H2).
    change (inject_Z 1) with 1%Q in H1.
    assert (Hz : is_zero f = false) by (destruct Hpf as (m & e & -> & _); reflexivity).
    cbn [truediv]. rewrite Hz.
    destruct (of_int_small 1 ltac:(split; [lia | reflexivity])) as (one & Hone & Hpone & HoneQ).
    rewrite Hone. cbn [bind].
    change (inject_Z 1) with 1%Q in HoneQ.
    assert (Hd : nearest (1 / to_Q f) (F64.div one f)).
    { destruct Hpone as (m1 & e1 & -> & _). destruct Hpf as (m & e & -> & _).
      pose proof (mag_ge m1 e1 0 ltac:(change (pow2 0) with 1%Q; lra)) as Hm1.
      pose proof (mag_le m e 53 ltac:(rewrite (pow2_Z 53) by lia; exact H2)) as Hm.
      pose proof (div_nearest m1 e1 m e ltac:(lia)) as Hdn.
      apply (nearest_ext _ (1 / to_Q (S754_finite false m e))) in Hdn; [exact Hdn |].
      rewrite HoneQ. reflexivity. }
    destruct (ca_step f _ Hpf H1 (float_top f Hpf H2) Hd) as (Hpd & Hps & Hs1 & Hs2).
    assert (Hd1 : (to_Q (F64.div one f) <= 1)%Q).
    { assert (Hinv : (1 / to_Q f * to_Q f == 1)%Q) by (field; lra).
      assert (Hinv1 : (1 / to_Q f <= 1)%Q)
        by (destruct (Qlt_le_dec 1 (1 / to_Q f)); [exfalso; nra | assumption]).
      assert (Hinv0 : (0 <= 1 / to_Q f)%Q)
        by (destruct (Qlt_le_dec (1 / to_Q f) 0); [exfalso; nra | assumption]).
      destruct (nearest_between _ _ _ _ Hd (repr_Z 0 ltac:(split; [lia | reflexivity])) repr_1)
        as (_ & _ & Hu); [exact Hinv0 | exact Hinv1 | exact Hu]. }
    exists (PyFloat (F64.div one f)), (PyFloat (F64.add f (F64.div one f))).
    split; [reflexivity |]. split; [reflexivity |]. cbn [num_in value].
    change (inject_Z 1) with 1%Q. split; [auto |].
    apply add_ge; assumption.
Qed.

(** X17: On every controller the events can produce, an acknowledgement
    returns normally and, outside fast recovery, never shrinks the window:
    slow start adds 1, and the float sum [cwnd + 1 / cwnd] of congestion
    avoidance is never rounded below [cwnd]. *)
Theorem ack_never_shrinks_window (c : RTMPCongestionController) (bytes_acked : Z) :
  inv c -> state c <> fast_recovery ->
  exists c',
    on_ack_received c bytes_acked = Ok c' /\
    (value (congestion_window c) <= value (congestion_window c'))%Q /\
    slow_start_threshold c' = slow_start_threshold c.
Proof.
  intros (Hw & Hs & Hss) Hst. unfold on_ack_received.
  destruct (state c) eqn:E; [| | congruence].
  - destruct (Hss eq_refl) as (z & Hz & _). rewrite Hz. cbn [Num.add bind].
    assert (Hle : (inject_Z z <= inject_Z (z + 1))%Q) by (rewrite <- Zle_Qle; lia).
    destruct (geb (PyInt (z + 1)) (slow_start_threshold c));
      eexists; (split; [reflexivity |]); cbn; auto.
  - destruct (ca_increment_mono _ Hw) as (inc & r & Hinc & Hr & _ & Hle).
    rewrite Hinc. cbn [bind]. rewrite Hr. cbn [bind].
    eexists. split; [reflexivity |]. cbn. auto.
Qed.

Lemma ack_never_shrinks_window_witness :
  exists c',
    on_ack_received init 1460 = Ok c' /\
    (value (congestion_window init) <= value (congestion_window c'))%Q /\
    slow_start_threshold c' = slow_start_threshold init.
Proof.
  apply (ack_never_shrinks_window init 1460).
  - exact inv_init.
  - discriminate.
Defined.

End CongestionFacts.

Module OptimizerFacts.

Import BitrateSpec BitrateProofs BitrateFacts RunSpec.

Section WithMean.

Variable mean_int : list Z -> result float64.

(** what one [optimize] call returns and leaves *)
Lemma optimize_inv o stats now d o' :
  Optimizer.optimize mean_int o stats now = Ok (d, o') ->
  Bitrate.update_network_stats (Optimizer.adaptive_bitrate o) stats =
    Ok (Optimizer.adaptive_bitrate o') /\
  Optimizer.buffer_manager o' =
    Buffer.update_buffer_level (Optimizer.buffer_manager o) (buffer_level stats) /\
  Optimizer.congestion_controller o' = Optimizer.congestion_controller o /\
  Optimizer.start_time o' = Optimizer.start_time o /\
  Optimizer.total_bytes_sent o' = Optimizer.total_bytes_sent o /\
  Optimizer.optimization_logs o' = Optimizer.optimization_logs o ++ [d] /\
  Optimizer.timestamp d = now /\
  Optimizer.optimal_bitrate d = Bitrate.current_bitrate (Optimizer.adaptive_bitrate o') /\
  Optimizer.network_state d = Bitrate.network_state (Optimizer.adaptive_bitrate o') /\
  Congestion.get_congestion_window (Optimizer.congestion_controller o) =
    Ok (Optimizer.congestion_window d) /\
  Optimizer.congestion_state d = Congestion.state (Optimizer.congestion_controller o) /\
  BufferStats.get_buffer_stats mean_int (Optimizer.buffer_manager o') =
    Ok (Optimizer.buffer_stats d).
Proof.
  unfold Optimizer.optimize.
  destruct (Bitrate.update_network_stats _ _) as [ab |]; cbn [bind]; [| discriminate].
  destruct (Congestion.get_congestion_window _) as [w |]; cbn [bind]; [| discriminate].
  destruct (BufferStats.get_buffer_stats _ _) as [bs |] eqn:Hbs; cbn [bind]; [| discriminate].
  intros H. injection H as <- <-. cbn. rewrite Hbs. auto 15.
Qed.

Lemma get_buffer_stats_inv bm bs :
  BufferStats.get_buffer_stats mean_int bm = Ok bs ->
  BufferStats.current_size bs = Buffer.current_buffer_size bm /\
  BufferStats.max_size bs = Buffer.max_buffer_size bm /\
  BufferStats.state bs = Buffer.buffer_state bm /\
  BufferStats.drop_count bs = Buffer.drop_count bm /\
  (Buffer.buffer_utilization bm = [] -> BufferStats.utilization bs = Num.PyInt 0) /\
  (Buffer.buffer_utilization bm <> [] ->
     exists m,
       mean_int (last_n 10 (Buffer.buffer_utilization bm)) = Ok m /\
       BufferStats.utilization bs = Num.PyFloat m).
Proof.
  unfold BufferStats.get_buffer_stats.
  destruct (Buffer.buffer_utilization bm) as [| l ls] eqn:Hu; cbn [bind].
  - intros H. injection H as <-. cbn. repeat split; auto. congruence.
  - destruct (mean_int _) as [m |]; cbn [bind]; [| discriminate].
    intros H. injection H as <-. cbn. repeat split; try discriminate. eauto.
Qed.

Lemma get_buffer_stats_total bm :
  (forall l, exists m, mean_int l = Ok m) ->
  exists bs, BufferStats.get_buffer_stats mean_int bm = Ok bs.
Proof.
  intros Htot. unfold BufferStats.get_buffer_stats.
  destruct (Buffer.buffer_utilization bm) as [| l ls]; cbn [bind]; [eauto |].
  destruct (Htot (last_n 10 (l :: ls))) as (m & ->). cbn [bind]. eauto.
Qed.

(** a run of [optimize] calls, component by component *)
Lemma run_inv ticks : forall o o',
  Optimizer.run mean_int o ticks = Ok o' ->
  Bitrate.feed (Optimizer.adaptive_bitrate o) (map fst ticks) =
    Ok (Optimizer.adaptive_bitrate o') /\
  Optimizer.buffer_manager o' = Buffer.run (Optimizer.buffer_manager o) (tick_levels ticks) /\
  Optimizer.congestion_controller o' = Optimizer.congestion_controller o /\
  Optimizer.start_time o' = Optimizer.start_time o /\
  Optimizer.total_bytes_sent o' = Optimizer.total_bytes_sent o /\
  exists ds,
    Optimizer.optimization_logs o' = Optimizer.optimization_logs o ++ ds /\
    map Optimizer.timestamp ds = map snd ticks /\
    map (fun d => BufferStats.current_size (Optimizer.buffer_stats d)) ds = tick_levels ticks /\
    Forall (fun d =>
              Congestion.get_congestion_window (Optimizer.congestion_controller o) =
                Ok (Optimizer.congestion_window d) /\
              Optimizer.congestion_state d =
                Congestion.state (Optimizer.congestion_controller o)) ds /\
    (wf (Optimizer.adaptive_bitrate o) ->
     Forall (fun d => in_range (Optimizer.optimal_bitrate d)) ds).
Proof.
  induction ticks as [| [x now] ticks IH]; intros o o'; cbn [Optimizer.run].
  - intros H. injection H as <-. cbn. repeat split; auto.
    exists []. rewrite app_nil_r. auto.
  - destruct (Optimizer.optimize mean_int o x now) as [[d o1] |] eqn:Hop; cbn [bind]; [| discriminate].
    cbn [snd]. intros Hr.
    destruct (optimize_inv _ _ _ _ _ Hop)
      as (Hab & Hbm & Hcc & Hst & Htb & Hlog & Hts & Hob & _ & Hcw & Hcs & Hbs).
    destruct (IH _ _ Hr) as (Hab' & Hbm' & Hcc' & Hst' & Htb' & ds & Hlog' & Hts' & Hlv' & Hcw' & Hin').
    cbn [map fst snd Bitrate.feed tick_levels]. rewrite Hab. cbn [bind].
    split; [exact Hab' |].
    split; [rewrite Hbm', Hbm; reflexivity |].
    split; [congruence |]. split; [congruence |]. split; [congruence |].
    exists (d :: ds). rewrite Hlog', Hlog, <- app_assoc. split; [reflexivity |].
    cbn [map]. rewrite Hts, Hts'. split; [reflexivity |].
    destruct (get_buffer_stats_inv _ _ Hbs) as (Hsz & _). rewrite Hsz, Hbm.
    cbn [Buffer.update_buffer_level Buffer.current_buffer_size].
    fold (tick_levels ticks). rewrite Hlv'. split; [reflexivity |].
    rewrite Hcc in Hcw'. split; [constructor; auto |].
    intros Hwf.
    destruct (update_ok _ x Hwf) as (cur & tgt & Hup & Hwf1 & _). cbn zeta in Hup.
    rewrite Hab in Hup. injection Hup as Hup.
    rewrite Hup in Hin', Hob. constructor; [| apply Hin'; exact Hwf1].
    rewrite Hob. destruct Hwf1 as (_ & _ & _ & Hc & _). exact Hc.
Qed.

(** a run returns when the controllers' calls do *)
Lemma run_total ticks : forall o w,
  (forall l, exists m, mean_int l = Ok m) ->
  wf (Optimizer.adaptive_bitrate o) ->
  Congestion.get_congestion_window (Optimizer.congestion_controller o) = Ok w ->
  exists o', Optimizer.run mean_int o ticks = Ok o'.
Proof.
  induction ticks as [| [x now] ticks IH]; intros o w Htot Hwf Hw; cbn [Optimizer.run]; [eauto |].
  unfold Optimizer.optimize.
  destruct (update_ok _ x Hwf) as (cur & tgt & Hup & Hwf1 & _). cbn zeta in Hup.
  rewrite Hup. cbn [bind]. rewrite Hw. cbn [bind].
  destruct (get_buffer_stats_total
              (Buffer.update_buffer_level (Optimizer.buffer_manager o) (buffer_level x)) Htot)
    as (bs & ->).
  cbn [bind snd]. apply (IH _ w); cbn; assumption.
Qed.

Lemma init_inv b t0 :
  exists o,
    Optimizer.init b t0 = Ok o /\
    Optimizer.adaptive_bitrate o = Bitrate.init b /\
    Buffer.init 1000 = Ok (Optimizer.buffer_manager o) /\
    Optimizer.congestion_controller o = Congestion.init /\
    Optimizer.start_time o = t0 /\
    Optimizer.total_bytes_sent o = 0 /\
    Optimizer.optimization_logs o = [].
Proof.
  unfold Optimizer.init.
  destruct BufferProofs.init_1000 as (bm & Hbm & _). rewrite Hbm. cbn [bind].
  eexists. split; [reflexivity |]. cbn. auto 10.
Qed.

End WithMean.

Lemma init_1000_value :
  Buffer.init 1000 =
    Ok (Buffer.mkRTMPBufferManager 1000 0 200 800 Buffer.normal 0 [] []).
Proof. vm_compute. reflexivity. Qed.

Lemma run_utilization ls : forall bm,
  Buffer.buffer_utilization (Buffer.run bm ls) = Buffer.buffer_utilization bm ++ ls.
Proof.
  unfold Buffer.run.
  induction ls as [| l ls IH]; intros bm; cbn [fold_left].
  - rewrite app_nil_r. reflexivity.
  - rewrite IH. cbn [Buffer.update_buffer_level Buffer.buffer_utilization].
    rewrite <- app_assoc. reflexivity.
Qed.

(** a fresh optimizer and a run on it *)
Lemma fresh_run mean_int b t0 ticks :
  in_range b -> (forall l, exists m, mean_int l = Ok m) ->
  exists o0 o,
    Optimizer.init b t0 = Ok o0 /\
    Optimizer.adaptive_bitrate o0 = Bitrate.init b /\
    Buffer.init 1000 = Ok (Optimizer.buffer_manager o0) /\
    Optimizer.congestion_controller o0 = Congestion.init /\
    Optimizer.start_time o0 = t0 /\
    Optimizer.total_bytes_sent o0 = 0 /\
    Optimizer.optimization_logs o0 = [] /\
    Optimizer.run mean_int o0 ticks = Ok o.
Proof.
  intros Hb Htot.
  destruct (init_inv b t0) as (o0 & Hi & Hab & Hbm & Hcc & Hst & Htb & Hlog).
  destruct (run_total mean_int ticks o0 1000 Htot) as (o & Hr).
  - rewrite Hab. apply wf_init. assumption.
  - rewrite Hcc. reflexivity.
  - exists o0, o. auto 10.
Qed.

(** X18: A run of [optimize] calls on a fresh optimizer is the run of
    [update_network_stats] calls on its bitrate controller side by side
    with the run of [update_buffer_level] calls on its buffer manager, fed
    the samples and their buffer levels: neither component sees the
    other.  (Initial bitrate within bounds, [np.mean] returning.) *)
Theorem optimizer_runs_components_side_by_side
    (mean_int : list Z -> result float64) (b : Z) (t0 : float64)
    (ticks : list (RTMPStats * float64)) :
  in_range b -> (forall l, exists m, mean_int l = Ok m) ->
  exists o0 o,
    Optimizer.init b t0 = Ok o0 /\
    Optimizer.run mean_int o0 ticks = Ok o /\
    Bitrate.feed (Bitrate.init b) (map fst ticks) = Ok (Optimizer.adaptive_bitrate o) /\
    Optimizer.buffer_manager o =
      Buffer.run (Optimizer.buffer_manager o0) (tick_levels ticks) /\
    Optimizer.start_time o = t0.
Proof.
  intros Hb Htot.
  destruct (fresh_run mean_int b t0 ticks Hb Htot)
    as (o0 & o & Hi & Hab & _ & _ & Hst & _ & _ & Hr).
  destruct (run_inv mean_int ticks _ _ Hr) as (Hf & Hbm & _ & Hst' & _).
  exists o0, o. rewrite Hab in Hf. rewrite Hst', Hst. auto.
Qed.

Lemma optimizer_runs_components_side_by_side_witness :
  exists o0 o,
    Optimizer.init 3000000 (lit 0) = Ok o0 /\
    Optimizer.run mean_zero o0 [(fast_sample, lit 1); (quiet, lit 2)] = Ok o /\
    Bitrate.feed (Bitrate.init 3000000) (map fst [(fast_sample, lit 1); (quiet, lit 2)]) =
      Ok (Optimizer.adaptive_bitrate o) /\
    Optimizer.buffer_manager o =
      Buffer.run (Optimizer.buffer_manager o0)
        (tick_levels [(fast_sample, lit 1); (quiet, lit 2)]) /\
    Optimizer.start_time o = lit 0.
Proof.
  apply (optimizer_runs_components_side_by_side mean_zero 3000000 (lit 0)
           [(fast_sample, lit 1); (quiet, lit 2)]).
  - unfold in_range. lia.
  - intros l. exists (lit 0). reflexivity.
Defined.

(** X19: [optimize] never sends an event to the congestion controller and
    never adds to [total_bytes_sent]: after any run on a fresh optimizer
    the controller is the one [__init__] built, the byte count is 0, and
    every logged decision reports window 1000 and state [slow_start]. *)
Theorem optimize_never_drives_congestion_controller
    (mean_int : list Z -> result float64) (b : Z) (t0 : float64)
    (ticks : list (RTMPStats * float64)) :
  in_range b -> (forall l, exists m, mean_int l = Ok m) ->
  exists o0 o,
    Optimizer.init b t0 = Ok o0 /\
    Optimizer.run mean_int o0 ticks = Ok o /\
    Optimizer.congestion_controller o = Congestion.init /\
    Optimizer.total_bytes_sent o = 0 /\
    Forall (fun d =>
              Optimizer.congestion_window d = 1000 /\
              Optimizer.congestion_state d = Congestion.slow_start)
           (Optimizer.optimization_logs o).
Proof.
  intros Hb Htot.
  destruct (fresh_run mean_int b t0 ticks Hb Htot)
    as (o0 & o & Hi & _ & _ & Hcc & _ & Htb & Hlog & Hr).
  destruct (run_inv mean_int ticks _ _ Hr)
    as (_ & _ & Hcc' & _ & Htb' & ds & Hlog' & _ & _ & Hcw & _).
  exists o0, o. split; [assumption |]. split; [assumption |].
  split; [congruence |]. split; [congruence |].
  rewrite Hlog', Hlog. cbn [app].
  rewrite Hcc in Hcw. eapply Forall_impl; [| exact Hcw].
  cbn beta. intros d [H1 H2]. split; [| exact H2].
  cbn in H1. injection H1 as <-. reflexivity.
Qed.

Lemma optimize_never_drives_congestion_controller_witness :
  exists o0 o,
    Optimizer.init 3000000 (lit 0) = Ok o0 /\
    Optimizer.run mean_zero o0 [(fast_sample, lit 1); (quiet, lit 2)] = Ok o /\
    Optimizer.congestion_controller o = Congestion.init /\
    Optimizer.total_bytes_sent o = 0 /\
    Forall (fun d =>
              Optimizer.congestion_window d = 1000 /\
              Optimizer.congestion_state d = Congestion.slow_start)
           (Optimizer.optimization_logs o).
Proof.
  apply (optimize_never_drives_congestion_controller mean_zero 3000000 (lit 0)
           [(fast_sample, lit 1); (quiet, lit 2)]).
  - unfold in_range. lia.
  - intros l. exists (lit 0). reflexivity.
Defined.



(** X21: The report after a run on a fresh optimizer: the count is the
    number of [optimize] calls, [recent_logs] are the last ten decisions
    (all of them when there are fewer), [total_bytes_sent] is 0, the
    runtime is the float difference of the two clock values, and the
    utilization is the [int] 0 before the first call and afterwards
    [np.mean] of the last ten buffer levels. *)
Theorem report_summarises_the_run
    (mean_int : list Z -> result float64) (b : Z) (t0 now : float64)
    (ticks : list (RTMPStats * float64)) :
  in_range b -> (forall l, exists m, mean_int l = Ok m) ->
  exists o0 o r,
    Optimizer.init b t0 = Ok o0 /\
    Optimizer.run mean_int o0 ticks = Ok o /\
    Optimizer.get_optimization_report mean_int o now = Ok r /\
    Optimizer.Report.optimization_logs_count r = Z.of_nat (length ticks) /\
    Optimizer.Report.recent_logs r = last_n 10 (Optimizer.optimization_logs o) /\
    length (Optimizer.Report.recent_logs r) = Nat.min (length ticks) 10 /\
    Optimizer.Report.total_bytes_sent r = 0 /\
    Optimizer.Report.runtime_seconds r = sub now t0 /\
    Optimizer.Report.final_bitrate r =
      Bitrate.current_bitrate (Optimizer.adaptive_bitrate o) /\
    (ticks = [] ->
       BufferStats.utilization (Optimizer.Report.buffer_stats r) = Num.PyInt 0) /\
    (ticks <> [] ->
       exists m,
         mean_int (last_n 10 (tick_levels ticks)) = Ok m /\
         BufferStats.utilization (Optimizer.Report.buffer_stats r) = Num.PyFloat m).
Proof.
  intros Hb Htot.
  destruct (fresh_run mean_int b t0 ticks Hb Htot)
    as (o0 & o & Hi & Hab & Hbm0 & _ & Hst & Htb & Hlog & Hr).
  destruct (run_inv mean_int ticks _ _ Hr)
    as (_ & Hbm & _ & Hst' & Htb' & ds & Hlog' & Hts & _).
  rewrite Hlog in Hlog'. cbn [app] in Hlog'.
  assert (Hlen : length (Optimizer.optimization_logs o) = length ticks).
  { rewrite Hlog', <- (length_map Optimizer.timestamp), Hts, length_map. reflexivity. }
  assert (Hu : Buffer.buffer_utilization (Optimizer.buffer_manager o) = tick_levels ticks).
  { rewrite Hbm, run_utilization. rewrite init_1000_value in Hbm0.
    injection Hbm0 as <-. reflexivity. }
  destruct (get_buffer_stats_total mean_int (Optimizer.buffer_manager o) Htot) as (bs & Hbs).
  destruct (get_buffer_stats_inv mean_int _ _ Hbs) as (_ & _ & _ & _ & Hu0 & Hu1).
  exists o0, o. eexists. split; [assumption |]. split; [assumption |].
  unfold Optimizer.get_optimization_report. rewrite Hbs. cbn [bind].
  split; [reflexivity |].
  cbn [Optimizer.Report.optimization_logs_count Optimizer.Report.recent_logs
       Optimizer.Report.total_bytes_sent Optimizer.Report.runtime_seconds
       Optimizer.Report.final_bitrate Optimizer.Report.buffer_stats].
  rewrite Hlen. split; [reflexivity |].
  assert (Hrecent : match Optimizer.optimization_logs o with
                    | [] => []
                    | _ :: _ => last_n 10 (Optimizer.optimization_logs o)
                    end = last_n 10 (Optimizer.optimization_logs o)).
  { destruct (Optimizer.optimization_logs o); reflexivity. }
  rewrite Hrecent. split; [reflexivity |].
  split; [rewrite length_last_n, Hlen; reflexivity |].
  split; [congruence |]. split; [congruence |].
  split; [reflexivity |]. rewrite Hu in Hu0, Hu1. split.
  - intros ->. apply Hu0. reflexivity.
  - intros Hne. apply Hu1. destruct ticks; [congruence | discriminate].
Qed.

Lemma report_summarises_the_run_witness :
  exists o0 o r,
    Optimizer.init 3000000 (lit 0) = Ok o0 /\
    Optimizer.run mean_zero o0 [(fast_sample, lit 1); (quiet, lit 2)] = Ok o /\
    Optimizer.get_optimization_report mean_zero o (lit 3) = Ok r /\
    Optimizer.Report.optimization_logs_count r =
      Z.of_nat (length [(fast_sample, lit 1); (quiet, lit 2)]) /\
    Optimizer.Report.recent_logs r = last_n 10 (Optimizer.optimization_logs o) /\
    length (Optimizer.Report.recent_logs r) =
      Nat.min (length [(fast_sample, lit 1); (quiet, lit 2)]) 10 /\
    Optimizer.Report.total_bytes_sent r = 0 /\
    Optimizer.Report.runtime_seconds r = sub (lit 3) (lit 0) /\
    Optimizer.Report.final_bitrate r =
      Bitrate.current_bitrate (Optimizer.adaptive_bitrate o) /\
    ([(fast_sample, lit 1); (quiet, lit 2)] = [] ->
       BufferStats.utilization (Optimizer.Report.buffer_stats r) = Num.PyInt 0) /\
    ([(fast_sample, lit 1); (quiet, lit 2)] <> [] ->
       exists m,
         mean_zero (last_n 10 (tick_levels [(fast_sample, lit 1); (quiet, lit 2)])) = Ok m /\
         BufferStats.utilization (Optimizer.Report.buffer_stats r) = Num.PyFloat m).
Proof.
  apply (report_summarises_the_run mean_zero 3000000 (lit 0) (lit 3)
           [(fast_sample, lit 1); (quiet, lit 2)]).
  - unfold in_range. lia.
  - intros l. exists (lit 0). reflexivity.
Defined.

End OptimizerFacts.
